(** * Netflix titles: sampling, cleaning and rating groups

    A shallow embedding of [netflix_visualization.py].  The script is a
    straight-line pandas program: it loads a table, draws a seeded sample of
    3000 rows and writes it to a file, copies the sample, derives a few
    columns on the copy, and builds the tables behind the charts.

    Python values that the script manipulates are modelled as follows.

    - A [str] is a [string]; each character stands for one code point below
      256 (the Latin-1 range), not for a byte of an encoding.
    - A missing value (NaN, None, NaT, <NA>) is [None]; pandas' [isna] does
      not tell them apart and neither does the script.
    - A table column is a typed list of optional cells ([column]); a table
      is its row labels and an ordered list of named columns ([DataFrame]).
    - Tables are objects on a heap and variables hold references: the script
      relies on [copy()] to separate the written sample from the table it
      cleans.
    - A raised exception ends the run; the heap keeps what was done before.

    What pandas and numpy compute inside [to_datetime], [to_numeric],
    [RandomState(seed).permutation], [to_csv] and [value_counts] is not part
    of the script.  These are the operations of the class [Library]; the
    properties of them that a proof uses are hypotheses of its section, and
    [Reference] gives one executable library that satisfies all of them. *)

From Stdlib Require Import ZArith String Ascii List Lia Permutation.
From Stdlib Require QArith DecimalString DecimalFacts DecimalNat.
From stdpp Require Import base list strings.

Local Open Scope string_scope.
#[local] Arguments String.append !s1 s2 : simpl nomatch.

(** ** Python strings *)

Module PyStr.

(** [str.isspace] on the code points below 256: tab, line feed, vertical
    tab, form feed, carriage return, the four separators 0x1c-0x1f, space,
    next line (0x85) and no-break space (0xa0). *)
Definition isspace (c : ascii) : bool :=
  let n := nat_of_ascii c in
  (((9 <=? n) && (n <=? 13)) || ((28 <=? n) && (n <=? 32))
   || (n =? 133) || (n =? 160))%nat.

(** [s.lstrip()] *)
Fixpoint lstrip (s : string) : string :=
  match s with
  | EmptyString => EmptyString
  | String c r => if isspace c then lstrip r else s
  end.

(** [s.rstrip()] *)
Fixpoint rstrip (s : string) : string :=
  match s with
  | EmptyString => EmptyString
  | String c r =>
      match rstrip r with
      | EmptyString => if isspace c then EmptyString else String c EmptyString
      | r' => String c r'
      end
  end.

(** [s.strip()] *)
Definition strip (s : string) : string := lstrip (rstrip s).

(** [s.split(sep, maxsplit)] for a one-character separator; [None] is the
    default [maxsplit=-1] (no limit).  The result is never empty. *)
Fixpoint split (sep : ascii) (maxsplit : option nat) (s : string)
  : list string :=
  match s with
  | EmptyString => [EmptyString]
  | String c r =>
      let continue :=
        match split sep maxsplit r with
        | p :: ps => String c p :: ps
        | [] => [String c EmptyString]
        end in
      if Ascii.eqb c sep then
        match maxsplit with
        | Some 0 => continue
        | Some (S k) => EmptyString :: split sep (Some k) r
        | None => EmptyString :: split sep None r
        end
      else continue
  end.

(** All characters satisfy [p]. *)
Fixpoint all (p : ascii -> bool) (s : string) : bool :=
  match s with
  | EmptyString => true
  | String c r => p c && all p r
  end.

Definition first_char (s : string) : option ascii :=
  match s with EmptyString => None | String c _ => Some c end.

Fixpoint last_char (s : string) : option ascii :=
  match s with
  | EmptyString => None
  | String c EmptyString => Some c
  | String _ r => last_char r
  end.

Definition contains (c : ascii) (s : string) : bool :=
  negb (all (fun d => negb (Ascii.eqb d c)) s).

(** The text before the first [sep], all of [s] when there is none. *)
Fixpoint before (sep : ascii) (s : string) : string :=
  match s with
  | EmptyString => EmptyString
  | String c r =>
      if Ascii.eqb c sep then EmptyString else String c (before sep r)
  end.

End PyStr.

(** ** Values and columns *)

(** Calendar part of a timestamp; the script only reads the year. *)
Record Timestamp := { year : Z; month : Z; day : Z }.

(** A Python object found in a cell. *)
Inductive value :=
| VNull
| VStr (s : string)
| VInt (z : Z)
| VFloat (q : QArith_base.Q)
| VTime (t : Timestamp).

(** [pd.isna(x)] on a scalar. *)
Definition isna (x : value) : bool :=
  match x with VNull => true | _ => false end.

(** Exceptions the script can raise. *)
Inductive exn :=
| ValueError (msg : string)
| KeyError (key : string)
| AttributeError (msg : string)
| IndexError (msg : string)
| TypeError (msg : string).

Inductive result (A : Type) :=
| Ok (a : A)
| Raise (e : exn).
Arguments Ok {A} a.
Arguments Raise {A} e.

(** ** Section 4.3 of the script: rating groups *)

(** [x in l] for a list of string literals: [==] against each element; only
    a [str] can be equal to one. *)
Definition py_in (x : value) (l : list string) : bool :=
  match x with
  | VStr s => bool_decide (s ∈ l)
  | _ => false
  end.

Definition simplify_rating (r : value) : string :=
  if py_in r ["TV-MA"; "R"; "NC-17"] then "Mature"
  else if py_in r ["TV-14"; "PG-13"] then "Teen"
  else "Family/Kids".

(** ** Sections 3.4 and 3.5: first listed country and genre *)

Definition no_attribute_split : exn :=
  AttributeError "object has no attribute 'split'".

(** [x.split(",")[0].strip()] on a [str]; any other non-null object has no
    [split]. *)
Definition first_token_stripped (x : value) : result (option string) :=
  if isna x then Ok None
  else match x with
       | VStr s =>
           match PyStr.split "," None s !! 0%nat with
           | Some t => Ok (Some (PyStr.strip t))
           | None => Raise (IndexError "list index out of range")
           end
       | _ => Raise no_attribute_split
       end.

Definition get_first_country (x : value) : result (option string) :=
  first_token_stripped x.

Definition get_main_genre (x : value) : result (option string) :=
  first_token_stripped x.

(** A column with its dtype: [object] (text read from the file, or the
    result of [apply]), [int64]/[Int64], [float64] and [datetime64]. *)
Inductive column :=
| ObjectCol (xs : list (option string))
| IntCol (xs : list (option Z))
| FloatCol (xs : list (option QArith_base.Q))
| DatetimeCol (xs : list (option Timestamp)).

Definition cell {A} (inj : A -> value) (o : option A) : value :=
  match o with Some a => inj a | None => VNull end.

(** The objects a column yields when it is iterated. *)
Definition cells (c : column) : list value :=
  match c with
  | ObjectCol xs => cell VStr <$> xs
  | IntCol xs => cell VInt <$> xs
  | FloatCol xs => cell VFloat <$> xs
  | DatetimeCol xs => cell VTime <$> xs
  end.

Definition is_object (c : column) : bool :=
  match c with ObjectCol _ => true | _ => false end.

(** Positional selection of cells, as [take] does for each column. *)
Definition take_at {A} (pos : list nat) (xs : list (option A))
  : list (option A) :=
  (fun i => default None (xs !! i)) <$> pos.

Definition col_take (pos : list nat) (c : column) : column :=
  match c with
  | ObjectCol xs => ObjectCol (take_at pos xs)
  | IntCol xs => IntCol (take_at pos xs)
  | FloatCol xs => FloatCol (take_at pos xs)
  | DatetimeCol xs => DatetimeCol (take_at pos xs)
  end.

(** Positions at which a boolean mask is true. *)
Fixpoint mask_positions (from : nat) (mask : list bool) : list nat :=
  match mask with
  | [] => []
  | b :: r => if b then from :: mask_positions (S from) r
              else mask_positions (S from) r
  end.

(** [s.notna()] and [s.isin(values)] *)
Definition notna (c : column) : list bool := (fun v => negb (isna v)) <$> cells c.
Definition isin (c : column) (values : list string) : list bool :=
  (fun v => py_in v values) <$> cells c.

(** ** Tables *)

Record DataFrame := {
  index : list nat;                    (* row labels *)
  columns : list (string * column)     (* in column order *)
}.

Fixpoint get_col (name : string) (cols : list (string * column))
  : option column :=
  match cols with
  | [] => None
  | (n, c) :: r => if decide (n = name) then Some c else get_col name r
  end.

(** Assignment to a column: in place when the name exists, appended as the
    last column otherwise. *)
Fixpoint set_col (name : string) (c : column) (cols : list (string * column))
  : list (string * column) :=
  match cols with
  | [] => [(name, c)]
  | (n, c0) :: r =>
      if decide (n = name) then (n, c) :: r else (n, c0) :: set_col name c r
  end.

Definition col_names (f : DataFrame) : list string := fst <$> columns f.
Definition nrows (f : DataFrame) : nat := length (index f).

(** [f.take(pos)]: the rows at the given positions, in that order, with
    their labels. *)
Definition df_take (pos : list nat) (f : DataFrame) : DataFrame :=
  {| index := (fun i => default 0%nat (index f !! i)) <$> pos;
     columns := prod_map id (col_take pos) <$> columns f |}.

(** [f[mask]] for a boolean mask. *)
Definition df_mask (mask : list bool) (f : DataFrame) : DataFrame :=
  df_take (mask_positions 0 mask) f.

(** Row [i] as the list of its cells in column order. *)
Definition row (f : DataFrame) (i : nat) : list (string * value) :=
  prod_map id (fun c => default VNull (cells c !! i)) <$> columns f.

(** The cell of column [name] in row [i]. *)
Definition at_ (f : DataFrame) (name : string) (i : nat) : option value :=
  c ← get_col name (columns f); cells c !! i.

(** A table as [read_csv] and the operations below produce it: distinct
    column names, distinct row labels, all columns as long as the index. *)
Record well_formed (f : DataFrame) : Prop := {
  wf_names : NoDup (col_names f);
  wf_index : NoDup (index f);
  wf_length : Forall (fun p => length (cells p.2) = nrows f) (columns f)
}.

(** ** State and exceptions *)

(** A computation over a state [S] that returns or raises; the state
    survives a raise. *)
Definition St (S A : Type) : Type := S -> result A * S.

Definition ret {S A} (a : A) : St S A := fun s => (Ok a, s).
Definition raise {S A} (e : exn) : St S A := fun s => (Raise e, s).
Definition bind {S A B} (m : St S A) (k : A -> St S B) : St S B :=
  fun s => match m s with
           | (Ok a, s') => k a s'
           | (Raise e, s') => (Raise e, s')
           end.
Definition lift {S A} (r : result A) : St S A := fun s => (r, s).

Declare Scope st_scope.
Delimit Scope st_scope with st.
Notation "x <- m ;; k" := (bind m (fun x => k))
  (at level 100, m at next level, right associativity) : st_scope.
Notation "m ;; k" := (bind m (fun _ => k))
  (at level 100, right associativity) : st_scope.
Local Open Scope st_scope.

Fixpoint for_each {S A} (l : list A) (body : A -> St S unit) : St S unit :=
  match l with
  | [] => ret tt
  | a :: r => body a ;; for_each r body
  end.

(** [f] applied to every element, stopping at the first raise. *)
Fixpoint map_result {A B} (f : A -> result B) (l : list A) : result (list B) :=
  match l with
  | [] => Ok []
  | a :: r =>
      match f a with
      | Raise e => Raise e
      | Ok b => match map_result f r with
                | Raise e => Raise e
                | Ok bs => Ok (b :: bs)
                end
      end
  end.

(** *** Statements on one table *)

Definition F := St DataFrame.

(** [df[name]] *)
Definition getitem (name : string) : F column :=
  fun f => match get_col name (columns f) with
           | Some c => (Ok c, f)
           | None => (Raise (KeyError name), f)
           end.

(** [df[name] = c] *)
Definition setitem (name : string) (c : column) : F unit :=
  fun f => (Ok tt, {| index := index f; columns := set_col name c (columns f) |}).

(** [df.select_dtypes(include="object").columns] *)
Definition select_dtypes_object : F (list string) :=
  fun f => (Ok (fst <$> filter (fun p => is_object p.2 = true) (columns f)), f).

(** *** The heap *)

Definition ref := nat.

Record world := {
  heap : list DataFrame;             (* objects by address *)
  files : list (string * string);    (* path and content *)
  np_random : Z                      (* state of numpy's global generator *)
}.

Definition M := St world.

Definition alloc (f : DataFrame) : M ref :=
  fun w => (Ok (length (heap w)),
            {| heap := (heap w ++ [f])%list; files := files w;
               np_random := np_random w |}).

Definition stale : exn := AttributeError "no such object".

Definition deref (r : ref) : M DataFrame :=
  fun w => match heap w !! r with
           | Some f => (Ok f, w)
           | None => (Raise stale, w)
           end.

(** Run statements on the table that [r] refers to, in place. *)
Definition on {A} (r : ref) (m : F A) : M A :=
  fun w => match heap w !! r with
           | Some f =>
               let '(res, f') := m f in
               (res, {| heap := <[r := f']> (heap w); files := files w;
                        np_random := np_random w |})
           | None => (Raise stale, w)
           end.

(** [df.copy()] *)
Definition copy (r : ref) : M ref := f <- deref r ;; alloc f.

Fixpoint write_file (path content : string) (fs : list (string * string))
  : list (string * string) :=
  match fs with
  | [] => [(path, content)]
  | (p, c) :: r =>
      if decide (p = path) then (p, content) :: r
      else (p, c) :: write_file path content r
  end.

Fixpoint read_file (path : string) (fs : list (string * string))
  : option string :=
  match fs with
  | [] => None
  | (p, c) :: r => if decide (p = path) then Some c else read_file path r
  end.

(** ** Series operations used by the script *)

Definition needs_str : exn :=
  AttributeError "Can only use .str accessor with string values!".
Definition needs_datetime : exn :=
  AttributeError "Can only use .dt accessor with datetimelike values".

(** [s.str]: only an object column has the accessor. *)
Definition str_accessor (c : column) : result (list (option string)) :=
  match c with ObjectCol xs => Ok xs | _ => Raise needs_str end.

(** [s.str.strip()]; nulls pass through. *)
Definition str_strip (xs : list (option string)) : list (option string) :=
  (fun o : option string => PyStr.strip <$> o) <$> xs.

(** [s.str.split(sep, n=k)] with [k > 0]: a list of parts per element, null
    for a null element. *)
Definition str_split (sep : ascii) (k : nat) (xs : list (option string))
  : list (option (list string)) :=
  (fun o : option string => PyStr.split sep (Some k) <$> o) <$> xs.

(** The table that [expand=True] builds from the lists of parts.  Its width
    is the longest row, a null element counting as one cell; a null element
    is null across the width and a short list is padded with nulls.  With no
    rows there are no columns. *)
Record Expanded := {
  width : nat;
  parts : list (list (option string))
}.

Definition expand (xs : list (option (list string))) : Expanded :=
  let w := max_list ((fun o => match o with
                               | None => 1%nat
                               | Some l => length l
                               end) <$> xs) in
  {| width := w;
     parts := (fun o => match o with
                        | None => replicate w None
                        | Some l =>
                            ((Some <$> l) ++ replicate (w - length l) None)%list
                        end) <$> xs |}.

Definition decimal (n : nat) : string :=
  DecimalString.NilZero.string_of_uint (Nat.to_uint n).

(** [e[k]]: column [k] of an expanded split, [KeyError] beyond the width. *)
Definition expanded_col (e : Expanded) (k : nat)
  : result (list (option string)) :=
  if decide (k < width e)%nat
  then Ok ((fun r => default None (r !! k)) <$> parts e)
  else Raise (KeyError (decimal k)).

(** The year of every timestamp, null for NaT. *)
Definition years (ts : list (option Timestamp)) : list (option Z) :=
  (fun o : option Timestamp => year <$> o) <$> ts.

(** [s.dt.year.astype("Int64")] *)
Definition dt_year (c : column) : result (list (option Z)) :=
  match c with
  | DatetimeCol ts => Ok (years ts)
  | _ => Raise needs_datetime
  end.

(** [s.apply(f)] *)
Definition apply {B} (f : value -> result B) (c : column) : result (list B) :=
  map_result f (cells c).

(** ** Section 4 of the script: the tables of the other charts

    Lines 107-118 and 281-282 read the cleaned table, build new tables from
    it and assign only to those.  A comparison or a subtraction on a column
    of the wrong dtype raises [TypeError]. *)

(** [df[name]] *)
Definition column_of (name : string) (df : DataFrame) : result column :=
  match get_col name (columns df) with
  | Some c => Ok c
  | None => Raise (KeyError name)
  end.

Definition has_text (xs : list (option string)) : bool :=
  existsb (fun o => match o with Some _ => true | None => false end) xs.

(** [s >= k] for an integer [k]: false on a null; text against a number and
    timestamps against a number raise. *)
Definition ge_scalar (c : column) (k : Z) : result (list bool) :=
  match c with
  | IntCol xs =>
      Ok ((fun o => match o with
                    | Some z => (k <=? z)%Z
                    | None => false
                    end) <$> xs)
  | FloatCol xs =>
      Ok ((fun o => match o with
                    | Some q => QArith_base.Qle_bool (QArith_base.inject_Z k) q
                    | None => false
                    end) <$> xs)
  | ObjectCol xs =>
      if has_text xs
      then Raise (TypeError "'>=' not supported between instances of 'str' and 'int'")
      else Ok ((fun _ => false) <$> xs)
  | DatetimeCol _ =>
      Raise (TypeError "Invalid comparison between dtype=datetime64[ns] and int")
  end.

(** Line 107: [df_modern = df[df["release_year"] >= 2004]]. *)
Definition df_modern (df : DataFrame) : result DataFrame :=
  match column_of "release_year" df with
  | Raise e => Raise e
  | Ok c =>
      match ge_scalar c 2004 with
      | Raise e => Raise e
      | Ok mask => Ok (df_mask mask df)
      end
  end.

(** The largest value that is not null, if there is one. *)
Definition max_Z (xs : list (option Z)) : option Z :=
  foldr (fun o acc => match o, acc with
                      | Some z, Some m => Some (Z.max z m)
                      | Some z, None => Some z
                      | None, _ => acc
                      end) None xs.

Definition max_Q (xs : list (option QArith_base.Q)) : option QArith_base.Q :=
  foldr (fun o acc => match o, acc with
                      | Some q, Some m =>
                          Some (if QArith_base.Qle_bool q m then m else q)
                      | Some q, None => Some q
                      | None, _ => acc
                      end) None xs.

Definition nan_to_int : exn :=
  ValueError "cannot convert float NaN to integer".

(** [int(s.max())] for a column of [df_modern]: the largest number, a float
    truncated towards zero; the maximum of no numbers is NaN, which [int]
    refuses.  (An object column gets here only empty and a datetime column
    never: line 107 has raised on them.) *)
Definition int_max (c : column) : result Z :=
  match c with
  | IntCol xs =>
      match max_Z xs with Some z => Ok z | None => Raise nan_to_int end
  | FloatCol xs =>
      match max_Q xs with
      | Some q => Ok (Z.quot (QArith_base.Qnum q) (Zpos (QArith_base.Qden q)))
      | None => Raise nan_to_int
      end
  | _ => Raise nan_to_int
  end.

(** The slider of lines 109-113 and the parameter of lines 114-118 bound to
    it. *)
Record Slider := {
  slider_min : Z;
  slider_max : Z;
  slider_step : Z;
  param_value : Z
}.

Definition year_param (modern : DataFrame) : result Slider :=
  match column_of "release_year" modern with
  | Raise e => Raise e
  | Ok c =>
      match int_max c with
      | Raise e => Raise e
      | Ok m =>
          Ok {| slider_min := 2004; slider_max := m;
                      slider_step := 1; param_value := m |}
      end
  end.

(** Lines 107-118. *)
Definition year_chart_inputs (df : DataFrame) : result (DataFrame * Slider) :=
  match df_modern df with
  | Raise e => Raise e
  | Ok modern =>
      match year_param modern with
      | Raise e => Raise e
      | Ok p => Ok (modern, p)
      end
  end.

(** A 64-bit signed integer: what is left of [z] in two's complement. *)
Definition wrap64 (z : Z) : Z :=
  ((z + 2 ^ 63) mod 2 ^ 64 - 2 ^ 63)%Z.

(** [x - y] on [Int64] cells: numpy subtracts without an overflow check. *)
Definition sub_Z (x y : option Z) : option Z :=
  a ← x; b ← y; Some (wrap64 (a - b)).

Definition sub_Q (x y : option QArith_base.Q) : option QArith_base.Q :=
  a ← x; b ← y; Some (QArith_base.Qminus a b).

Definition to_Q (x : option Z) : option QArith_base.Q :=
  QArith_base.inject_Z <$> x.

Definition no_minus : exn :=
  TypeError "unsupported operand type(s) for -".

(** [a - b] on two columns of one table.  Integers give integers of 64
    bits, a float
    operand gives floats, a null operand gives null.  Text has no minus; an
    object column without text gives nulls.  Timestamps and numbers have no
    minus either; two timestamp columns would give time spans, for which
    there is no column here, and which the script never forms. *)
Definition col_sub (a b : column) : result column :=
  match a, b with
  | IntCol xs, IntCol ys => Ok (IntCol (zip_with sub_Z xs ys))
  | IntCol xs, FloatCol ys =>
      Ok (FloatCol (zip_with sub_Q (to_Q <$> xs) ys))
  | FloatCol xs, IntCol ys =>
      Ok (FloatCol (zip_with sub_Q xs (to_Q <$> ys)))
  | FloatCol xs, FloatCol ys => Ok (FloatCol (zip_with sub_Q xs ys))
  | ObjectCol xs, (IntCol _ | FloatCol _) =>
      if has_text xs then Raise no_minus
      else Ok (ObjectCol ((fun _ => None) <$> xs))
  | (IntCol _ | FloatCol _), ObjectCol ys =>
      if has_text ys then Raise no_minus
      else Ok (ObjectCol ((fun _ => None) <$> ys))
  | ObjectCol xs, ObjectCol ys =>
      if has_text xs || has_text ys then Raise no_minus
      else Ok (ObjectCol ((fun _ => None) <$> xs))
  | _, _ => Raise no_minus
  end.

(** Lines 281-282:
    [lag_df = df[df["year_added"].notna()].copy()] and
    [lag_df["lag_years"] = lag_df["year_added"] - lag_df["release_year"]]. *)
Definition lag_df (df : DataFrame) : result DataFrame :=
  match column_of "year_added" df with
  | Raise e => Raise e
  | Ok y =>
      let lag := df_mask (notna y) df in
      match column_of "year_added" lag with
      | Raise e => Raise e
      | Ok year_added =>
          match column_of "release_year" lag with
          | Raise e => Raise e
          | Ok release_year =>
              match col_sub year_added release_year with
              | Raise e => Raise e
              | Ok lag_years =>
                  Ok {| index := index lag;
                              columns := set_col "lag_years" lag_years
                                           (columns lag) |}
              end
          end
      end
  end.

(** ** What the libraries compute *)

(** The characters of which a text that [pd.to_numeric] reads as a number
    is made: digits, signs, the point, the exponent mark, white space and
    the letters of "infinity" and "nan". *)
Definition number_char (c : ascii) : bool :=
  let n := nat_of_ascii c in
  ((48 <=? n) && (n <=? 57))%nat
  || PyStr.isspace c
  || existsb (Ascii.eqb c) (list_ascii_of_string "+-.eEiInNfFaAtTyY").

(** What the parser of [pd.to_numeric] reports for a text that is a number:
    its value as a float and, when the text is an integer literal that fits
    in 64 bits, that integer. *)
Record Parsed := {
  as_float : QArith_base.Q;
  as_int : option Z
}.

Class Library := {
  (** the parser of [pd.to_numeric] on one string; [None]: not a number,
      which [errors="coerce"] turns into NaN *)
  to_numeric : string -> option Parsed;
  (** [pd.to_datetime(s, errors="coerce")]; [None] is NaT. *)
  to_datetime : column -> list (option Timestamp);
  (** [np.random.RandomState(seed).permutation(n)] *)
  permutation : Z -> nat -> list nat;
  (** [np.random.permutation(n)] with the global generator in state [g]:
      the permutation and the state the generator is left in *)
  np_random_permutation : Z -> nat -> list nat * Z;
  (** the text that [f.to_csv(path, index=False)] writes *)
  to_csv : DataFrame -> string;
  (** [s.value_counts().nlargest(k)]: labels and counts, in order *)
  value_counts_nlargest : nat -> column -> list (string * Z)
}.

(** ** The script *)

Section Script.

Context `{Library}.

(** [pd.to_numeric(s, errors="coerce")] on an object column: [int64] when
    every element is an integer literal, else [float64] with NaN for a null
    and for a text that is not a number. *)
Definition to_numeric_coerce (xs : list (option string)) : column :=
  let parsed := (fun o => o ≫= to_numeric) <$> xs in
  match mapM (fun p : option Parsed => p ≫= as_int) parsed with
  | Some zs => IntCol (Some <$> zs)
  | None => FloatCol ((fun p : option Parsed => as_float <$> p) <$> parsed)
  end.

(** The permutation that [choice] draws.  With [random_state=seed] pandas
    makes a generator from [seed] for this call and the global generator is
    not consulted; with [random_state=None] (the default) the permutation
    comes from the global generator, which moves on. *)
Definition draw (random_state : option Z) (pop_size : nat) : M (list nat) :=
  match random_state with
  | Some seed => ret (permutation seed pop_size)
  | None =>
      fun w =>
        let '(p, g) := np_random_permutation (np_random w) pop_size in
        (Ok p, {| heap := heap w; files := files w; np_random := g |})
  end.

(** [f.sample(n=n, random_state=random_state)]: numpy's [choice] without
    replacement refuses an empty population and a sample larger than the
    population, and otherwise takes the first [n] positions of a
    permutation.  The new table keeps the labels of the rows it takes. *)
Definition sample (df : ref) (n : nat) (random_state : option Z) : M ref :=
  f <- deref df ;;
  let pop_size := nrows f in
  if decide (pop_size = 0 ∧ n ≠ 0)%nat then
    raise (ValueError "a must be greater than 0 unless no samples are taken")
  else if decide (pop_size < n)%nat then
    raise (ValueError
      "Cannot take a larger sample than population when 'replace=False'")
  else
    p <- draw random_state pop_size ;;
    alloc (df_take (take n p) f).

(** [f.to_csv(path, index=False)] *)
Definition df_to_csv (df : ref) (path : string) : M unit :=
  f <- deref df ;;
  fun w => (Ok tt, {| heap := heap w;
                      files := write_file path (to_csv f) (files w);
                      np_random := np_random w |}).

Definition subset_path : string := "data/netflix_titles_subset_3000.csv".

(** Lines 47-48. *)
Definition sampler (df_full : ref) : M ref :=
  df_subset <- sample df_full 3000 (Some 42%Z) ;;
  df_to_csv df_subset subset_path ;;
  ret df_subset.

(** Line 67: [df[col] = df[col].str.strip()]. *)
Definition strip_column (col : string) : F unit :=
  c <- getitem col ;;
  s <- lift (str_accessor c) ;;
  setitem col (ObjectCol (str_strip s)).

(** Lines 65-67. *)
Definition strip_object_columns : F unit :=
  str_cols <- select_dtypes_object ;;
  for_each str_cols strip_column.

(** Lines 70-71. *)
Definition parse_date_added : F unit :=
  c <- getitem "date_added" ;;
  setitem "date_added" (DatetimeCol (to_datetime c)) ;;
  d <- getitem "date_added" ;;
  y <- lift (dt_year d) ;;
  setitem "year_added" (IntCol y).

(** Lines 74-76. *)
Definition split_duration : F unit :=
  c <- getitem "duration" ;;
  s <- lift (str_accessor c) ;;
  let duration_split := expand (str_split " " 1 s) in
  p0 <- lift (expanded_col duration_split 0) ;;
  setitem "duration_int" (to_numeric_coerce p0) ;;
  p1 <- lift (expanded_col duration_split 1) ;;
  setitem "duration_type" (ObjectCol p1).

(** Line 84. *)
Definition primary_country : F unit :=
  c <- getitem "country" ;;
  r <- lift (apply get_first_country c) ;;
  setitem "country_primary" (ObjectCol r).

(** Line 92. *)
Definition main_genre : F unit :=
  c <- getitem "listed_in" ;;
  r <- lift (apply get_main_genre c) ;;
  setitem "main_genre" (ObjectCol r).

(** Lines 65-92, all on the table named [df]. *)
Definition clean : F unit :=
  strip_object_columns ;;
  parse_date_added ;;
  split_duration ;;
  primary_country ;;
  main_genre.

(** Lines 62-92. *)
Definition cleaner (df_subset : ref) : M ref :=
  df <- copy df_subset ;;
  on df clean ;;
  ret df.

(** [f[mask]] as a new table. *)
Definition df_getitem_mask (df : ref) (mask : list bool) : M ref :=
  f <- deref df ;; alloc (df_mask mask f).

(** Lines 107-118: [df_modern] is built before the slider reads its
    maximum. *)
Definition year_chart (df : ref) : M (ref * Slider) :=
  f <- deref df ;;
  modern <- lift (df_modern f) ;;
  r <- alloc modern ;;
  slider <- lift (year_param modern) ;;
  ret (r, slider).

(** [s.value_counts().nlargest(k).reset_index()] on a column named [name]:
    a table of the labels and of their counts. *)
Definition counts_table (name : string) (l : list (string * Z)) : DataFrame :=
  {| index := seq 0 (length l);
     columns := [(name, ObjectCol (Some <$> l.*1));
                 ("count", IntCol (Some <$> l.*2))] |}.

(** [f.columns = names] *)
Definition set_column_names (names : list string) : F unit :=
  fun f =>
    if decide (length names = length (columns f))
    then (Ok tt, {| index := index f; columns := zip names (columns f).*2 |})
    else (Raise (ValueError "Length mismatch"), f).

(** Lines 153-154. *)
Definition genre_counts (df : ref) : M ref :=
  g <- on df (getitem "main_genre") ;;
  r <- alloc (counts_table "main_genre" (value_counts_nlargest 10 g)) ;;
  on r (set_column_names ["genre"; "count"]) ;;
  ret r.

(** [s.tolist()] on a column of labels. *)
Definition tolist (c : column) : list string :=
  match c with
  | ObjectCol xs => omap id xs
  | _ => []
  end.

(** What line 183 hands to [apply]. *)
Definition rating_group_of (x : value) : result (option string) :=
  Ok (Some (simplify_rating x)).

(** Lines 182-186, [rate] being the function that line 183 hands to
    [apply]. *)
Definition df_genre_tables (rate : value -> result (option string))
    (df genre_counts : ref) : M (ref * ref) :=
  g <- on df (getitem "main_genre") ;;
  r <- on df (getitem "rating") ;;
  selected <- df_getitem_mask df (zip_with andb (notna g) (notna r)) ;;
  df_genre <- copy selected ;;
  on df_genre (
    r <- getitem "rating" ;;
    rating_group <- lift (apply rate r) ;;
    setitem "rating_group" (ObjectCol rating_group)) ;;
  genres <- on genre_counts (getitem "genre") ;;
  let top_genres := tolist genres in
  g <- on df_genre (getitem "main_genre") ;;
  df_genre_top <- df_getitem_mask df_genre (isin g top_genres) ;;
  ret (df_genre, df_genre_top).

(** Lines 153-154 and 182-186: the ten most frequent genres and the two
    tables behind the heat map. *)
Definition heatmap_tables (df : ref) : M (ref * ref) :=
  counts <- genre_counts df ;;
  df_genre_tables rating_group_of df counts.

(** The tables the script has bound to its variables at line 187, and the
    slider. *)
Record Bindings := {
  df_subset_ref : ref;
  df_ref : ref;
  df_modern_ref : ref;
  year_slider : Slider;
  genre_counts_ref : ref;
  df_genre_ref : ref;
  df_genre_top_ref : ref
}.

(** The statements of lines 47-186, [df_full] being the table that line 32
    loaded and [rate] the function that line 183 hands to [apply].  Output
    to the console and the chart objects of lines 120-150 and 156-169, which
    read the tables and change nothing, are left out. *)
Definition script_with (rate : value -> result (option string))
    (df_full : ref) : M Bindings :=
  df_subset <- sampler df_full ;;
  df <- cleaner df_subset ;;
  year <- year_chart df ;;
  counts <- genre_counts df ;;
  hm <- df_genre_tables rate df counts ;;
  ret {| df_subset_ref := df_subset; df_ref := df;
         df_modern_ref := year.1; year_slider := year.2;
         genre_counts_ref := counts;
         df_genre_ref := hm.1; df_genre_top_ref := hm.2 |}.

(** The script hands [simplify_rating]. *)
Definition script (df_full : ref) : M Bindings :=
  script_with rating_group_of df_full.

End Script.

(** ** A reference library

    One executable choice for the library functions: decimal naturals for
    [to_numeric], dates written as in the data set ("September 25, 2021")
    for [to_datetime], a rotation by the seed for [permutation], and a plain
    comma-separated rendering for [to_csv]. *)

Module Reference.

Definition to_nat (s : string) : option nat :=
  Nat.of_uint <$> DecimalString.NilZero.uint_of_string s.

(** The float nearest to [n / d] for positive [n] and [d], ties to even,
    with a significand of 53 bits (no subnormals, no overflow). *)
Definition round53 (n d : Z) : QArith_base.Q :=
  let e0 := (Z.log2 n - Z.log2 d)%Z in
  let e := if (d * 2 ^ Z.max 0 e0 <=? n * 2 ^ Z.max 0 (- e0))%Z
           then e0 else (e0 - 1)%Z in
  let shift := (52 - e)%Z in
  let num := (n * 2 ^ Z.max 0 shift)%Z in
  let den := (d * 2 ^ Z.max 0 (- shift))%Z in
  let m := (num / den)%Z in
  let r := (num mod den)%Z in
  let m' := if (2 * r <? den)%Z then m
            else if (den <? 2 * r)%Z then (m + 1)%Z
            else if Z.even m then m else (m + 1)%Z in
  Qreduction.Qred
    (QArith_base.Qmake (m' * 2 ^ Z.max 0 (- shift))
                       (Z.to_pos (2 ^ Z.max 0 shift))).

Definition float_of_nat (n : nat) : QArith_base.Q :=
  if (Z.of_nat n <=? 2 ^ 53)%Z then QArith_base.inject_Z (Z.of_nat n)
  else round53 (Z.of_nat n) 1.

(** An integer literal. *)
Definition integer (n : nat) : Parsed :=
  {| as_float := float_of_nat n;
     as_int := if (Z.of_nat n <? 2 ^ 63)%Z then Some (Z.of_nat n) else None |}.

(** [a.b] with at least one digit. *)
Definition fraction (s : string) : option Parsed :=
  match PyStr.split "." None s with
  | [a; b] =>
      if decide (a = "" /\ b = "") then None
      else
        n ← (if decide (a = "") then Some 0%nat else to_nat a);
        m ← (if decide (b = "") then Some 0%nat else to_nat b);
        let scale := (10 ^ Z.of_nat (String.length b))%Z in
        let num := (Z.of_nat n * scale + Z.of_nat m)%Z in
        Some {| as_float := if (num =? 0)%Z then QArith_base.inject_Z 0
                            else round53 num scale;
                as_int := None |}
  | _ => None
  end.

Definition negative (p : Parsed) : Parsed :=
  {| as_float := QArith_base.Qopp (as_float p);
     as_int := Z.opp <$> as_int p |}.

Definition unsigned (s : string) : option Parsed :=
  match to_nat s with
  | Some n => Some (integer n)
  | None => fraction s
  end.

(** Decimal integers and fractions with a sign and white space around
    them; exponents, "inf" and "nan" are not read. *)
Definition to_numeric (s : string) : option Parsed :=
  if PyStr.all number_char s then
    match to_nat s with
    | Some n => Some (integer n)
    | None =>
        match PyStr.strip s with
        | String "-" r => negative <$> unsigned r
        | String "+" r => unsigned r
        | r => unsigned r
        end
    end
  else None.

Definition month_names : list string :=
  ["January"; "February"; "March"; "April"; "May"; "June"; "July";
   "August"; "September"; "October"; "November"; "December"].

Fixpoint position (s : string) (l : list string) (from : nat) : option nat :=
  match l with
  | [] => None
  | x :: r => if decide (x = s) then Some from else position s r (S from)
  end.

Definition parse_date (s : string) : option Timestamp :=
  match PyStr.split " " None s with
  | [m; d; y] =>
      m' ← position m month_names 1;
      d' ← match PyStr.split "," None d with
           | [dd; EmptyString] => to_nat dd
           | _ => None
           end;
      y' ← to_nat y;
      Some {| year := Z.of_nat y'; month := Z.of_nat m'; day := Z.of_nat d' |}
  | _ => None
  end.

Definition to_datetime (c : column) : list (option Timestamp) :=
  match c with
  | ObjectCol xs => (fun o => o ≫= parse_date) <$> xs
  | DatetimeCol ts => ts
  | IntCol xs => (fun _ => None) <$> xs
  | FloatCol xs => (fun _ => None) <$> xs
  end.

Definition permutation (seed : Z) (n : nat) : list nat :=
  rotate (Z.to_nat seed) (seq 0 n).

Definition np_random_permutation (g : Z) (n : nat) : list nat * Z :=
  (rotate (Z.to_nat g) (seq 0 n), (g + 1)%Z).

Definition quote : string := String (ascii_of_nat 34) EmptyString.

Fixpoint double_quotes (s : string) : string :=
  match s with
  | EmptyString => EmptyString
  | String c r =>
      if Ascii.eqb c (ascii_of_nat 34)
      then String c (String c (double_quotes r))
      else String c (double_quotes r)
  end.

Definition field (s : string) : string :=
  if PyStr.contains "," s || PyStr.contains (ascii_of_nat 34) s
     || PyStr.contains (ascii_of_nat 10) s
  then quote +:+ double_quotes s +:+ quote
  else s.

Definition show_Z (z : Z) : string :=
  DecimalString.NilZero.string_of_int (Z.to_int z).

Definition show (v : value) : string :=
  match v with
  | VNull => ""
  | VStr s => field s
  | VInt z => show_Z z
  | VFloat q =>
      show_Z (QArith_base.Qnum q) +:+ "/" +:+ show_Z (Zpos (QArith_base.Qden q))
  | VTime t => show_Z (year t) +:+ "-" +:+ show_Z (month t) +:+ "-" +:+ show_Z (day t)
  end.

Fixpoint join (sep : string) (l : list string) : string :=
  match l with
  | [] => ""
  | [x] => x
  | x :: r => x +:+ sep +:+ join sep r
  end.

Definition newline : string := String (ascii_of_nat 10) EmptyString.

Definition to_csv (f : DataFrame) : string :=
  join newline
    (join "," (field <$> col_names f)
     :: ((fun i => join "," (show <$> (snd <$> row f i))) <$> seq 0 (nrows f)))
  +:+ newline.

Fixpoint count (s : string) (l : list (option string)) : nat :=
  match l with
  | [] => 0
  | Some x :: r => if decide (x = s) then S (count s r) else count s r
  | None :: r => count s r
  end.

Fixpoint distinct (l : list (option string)) (seen : list string)
  : list string :=
  match l with
  | [] => []
  | Some x :: r =>
      if decide (x ∈ seen) then distinct r seen
      else x :: distinct r (x :: seen)
  | None :: r => distinct r seen
  end.

(** Insertion into a list sorted by decreasing count; the labels are
    inserted last to first, so earlier labels come first among equal
    counts. *)
Fixpoint insert_by (k : nat) (x : string) (l : list (nat * string))
  : list (nat * string) :=
  match l with
  | [] => [(k, x)]
  | (k', y) :: r =>
      if decide (k' <= k)%nat then (k, x) :: l else (k', y) :: insert_by k x r
  end.

Definition value_counts_nlargest (k : nat) (c : column)
  : list (string * Z) :=
  match c with
  | ObjectCol xs =>
      (fun p : nat * string => (p.2, Z.of_nat p.1))
        <$> take k (foldr (fun x acc => insert_by (count x xs) x acc) []
                          (distinct xs []))
  | _ => []
  end.

#[export] Instance library : Library :=
  Build_Library to_numeric to_datetime permutation np_random_permutation
    to_csv value_counts_nlargest.

End Reference.

(** ** Example tables *)

(** Five titles in the layout of the data set. *)
Definition fixture : DataFrame :=
  {| index := seq 0 5;
     columns :=
       [("show_id", ObjectCol [Some "s1"; Some "s2"; Some "s3"; Some "s4"; Some "s5"]);
        ("type", ObjectCol [Some "Movie"; Some "TV Show"; Some "Movie";
                            Some "TV Show"; Some "Movie"]);
        ("title", ObjectCol [Some "Alpha"; Some "Beta "; Some "Gamma";
                             Some "Delta"; Some "Epsilon"]);
        ("director", ObjectCol [Some "A. One"; None; Some "C. Three"; None; None]);
        ("cast", ObjectCol [None; Some "B. Two, B. Too"; None; None; None]);
        ("country", ObjectCol [Some "United States, India"; None;
                               Some " France "; Some "India"; Some "Japan"]);
        ("date_added", ObjectCol [Some "March 5, 2019"; Some "September 25, 2021";
                                  None; Some "sometime"; Some "July 1, 2020"]);
        ("release_year", IntCol [Some 2018; Some 2021; Some 1999; Some 2004;
                                 Some 2020]%Z);
        ("rating", ObjectCol [Some "TV-MA"; Some "PG-13"; None; Some "TV-Y";
                              Some "R"]);
        ("duration", ObjectCol [Some "90 min"; Some "1 Season"; None;
                                Some "2 Seasons"; Some " "]);
        ("listed_in", ObjectCol [Some "Dramas, International Movies";
                                 Some " Dramas "; None; Some "Kids' TV";
                                 Some "Comedies"]);
        ("description", ObjectCol [Some "a"; Some "b"; Some "c"; Some "d";
                                   Some "e"])] |}.

(** [fixture] with another [duration] column. *)
Definition with_duration (c : column) : DataFrame :=
  {| index := index fixture;
     columns := set_col "duration" c (columns fixture) |}.

(** "90", a tab, "min". *)
Definition tabbed : string := "90" +:+ String (ascii_of_nat 9) "min".

Definition fixture_tab : DataFrame :=
  with_duration
    (ObjectCol [Some tabbed; Some "1 Season"; None; Some "2 Seasons"; Some " "]).

(** [fixture] without the column [name]. *)
Definition fixture_without (name : string) : DataFrame :=
  {| index := index fixture;
     columns := filter (fun p => p.1 <> name) (columns fixture) |}.

(** [fixture] with durations written without a space, and with durations
    read as numbers. *)
Definition fixture_single_words : DataFrame :=
  with_duration
    (ObjectCol [Some "90min"; Some "1Season"; None; Some "2Seasons"; Some " "]).

Definition fixture_numeric_durations : DataFrame :=
  with_duration (IntCol [Some 90; Some 1; None; Some 2; None]%Z).

(** What the cleaning step makes of [fixture] with the reference library. *)
Definition cleaned_fixture : DataFrame :=
  (clean (H := Reference.library) fixture).2.

(** [fixture] with a duration that is not a whole number, and with
    durations that are all whole numbers. *)
Definition fixture_fraction : DataFrame :=
  with_duration
    (ObjectCol [Some "1.5 h"; Some "1 Season"; None; Some "2 Seasons"; Some " "]).

Definition fixture_whole_durations : DataFrame :=
  with_duration
    (ObjectCol [Some "90 min"; Some "1 Season"; Some "45 min";
                Some "2 Seasons"; Some "3 Seasons"]).

(** [fixture] repeated [k] times, with row labels [0 .. 5k-1]. *)
Definition repeat_col (k : nat) (c : column) : column :=
  match c with
  | ObjectCol xs => ObjectCol (mjoin (replicate k xs))
  | IntCol xs => IntCol (mjoin (replicate k xs))
  | FloatCol xs => FloatCol (mjoin (replicate k xs))
  | DatetimeCol xs => DatetimeCol (mjoin (replicate k xs))
  end.

Definition catalogue (k : nat) : DataFrame :=
  {| index := seq 0 (5 * k);
     columns := prod_map id (repeat_col k) <$> columns fixture |}.

(** A catalogue of 3000 titles none of which has a duration: the column is
    empty in the file and is read as [float64]. *)
Definition catalogue_without_durations : DataFrame :=
  {| index := index (catalogue 600);
     columns := set_col "duration" (FloatCol (replicate 3000 None))
                  (columns (catalogue 600)) |}.

(** A catalogue of 3000 titles whose durations are all single words. *)
Definition catalogue_of_single_words : DataFrame :=
  {| index := index (catalogue 600);
     columns := set_col "duration" (ObjectCol (replicate 3000 (Some "90min")))
                  (columns (catalogue 600)) |}.

(** ** Specifications the proofs compare the code with *)

(** [t] is [s] without its leading and trailing white space. *)
Definition trimmed (s t : string) : Prop :=
  (exists pre post,
      s = pre +:+ t +:+ post
      /\ PyStr.all PyStr.isspace pre = true
      /\ PyStr.all PyStr.isspace post = true)
  /\ (forall c, PyStr.first_char t = Some c -> PyStr.isspace c = false)
  /\ (forall c, PyStr.last_char t = Some c -> PyStr.isspace c = false).

(** [t] is the text of [s] before its first [sep], all of [s] when there is
    none. *)
Definition first_token (sep : ascii) (s t : string) : Prop :=
  PyStr.contains sep t = false
  /\ (s = t \/ exists rest, s = t +:+ String sep rest).

(** [parts] is [s] cut at its first [sep]: one part when there is none, else
    the text before it and the text after it. *)
Definition cut_at_first (sep : ascii) (s : string) (parts : list string)
  : Prop :=
  (PyStr.contains sep s = false /\ parts = [s])
  \/ (exists a b, s = a +:+ String sep b
                  /\ PyStr.contains sep a = false /\ parts = [a; b]).

(** The spec's wording of the duration split, "on the first whitespace": the
    text before the first white-space character and the text after it. *)
Fixpoint split_first_whitespace (s : string) : list string :=
  match s with
  | EmptyString => [EmptyString]
  | String c r =>
      if PyStr.isspace c then [EmptyString; r]
      else match split_first_whitespace r with
           | p :: ps => String c p :: ps
           | [] => [String c EmptyString]
           end
  end.

(** The spec's wording of the first part, "parsed as an integer": the
    number that a text of decimal digits denotes, nothing for other text. *)
Definition parse_integer (s : string) : option Z :=
  (fun u => Z.of_nat (Nat.of_uint u)) <$> DecimalString.NilZero.uint_of_string s.

(** [v] is the cell that [to_numeric_coerce] makes of an element that the
    parser reads as [p]: in a [float64] column the float, NaN when it is not
    a number; in an [int64] column the integer. *)
Definition holds_number (v : value) (p : option Parsed) : Prop :=
  v = cell VFloat (as_float <$> p)
  \/ exists z, p ≫= as_int = Some z /\ v = VInt z.

Definition is_int64 (c : column) : bool :=
  match c with IntCol _ => true | _ => false end.

(** The name of the class of an exception, and the class that the spec
    names for a table with too few rows. *)
Definition exn_name (e : exn) : string :=
  match e with
  | ValueError _ => "ValueError"
  | KeyError _ => "KeyError"
  | AttributeError _ => "AttributeError"
  | IndexError _ => "IndexError"
  | TypeError _ => "TypeError"
  end.

Definition insufficient_rows_error : string := "InsufficientRowsError".

(** The columns after lines 65-67: every object column stripped. *)
Definition strip_col (c : column) : column :=
  match c with
  | ObjectCol xs => ObjectCol (str_strip xs)
  | _ => c
  end.

Definition strip_frame (f : DataFrame) : DataFrame :=
  {| index := index f; columns := prod_map id strip_col <$> columns f |}.

(** The columns when the loop of lines 66-67 has handled the names [ns]. *)
Definition strip_if (ns : list string) (n : string) (c : column) : column :=
  if decide (n ∈ ns) then strip_col c else c.

Definition strip_named (ns : list string) (cs : list (string * column))
  : list (string * column) :=
  (fun p => (p.1, strip_if ns p.1 p.2)) <$> cs.

(** The table that [sample] builds from a table [f] with enough rows. *)
Definition sampled `{Library} (n : nat) (seed : Z) (f : DataFrame)
  : DataFrame :=
  df_take (take n (permutation seed (nrows f))) f.

(** The message of the [ValueError] that [sample] raises on a table [f] with
    too few rows. *)
Definition sample_error (n : nat) (f : DataFrame) : string :=
  if decide (nrows f = 0 /\ n <> 0)%nat
  then "a must be greater than 0 unless no samples are taken"
  else "Cannot take a larger sample than population when 'replace=False'".

(** A table behind the heat map: no null [rating], no null [main_genre],
    and [rating_group] the group of the [rating] in the same row. *)
Definition grouped (t : DataFrame) : Prop :=
  exists ratings genres,
    get_col "rating" (columns t) = Some ratings
    /\ get_col "main_genre" (columns t) = Some genres
    /\ Forall (fun v => isna v = false) (cells ratings)
    /\ Forall (fun v => isna v = false) (cells genres)
    /\ length (cells genres) = length (cells ratings)
    /\ get_col "rating_group" (columns t)
       = Some (ObjectCol ((fun v => Some (simplify_rating v)) <$> cells ratings)).

(** The positions [pos] go upwards: the rows they select keep their order
    and none is selected twice. *)
Definition increasing (pos : list nat) : Prop :=
  forall i1 i2 j1 j2,
    pos !! i1 = Some j1 -> pos !! i2 = Some j2 -> (i1 < i2)%nat -> (j1 < j2)%nat.

(** [t] holds, row for row, the rows of [f] at the positions [pos]: their
    labels and, in every column but those named in [except], their cells. *)
Definition rows_at (pos : list nat) (f t : DataFrame) (except : list string)
  : Prop :=
  nrows t = length pos
  /\ forall i j, pos !! i = Some j ->
       index t !! i = index f !! j
       /\ forall n, n ∉ except -> at_ t n i = at_ f n j.

(** [t] is [f] cut down to the rows that satisfy [P], in the order of [f]. *)
Definition selects (P : nat -> Prop) (f t : DataFrame) (except : list string)
  : Prop :=
  exists pos,
    increasing pos
    /\ (forall j, j ∈ pos <-> (j < nrows f)%nat /\ P j)
    /\ rows_at pos f t except.

(** A column that holds nothing but text and nulls. *)
Definition text_or_null (c : column) : Prop :=
  Forall (fun v => v = VNull \/ exists s, v = VStr s) (cells c).

(** The six assignments of lines 70-92 on the columns [cs]. *)
Definition derive (D Y I T C G : column) (cs : list (string * column))
  : list (string * column) :=
  set_col "main_genre" G
    (set_col "country_primary" C
      (set_col "duration_type" T
        (set_col "duration_int" I
          (set_col "year_added" Y
            (set_col "date_added" D cs))))).

(** [Cleaned f g]: what a run of [clean] on [f] that returns has read, and
    the table [g] it leaves. *)
Inductive Cleaned `{Library} (f : DataFrame) : DataFrame -> Prop :=
| Cleaned_intro (date_added duration country listed_in : column)
    (xs p0 p1 cp mg : list (option string)) :
    get_col "date_added" (columns (strip_frame f)) = Some date_added ->
    get_col "duration" (columns (strip_frame f)) = Some duration ->
    str_accessor duration = Ok xs ->
    expanded_col (expand (str_split " " 1 xs)) 0 = Ok p0 ->
    expanded_col (expand (str_split " " 1 xs)) 1 = Ok p1 ->
    get_col "country" (columns (strip_frame f)) = Some country ->
    apply get_first_country country = Ok cp ->
    get_col "listed_in" (columns (strip_frame f)) = Some listed_in ->
    apply get_main_genre listed_in = Ok mg ->
    Cleaned f
      {| index := index f;
         columns :=
           derive (DatetimeCol (to_datetime date_added))
                  (IntCol (years (to_datetime date_added)))
                  (to_numeric_coerce p0)
                  (ObjectCol p1) (ObjectCol cp) (ObjectCol mg)
                  (columns (strip_frame f)) |}.

(** The columns that lines 71-92 create, in the order of the assignments,
    and the columns that lines 70-92 assign to. *)
Definition derived_names : list string :=
  ["year_added"; "duration_int"; "duration_type"; "country_primary";
   "main_genre"].

Definition assigned_names : list string := "date_added" :: derived_names.

(** The table that lines 153-154 make of the genre column [g]. *)
Definition genre_counts_of `{Library} (g : column) : DataFrame :=
  let l := value_counts_nlargest 10 g in
  {| index := seq 0 (length l);
     columns := [("genre", ObjectCol (Some <$> l.*1));
                 ("count", IntCol (Some <$> l.*2))] |}.

(** A function that groups a rating as [simplify_rating] does and refuses a
    null. *)
Definition group_of_present (x : value) : result (option string) :=
  if isna x then Raise (TypeError "no rating")
  else Ok (Some (simplify_rating x)).

(** * Proofs *)

(** ** Python strings *)

Module PyStrFacts.
Import PyStr.

Lemma lstrip_idem s : lstrip (lstrip s) = lstrip s.
Proof.
  induction s as [|c r IH]; simpl; [done|].
  destruct (isspace c) eqn:Hc; [done|]. simpl. by rewrite Hc.
Qed.

Lemma rstrip_cons c r :
  rstrip (String c r) =
    if decide (rstrip r = EmptyString)
    then (if isspace c then EmptyString else String c EmptyString)
    else String c (rstrip r).
Proof. simpl. destruct (rstrip r); by case_decide. Qed.

Lemma rstrip_idem s : rstrip (rstrip s) = rstrip s.
Proof.
  induction s as [|c r IH]; [done|].
  rewrite rstrip_cons. case_decide as Hr.
  - destruct (isspace c) eqn:Hc; [done|].
    rewrite rstrip_cons. simpl. by rewrite Hc.
  - rewrite rstrip_cons, IH. by case_decide.
Qed.

Lemma rstrip_lstrip s : rstrip (lstrip s) = lstrip (rstrip s).
Proof.
  induction s as [|c r IH]; [done|].
  rewrite rstrip_cons. simpl lstrip at 1.
  destruct (isspace c) eqn:Hc.
  - rewrite IH. case_decide as Hr; [by rewrite Hr|]. simpl. by rewrite Hc.
  - rewrite rstrip_cons. case_decide; simpl; by rewrite Hc.
Qed.

Lemma strip_idem s : strip (strip s) = strip s.
Proof.
  unfold strip.
  by rewrite rstrip_lstrip, rstrip_idem, lstrip_idem.
Qed.

(** *** What [strip] removes and what it leaves *)

Lemma lstrip_split s :
  exists pre, s = pre +:+ lstrip s /\ all isspace pre = true.
Proof.
  induction s as [|c r (pre & Hs & Hpre)]; [by exists EmptyString|].
  simpl. destruct (isspace c) eqn:Hc.
  - exists (String c pre). split; [|simpl; by rewrite Hc].
    change (String c r = String c (pre +:+ lstrip r)). by f_equal.
  - by exists EmptyString.
Qed.

Lemma rstrip_split s :
  exists post, s = rstrip s +:+ post /\ all isspace post = true.
Proof.
  induction s as [|c r (post & Hs & Hpost)]; [by exists EmptyString|].
  rewrite rstrip_cons. case_decide as Hr.
  - rewrite Hr in Hs. simpl in Hs. subst post.
    destruct (isspace c) eqn:Hc.
    + exists (String c r). split; [done|]. simpl. by rewrite Hc.
    + exists r. by split.
  - exists post. split; [|done].
    change (String c r = String c (rstrip r +:+ post)). by f_equal.
Qed.

Lemma lstrip_first s c : first_char (lstrip s) = Some c -> isspace c = false.
Proof.
  induction s as [|d r IH]; simpl; [done|].
  destruct (isspace d) eqn:Hd; [done|]. simpl. by intros [= <-].
Qed.

Lemma last_char_cons c r :
  last_char (String c r) = if decide (r = EmptyString) then Some c else last_char r.
Proof. destruct r; by case_decide. Qed.

Lemma rstrip_last s c : last_char (rstrip s) = Some c -> isspace c = false.
Proof.
  induction s as [|d r IH]; [done|].
  rewrite rstrip_cons. case_decide as Hr.
  - destruct (isspace d) eqn:Hd; [done|]. simpl. by intros [= <-].
  - rewrite last_char_cons. by case_decide.
Qed.

Lemma app_assoc a b c : (a +:+ b) +:+ c = a +:+ (b +:+ c).
Proof. induction a as [|x r IH]; simpl; [done|]. by rewrite IH. Qed.

Lemma strip_trimmed s : trimmed s (strip s).
Proof.
  unfold strip. split; [|split].
  - destruct (rstrip_split s) as (post & Hs & Hpost).
    destruct (lstrip_split (rstrip s)) as (pre & Hr & Hpre).
    exists pre, post. split; [|done].
    rewrite <- app_assoc, <- Hr. done.
  - apply lstrip_first.
  - rewrite <- rstrip_lstrip. apply rstrip_last.
Qed.

(** *** The first token *)

Lemma split_nonempty sep m s : split sep m s <> [].
Proof.
  revert m. induction s as [|c r IH]; intros m; simpl; [done|].
  destruct (Ascii.eqb c sep); [destruct m as [[|k]|]|]; try done.
  - pose proof (IH (Some 0%nat)). by destruct (split sep (Some 0%nat) r).
  - pose proof (IH m). by destruct (split sep m r).
Qed.

Lemma split_zero sep s : split sep (Some 0%nat) s = [s].
Proof.
  induction s as [|c r IH]; simpl; [done|]. rewrite IH. by destruct (Ascii.eqb c sep).
Qed.

Lemma split_head sep m s :
  m <> Some 0%nat -> split sep m s !! 0%nat = Some (before sep s).
Proof.
  intros Hm. induction s as [|c r IH]; simpl; [done|].
  destruct (Ascii.eqb c sep).
  - destruct m as [[|k]|]; done.
  - pose proof (split_nonempty sep m r).
    destruct (split sep m r); [done|]. simpl in *. by injection IH as ->.
Qed.

Lemma contains_cons sep c r :
  contains sep (String c r) = Ascii.eqb c sep || contains sep r.
Proof. unfold contains. simpl. destruct (Ascii.eqb c sep); simpl; done. Qed.

Lemma before_first_token sep s : first_token sep s (before sep s).
Proof.
  induction s as [|c r [IH1 IH2]]; [split; [done|by left]|].
  simpl. destruct (Ascii.eqb_spec c sep) as [->|Hne].
  - split; [done|]. right. by exists r.
  - split.
    + rewrite contains_cons, IH1. by destruct (Ascii.eqb_spec c sep).
    + destruct IH2 as [IH2|[rest IH2]]; [left|right; exists rest];
        simpl; by rewrite <- IH2.
Qed.

(** Stripping the whole text first does not change the stripped first
    token, as long as the separator is not white space. *)
Lemma before_lstrip sep s :
  isspace sep = false -> before sep (lstrip s) = lstrip (before sep s).
Proof.
  intros Hsep. induction s as [|c r IH]; [done|]. simpl.
  destruct (isspace c) eqn:Hc.
  - destruct (Ascii.eqb_spec c sep) as [->|_]; [congruence|].
    simpl. by rewrite Hc.
  - simpl. destruct (Ascii.eqb c sep); [done|]. simpl. by rewrite Hc.
Qed.

Lemma before_cons sep c r :
  before sep (String c r) =
    if Ascii.eqb c sep then EmptyString else String c (before sep r).
Proof. done. Qed.

Lemma rstrip_before_rstrip sep s :
  isspace sep = false ->
  rstrip (before sep (rstrip s)) = rstrip (before sep s).
Proof.
  intros Hsep. induction s as [|c r IH]; [done|].
  rewrite (rstrip_cons c r), (before_cons sep c r).
  destruct (Ascii.eqb c sep) eqn:Hcs.
  - apply Ascii.eqb_eq in Hcs as ->. rewrite Hsep.
    case_decide; by rewrite before_cons, Ascii.eqb_refl.
  - rewrite (rstrip_cons c (before sep r)), <- IH.
    case_decide as Hr.
    + rewrite Hr. simpl (rstrip (before sep EmptyString)).
      destruct (isspace c) eqn:Hc; [done|].
      rewrite before_cons, Hcs. simpl. by rewrite Hc.
    + rewrite before_cons, Hcs, rstrip_cons. done.
Qed.

Lemma strip_before_strip sep s :
  isspace sep = false ->
  strip (before sep (strip s)) = strip (before sep s).
Proof.
  intros Hsep. unfold strip.
  rewrite before_lstrip by done.
  rewrite rstrip_lstrip, lstrip_idem.
  by rewrite rstrip_before_rstrip.
Qed.

(** *** Cutting at the first separator *)

Lemma split_one_none sep s :
  contains sep s = false -> split sep (Some 1%nat) s = [s].
Proof.
  induction s as [|c r IH]; [done|]. rewrite contains_cons. simpl.
  destruct (Ascii.eqb c sep); [done|]. simpl. by intros ->%IH.
Qed.

Lemma split_one_app sep a b :
  contains sep a = false -> split sep (Some 1%nat) (a +:+ String sep b) = [a; b].
Proof.
  induction a as [|c r IH]; simpl.
  - by rewrite Ascii.eqb_refl, split_zero.
  - rewrite contains_cons. destruct (Ascii.eqb c sep); [done|].
    simpl. by intros ->%IH.
Qed.

Lemma contains_cases sep s :
  contains sep s = false
  \/ exists a b, s = a +:+ String sep b /\ contains sep a = false.
Proof.
  induction s as [|c r IH]; [by left|].
  rewrite contains_cons. destruct (Ascii.eqb_spec c sep) as [->|Hne].
  - right. by exists EmptyString, r.
  - destruct IH as [IH|(a & b & -> & Ha)]; [by left|].
    right. exists (String c a), b. split; [done|].
    rewrite contains_cons, Ha. by destruct (Ascii.eqb_spec c sep).
Qed.

Lemma split_one_cut sep s : cut_at_first sep s (split sep (Some 1%nat) s).
Proof.
  destruct (contains_cases sep s) as [Hs|(a & b & -> & Ha)].
  - left. by rewrite split_one_none.
  - right. exists a, b. by rewrite split_one_app.
Qed.

End PyStrFacts.

(** ** Rating groups *)

Lemma py_in_spec x l : py_in x l = true <-> exists s, x = VStr s /\ s ∈ l.
Proof.
  destruct x; simpl; try (split; [done|by intros (? & ? & ?)]).
  rewrite bool_decide_eq_true. split; [eauto|by intros (? & [= ->] & ?)].
Qed.

Lemma mature_not_teen s :
  s ∈ ["TV-MA"; "R"; "NC-17"] -> s ∈ ["TV-14"; "PG-13"] -> False.
Proof.
  rewrite !elem_of_cons, !elem_of_nil.
  intros [->|[->|[->|[]]]] [?|[?|[]]]; discriminate.
Qed.

(** C1.  [simplify_rating] returns for every value, null and unknown codes
    included, exactly one of the three groups: "Mature" for "TV-MA", "R" and
    "NC-17", "Teen" for "TV-14" and "PG-13", and "Family/Kids" for
    everything else. *)
Theorem simplify_rating_total (r : value) :
  (simplify_rating r = "Mature" \/ simplify_rating r = "Teen"
   \/ simplify_rating r = "Family/Kids")
  /\ (simplify_rating r = "Mature"
      <-> exists s, r = VStr s /\ s ∈ ["TV-MA"; "R"; "NC-17"])
  /\ (simplify_rating r = "Teen"
      <-> exists s, r = VStr s /\ s ∈ ["TV-14"; "PG-13"])
  /\ (simplify_rating r = "Family/Kids"
      <-> ~ exists s, r = VStr s
                      /\ s ∈ ["TV-MA"; "R"; "NC-17"; "TV-14"; "PG-13"])
  /\ simplify_rating VNull = "Family/Kids"
  /\ simplify_rating (VStr "TV-Y") = "Family/Kids".
Proof.
  unfold simplify_rating.
  pose proof (py_in_spec r ["TV-MA"; "R"; "NC-17"]) as Hm.
  pose proof (py_in_spec r ["TV-14"; "PG-13"]) as Ht.
  assert (Hall : forall s, s ∈ ["TV-MA"; "R"; "NC-17"; "TV-14"; "PG-13"]
                   <-> s ∈ ["TV-MA"; "R"; "NC-17"] \/ s ∈ ["TV-14"; "PG-13"]).
  { intros s. rewrite !elem_of_cons, !elem_of_nil. tauto. }
  destruct (py_in r ["TV-MA"; "R"; "NC-17"]);
    [|destruct (py_in r ["TV-14"; "PG-13"])].
  - destruct (proj1 Hm eq_refl) as (s & -> & Hs).
    repeat split; eauto; try discriminate.
    + intros (s' & [= <-] & Hs'). destruct (mature_not_teen s Hs Hs').
    + intros Hn. destruct Hn. exists s. rewrite Hall. auto.
  - destruct (proj1 Ht eq_refl) as (s & -> & Hs).
    repeat split; eauto; try discriminate.
    + intros (s' & [= <-] & Hs'). destruct (mature_not_teen s Hs' Hs).
    + intros Hn. destruct Hn. exists s. rewrite Hall. auto.
  - repeat split; eauto; try discriminate.
    + intros H. apply Hm in H. discriminate.
    + intros H. apply Ht in H. discriminate.
    + intros _ (s & -> & [H|H]%Hall).
      * assert (false = true) by (apply Hm; eauto). discriminate.
      * assert (false = true) by (apply Ht; eauto). discriminate.
Qed.

(** ** Columns by name *)

Section Columns.

Implicit Types (n m : string) (c : column) (cs : list (string * column)).

Lemma get_set_col n m c cs :
  get_col n (set_col m c cs) = if decide (m = n) then Some c else get_col n cs.
Proof.
  induction cs as [|[k c0] r IH]; simpl.
  - by repeat case_decide.
  - repeat (case_decide; simpl; subst); done.
Qed.

Lemma get_set_col_eq n c cs : get_col n (set_col n c cs) = Some c.
Proof. by rewrite get_set_col, decide_True. Qed.

Lemma get_set_col_ne n m c cs :
  m <> n -> get_col n (set_col m c cs) = get_col n cs.
Proof. intros. by rewrite get_set_col, decide_False. Qed.

Lemma get_col_None n cs : get_col n cs = None <-> n ∉ cs.*1.
Proof.
  induction cs as [|[k c0] r IH]; simpl.
  - split; [intros _; apply not_elem_of_nil|done].
  - rewrite not_elem_of_cons. case_decide; subst.
    + split; [done|]. by intros [? _].
    + rewrite IH. intuition congruence.
Qed.

Lemma elem_of_get_col n c cs :
  NoDup cs.*1 -> (n, c) ∈ cs -> get_col n cs = Some c.
Proof.
  induction cs as [|[k c0] r IH]; simpl.
  - by intros _ ?%elem_of_nil.
  - rewrite NoDup_cons. intros [Hk Hr] [[= -> ->]|Hin]%elem_of_cons.
    + by rewrite decide_True.
    + rewrite decide_False; [auto|].
      intros ->. apply Hk. apply list_elem_of_fmap. by exists (n, c).
Qed.

Lemma names_set_col n c cs :
  (set_col n c cs).*1 =
    match get_col n cs with Some _ => cs.*1 | None => (cs.*1 ++ [n])%list end.
Proof.
  induction cs as [|[k c0] r IH]; [done|].
  simpl set_col. simpl get_col. case_decide; [done|].
  rewrite !fmap_cons, IH. by destruct (get_col n r).
Qed.

Lemma names_set_col_Some n c c' cs :
  get_col n cs = Some c' -> (set_col n c cs).*1 = cs.*1.
Proof. intros Hn. by rewrite names_set_col, Hn. Qed.

Lemma NoDup_set_col n c cs : NoDup cs.*1 -> NoDup (set_col n c cs).*1.
Proof.
  intros Hcs. rewrite names_set_col.
  destruct (get_col n cs) eqn:Hn; [done|].
  apply NoDup_app. split; [done|]. split; [|apply NoDup_singleton].
  intros x Hx ->%list_elem_of_singleton. by apply get_col_None in Hn.
Qed.

(** Two column lists with the same names in the same order and the same
    column under every name are equal. *)
Lemma cols_ext (a b : list (string * column)) :
  NoDup a.*1 -> a.*1 = b.*1 ->
  (forall n, get_col n a = get_col n b) -> a = b.
Proof.
  revert b. induction a as [|[k c0] r IH]; intros [|[k' c1] r']; csimpl;
    try done.
  rewrite NoDup_cons. intros [Hk Hr] [= <- Hnames] Hget.
  pose proof (Hget k) as Hk0. simpl in Hk0.
  rewrite !decide_True in Hk0 by done.
  injection Hk0 as <-. f_equal. apply IH; [done..|].
  intros n. specialize (Hget n). simpl in Hget. case_decide; subst; [|done].
  transitivity (@None column); [|symmetry];
    apply get_col_None; [done|by rewrite <- Hnames].
Qed.

Lemma get_col_fmap (h : string -> column -> column) n cs :
  get_col n ((fun p => (p.1, h p.1 p.2)) <$> cs) = h n <$> get_col n cs.
Proof.
  induction cs as [|[k c0] r IH]; simpl; [done|].
  case_decide; subst; done.
Qed.

Lemma names_fmap (h : string -> column -> column) cs :
  ((fun p => (p.1, h p.1 p.2)) <$> cs).*1 = cs.*1.
Proof. rewrite <- list_fmap_compose. by apply list_fmap_ext. Qed.

Lemma strip_cols_alt cs :
  prod_map id strip_col <$> cs = (fun p => (p.1, strip_col p.2)) <$> cs.
Proof. apply list_fmap_ext. by intros i []. Qed.

Lemma get_col_strip n cs :
  get_col n (prod_map id strip_col <$> cs) = strip_col <$> get_col n cs.
Proof. rewrite strip_cols_alt. apply (get_col_fmap (fun _ => strip_col)). Qed.

Lemma names_strip cs : (prod_map id strip_col <$> cs).*1 = cs.*1.
Proof. rewrite strip_cols_alt. apply (names_fmap (fun _ => strip_col)). Qed.

Lemma str_strip_idem xs : str_strip (str_strip xs) = str_strip xs.
Proof.
  unfold str_strip. rewrite <- list_fmap_compose. apply list_fmap_ext.
  intros i [s|] _; simpl; [|done]. by rewrite PyStrFacts.strip_idem.
Qed.

Lemma strip_col_idem c : strip_col (strip_col c) = strip_col c.
Proof. destruct c; simpl; [|done..]. by rewrite str_strip_idem. Qed.

End Columns.

(** ** The statements of the cleaning step *)

(** Inversion of a run that returned: every [bind] returned. *)
Lemma bind_Ok {S A B} (m : St S A) (k : A -> St S B) s b s' :
  bind m k s = (Ok b, s') ->
  exists a s1, m s = (Ok a, s1) /\ k a s1 = (Ok b, s').
Proof.
  unfold bind. destruct (m s) as [[a|e] s1]; [eauto|done].
Qed.

Lemma bind_run {S A B} (m : St S A) (k : A -> St S B) s a s1 :
  m s = (Ok a, s1) -> bind m k s = k a s1.
Proof. unfold bind. by intros ->. Qed.

Lemma bind_raise {S A B} (m : St S A) (k : A -> St S B) s e s1 :
  m s = (Raise e, s1) -> bind m k s = (Raise e, s1).
Proof. unfold bind. by intros ->. Qed.

Section StripLoop.

Lemma for_each_strip ns f :
  NoDup (col_names f) -> NoDup ns ->
  (forall n, n ∈ ns -> exists xs, get_col n (columns f) = Some (ObjectCol xs)) ->
  for_each ns strip_column f
  = (Ok tt, {| index := index f; columns := strip_named ns (columns f) |}).
Proof.
  revert f. induction ns as [|n r IH]; intros [ix cs] Hcs Hns Hobj; simpl.
  - unfold ret, strip_named. do 2 f_equal.
    rewrite <- (list_fmap_id cs) at 1. apply list_fmap_ext.
    by intros i [k c] _.
  - apply NoDup_cons in Hns as [Hn Hr].
    destruct (Hobj n) as [xs Hxs]; [by left|]. simpl in Hxs.
    unfold bind at 1, strip_column at 1, bind, getitem, lift, setitem. simpl.
    rewrite Hxs. simpl.
    unfold col_names in Hcs. simpl in Hcs.
    rewrite IH; simpl.
    + do 2 f_equal. unfold strip_named.
      apply cols_ext.
      * rewrite names_fmap. by apply NoDup_set_col.
      * rewrite !names_fmap. by eapply names_set_col_Some.
      * intros m. rewrite !get_col_fmap, get_set_col.
        case_decide as Hm; subst.
        -- rewrite Hxs. simpl. unfold strip_if.
           rewrite decide_False by done. rewrite decide_True by by left. done.
        -- destruct (get_col m cs); simpl; [|done]. f_equal.
           unfold strip_if.
           destruct (decide (m ∈ r)) as [Hin|Hin];
             [rewrite decide_True by (by right)|rewrite decide_False]; try done.
           by intros [->|?]%elem_of_cons.
    + by apply NoDup_set_col.
    + done.
    + intros m Hm. rewrite get_set_col_ne by (by intros ->).
      apply Hobj. by right.
Qed.

Lemma strip_object_columns_run f :
  NoDup (col_names f) ->
  strip_object_columns f = (Ok tt, strip_frame f).
Proof.
  intros Hf. destruct f as [ix cs]. unfold col_names in Hf. simpl in Hf.
  unfold strip_object_columns, select_dtypes_object.
  unfold bind at 1. simpl.
  pose proof (for_each_strip
    (filter (fun p => is_object p.2 = true) cs).*1 {| index := ix; columns := cs |})
    as Hloop.
  rewrite Hloop; clear Hloop; simpl.
  - unfold strip_frame, strip_named. simpl. do 2 f_equal.
    apply list_fmap_ext. intros i [k c] Hi. simpl. f_equal.
    unfold strip_if. case_decide as Hk; [done|].
    destruct c; try done. destruct Hk.
    apply list_elem_of_fmap. exists (k, ObjectCol xs). split; [done|].
    apply list_elem_of_filter. split; [done|].
    by eapply list_elem_of_lookup_2.
  - done.
  - eapply sublist_NoDup; [exact Hf|].
    apply fmap_sublist, sublist_filter.
  - intros n ([k c] & -> & [Hc Hin]%list_elem_of_filter)%list_elem_of_fmap.
    simpl in *. destruct c; try done. exists xs.
    by apply elem_of_get_col.
Qed.

End StripLoop.

Section Cleaning.

Context `{Library}.

Lemma clean_Cleaned f g :
  NoDup (col_names f) -> clean f = (Ok tt, g) -> Cleaned f g.
Proof.
  intros Hf Hrun. unfold clean in Hrun.
  rewrite (bind_run _ _ _ _ _ (strip_object_columns_run f Hf)) in Hrun.
  unfold parse_date_added, split_duration, primary_country, main_genre,
    bind, getitem, setitem, lift in Hrun.
  simpl in Hrun.
  destruct (get_col "date_added" _) as [da|] eqn:Hda; [|done].
  simpl in Hrun. rewrite get_set_col_eq in Hrun. simpl in Hrun.
  rewrite !get_set_col_ne in Hrun by done.
  destruct (get_col "duration" _) as [du|] eqn:Hdu; [|done].
  destruct (str_accessor du) as [xs|] eqn:Hxs; [|done].
  destruct (expanded_col _ 0) as [p0|] eqn:Hp0; [|done].
  destruct (expanded_col _ 1) as [p1|] eqn:Hp1; [|done].
  simpl in Hrun. rewrite !get_set_col_ne in Hrun by done.
  destruct (get_col "country" _) as [co|] eqn:Hco; [|done].
  destruct (apply get_first_country co) as [cp|] eqn:Hcp; [|done].
  simpl in Hrun. rewrite !get_set_col_ne in Hrun by done.
  destruct (get_col "listed_in" _) as [li|] eqn:Hli; [|done].
  destruct (apply get_main_genre li) as [mg|] eqn:Hmg; [|done].
  injection Hrun as <-.
  by eapply Cleaned_intro.
Qed.

Lemma Cleaned_clean f g :
  NoDup (col_names f) -> Cleaned f g -> clean f = (Ok tt, g).
Proof.
  intros Hf [da du co li xs p0 p1 cp mg Hda Hdu Hxs Hp0 Hp1 Hco Hcp Hli Hmg].
  simpl in Hda, Hdu, Hco, Hli. unfold clean.
  rewrite (bind_run _ _ _ _ _ (strip_object_columns_run f Hf)).
  unfold parse_date_added, split_duration, primary_country, main_genre,
    bind, getitem, setitem, lift.
  simpl. rewrite Hda. simpl. rewrite get_set_col_eq. simpl.
  rewrite !get_set_col_ne by done. rewrite Hdu, Hxs, Hp0, Hp1. simpl.
  rewrite !get_set_col_ne by done. rewrite Hco, Hcp. simpl.
  rewrite !get_set_col_ne by done. rewrite Hli, Hmg. done.
Qed.

End Cleaning.

(** ** Rows of the cleaned table *)

Lemma get_derive m D Y I T C G cs :
  get_col m (derive D Y I T C G cs) =
    if decide ("main_genre" = m) then Some G
    else if decide ("country_primary" = m) then Some C
    else if decide ("duration_type" = m) then Some T
    else if decide ("duration_int" = m) then Some I
    else if decide ("year_added" = m) then Some Y
    else if decide ("date_added" = m) then Some D
    else get_col m cs.
Proof. unfold derive. by rewrite !get_set_col. Qed.

Lemma map_result_lookup {A B} (f : A -> result B) l bs i a :
  map_result f l = Ok bs -> l !! i = Some a ->
  exists b, f a = Ok b /\ bs !! i = Some b.
Proof.
  revert bs i. induction l as [|x r IH]; intros bs i; simpl; [done|].
  destruct (f x) as [b|] eqn:Hx; [|done].
  destruct (map_result f r) as [bs'|]; [|done].
  intros [= <-]. destruct i as [|i]; simpl.
  - intros [= <-]. eauto.
  - by apply IH.
Qed.

Lemma at_str f name i s :
  at_ f name i = Some (VStr s) <->
  exists xs, get_col name (columns f) = Some (ObjectCol xs)
             /\ xs !! i = Some (Some s).
Proof.
  unfold at_. split.
  - destruct (get_col name (columns f)) as [c|]; [|done]. simpl.
    destruct c; simpl; rewrite list_lookup_fmap;
      destruct (xs !! i) as [[?|]|] eqn:Hi; try done.
    intros [= ->]. eauto.
  - intros (xs & -> & Hi). simpl. by rewrite list_lookup_fmap, Hi.
Qed.

Lemma cells_strip_col c i :
  cells (strip_col c) !! i =
    (fun v => match v with VStr s => VStr (PyStr.strip s) | _ => v end)
      <$> cells c !! i.
Proof.
  destruct c; simpl; rewrite ?list_lookup_fmap;
    try (by destruct (xs !! i) as [[?|]|]).
  unfold str_strip. rewrite list_lookup_fmap.
  by destruct (xs !! i) as [[?|]|].
Qed.

Lemma first_token_stripped_str s :
  first_token_stripped (VStr s) = Ok (Some (PyStr.strip (PyStr.before "," s))).
Proof.
  unfold first_token_stripped. simpl.
  by rewrite PyStrFacts.split_head.
Qed.

Lemma first_token_stripped_spec s :
  exists tok, first_token "," s tok
              /\ trimmed tok (PyStr.strip (PyStr.before "," s)).
Proof.
  exists (PyStr.before "," s). split.
  - apply PyStrFacts.before_first_token.
  - apply PyStrFacts.strip_trimmed.
Qed.

Section Rows.

Context `{Library}.

(** The stripped first token of the cell that [apply] read. *)
Lemma first_token_row (f g : DataFrame) (src dst : string) (i : nat) v :
  Cleaned f g ->
  (src = "country" /\ dst = "country_primary"
   \/ src = "listed_in" /\ dst = "main_genre") ->
  at_ f src i = Some v -> v <> VNull ->
  exists s, v = VStr s
            /\ at_ g dst i = Some (VStr (PyStr.strip (PyStr.before "," s))).
Proof.
  intros [da du co li xs p0 p1 cp mg Hda Hdu Hxs Hp0 Hp1 Hco Hcp Hli Hmg]
    Hnames Hat Hv.
  unfold at_ in Hat.
  destruct (get_col src (columns f)) as [c|] eqn:Hc; [|done]. simpl in Hat.
  simpl in Hco, Hli. rewrite get_col_strip in Hco, Hli.
  assert (forall out,
    apply first_token_stripped (strip_col c) = Ok out ->
    exists s, v = VStr s
              /\ out !! i = Some (Some (PyStr.strip (PyStr.before "," s))))
    as Hout.
  { intros out Hap. unfold apply in Hap.
    eapply map_result_lookup in Hap as (b & Hb & ->).
    2:{ by rewrite cells_strip_col, Hat. }
    destruct v as [|s| | |]; try done. exists s. split; [done|].
    rewrite first_token_stripped_str in Hb.
    injection Hb as <-. by rewrite PyStrFacts.strip_before_strip. }
  destruct Hnames as [[-> ->]|[-> ->]].
  - rewrite Hc in Hco. injection Hco as <-.
    destruct (Hout cp Hcp) as (s & -> & Hs). exists s. split; [done|].
    apply at_str. exists cp. simpl. by rewrite get_derive.
  - rewrite Hc in Hli. injection Hli as <-.
    destruct (Hout mg Hmg) as (s & -> & Hs). exists s. split; [done|].
    apply at_str. exists mg. simpl. by rewrite get_derive.
Qed.

End Rows.

(** C3.  In a table that the cleaning step returns, every row whose
    [country] is not null holds in [country_primary] the text of [country]
    before its first comma, without leading and trailing white space, and
    every row whose [listed_in] is not null holds in [main_genre] the same of
    [listed_in].  "United States, India" gives "United States",
    "Dramas, International Movies" gives "Dramas", and a single padded token
    " Dramas " gives "Dramas". *)
Theorem first_token_columns `{Library} (f g : DataFrame) :
  NoDup (col_names f) ->
  clean f = (Ok tt, g) ->
  (forall i v, at_ f "country" i = Some v -> v <> VNull ->
     exists s tok t,
       v = VStr s /\ first_token "," s tok /\ trimmed tok t
       /\ at_ g "country_primary" i = Some (VStr t))
  /\ (forall i v, at_ f "listed_in" i = Some v -> v <> VNull ->
     exists s tok t,
       v = VStr s /\ first_token "," s tok /\ trimmed tok t
       /\ at_ g "main_genre" i = Some (VStr t))
  /\ get_first_country (VStr "United States, India") = Ok (Some "United States")
  /\ get_main_genre (VStr "Dramas, International Movies") = Ok (Some "Dramas")
  /\ get_main_genre (VStr " Dramas ") = Ok (Some "Dramas")
  /\ get_first_country (VStr "India") = Ok (Some "India").
Proof.
  intros Hf Hrun%clean_Cleaned; [|done].
  split; [|split; [|by vm_compute]].
  - intros i v Hat Hv.
    destruct (first_token_row f g "country" "country_primary" i v)
      as (s & -> & Hg); auto.
    destruct (first_token_stripped_spec s) as (tok & Htok & Ht).
    by exists s, tok, (PyStr.strip (PyStr.before "," s)).
  - intros i v Hat Hv.
    destruct (first_token_row f g "listed_in" "main_genre" i v)
      as (s & -> & Hg); auto.
    destruct (first_token_stripped_spec s) as (tok & Htok & Ht).
    by exists s, tok, (PyStr.strip (PyStr.before "," s)).
Qed.

Lemma fixture_names : NoDup (col_names fixture).
Proof. apply (bool_decide_unpack _). by vm_compute. Qed.

Lemma first_token_columns_witness :
  let f := fixture in
  let g := (clean (H := Reference.library) fixture).2 in
  NoDup (col_names f)
  /\ clean (H := Reference.library) f = (Ok tt, g)
  /\ (forall i v, at_ f "country" i = Some v -> v <> VNull ->
       exists s tok t,
         v = VStr s /\ first_token "," s tok /\ trimmed tok t
         /\ at_ g "country_primary" i = Some (VStr t)).
Proof.
  intros f g.
  assert (Hrun : clean (H := Reference.library) f = (Ok tt, g)) by by vm_compute.
  split; [exact fixture_names|]. split; [exact Hrun|].
  exact (proj1 (first_token_columns f g fixture_names Hrun)).
Defined.

(** ** The duration split *)

Lemma expanded_col_lookup e k col i r :
  expanded_col e k = Ok col -> parts e !! i = Some r ->
  (k < width e)%nat /\ col !! i = Some (default None (r !! k)).
Proof.
  unfold expanded_col. case_decide; [|done]. intros [= <-] Hr.
  split; [done|]. by rewrite list_lookup_fmap, Hr.
Qed.

Lemma expand_lookup xs i o :
  xs !! i = Some o ->
  parts (expand xs) !! i =
    Some (match o with
          | None => replicate (width (expand xs)) None
          | Some l =>
              ((Some <$> l) ++ replicate (width (expand xs) - length l) None)%list
          end).
Proof. intros Hi. unfold expand. simpl. by rewrite list_lookup_fmap, Hi. Qed.

Lemma padded_lookup {A} (l : list A) n k :
  default None (((Some <$> l) ++ replicate n None)%list !! k) = l !! k.
Proof.
  destruct (decide (k < length l)%nat) as [Hk|Hk].
  - rewrite lookup_app_l by by rewrite length_fmap.
    rewrite list_lookup_fmap. by destruct (l !! k).
  - rewrite (lookup_ge_None_2 l) by lia.
    rewrite lookup_app_r by (rewrite length_fmap; lia).
    destruct (replicate n None !! _) eqn:Hr; [|done].
    by apply lookup_replicate in Hr as [-> _].
Qed.

Lemma replicate_None_lookup {A} n k :
  default None (replicate n (@None A) !! k) = None.
Proof.
  destruct (replicate n None !! k) eqn:Hr; [|done].
  by apply lookup_replicate in Hr as [-> _].
Qed.

(** Column [k] of the expanded split, row by row: null for a null element,
    else part [k] of the element when it has one. *)
Lemma split_col_lookup sep n xs k col i o :
  expanded_col (expand (str_split sep n xs)) k = Ok col ->
  xs !! i = Some o ->
  col !! i = Some (s ← o; PyStr.split sep (Some n) s !! k).
Proof.
  intros Hcol Hi.
  assert (str_split sep n xs !! i = Some (PyStr.split sep (Some n) <$> o)) as Hp.
  { unfold str_split. by rewrite list_lookup_fmap, Hi. }
  apply expand_lookup in Hp.
  destruct (expanded_col_lookup _ _ _ _ _ Hcol Hp) as [_ ->]. f_equal.
  destruct o as [s|]; simpl.
  - apply padded_lookup.
  - apply replicate_None_lookup.
Qed.

Lemma expanded_col_width e k col :
  expanded_col e k = Ok col -> (k < width e)%nat.
Proof. unfold expanded_col. by case_decide. Qed.

Lemma expanded_col_Ok e k :
  (k < width e)%nat -> exists col, expanded_col e k = Ok col.
Proof. intros Hk. unfold expanded_col. rewrite decide_True by done. eauto. Qed.

Lemma expanded_col_Raise e k :
  (width e <= k)%nat -> expanded_col e k = Raise (KeyError (decimal k)).
Proof. intros Hk. unfold expanded_col. rewrite decide_False by lia. done. Qed.

Lemma max_list_ge (l : list nat) x : x ∈ l -> (x <= max_list l)%nat.
Proof. induction 1; simpl; lia. Qed.

(** The split has a second column exactly when some element has a
    separator. *)
Lemma width_two sep xs :
  (2 <= width (expand (str_split sep 1 xs)))%nat <->
  exists i s, xs !! i = Some (Some s) /\ PyStr.contains sep s = true.
Proof.
  unfold expand, str_split. simpl. rewrite <- !list_fmap_compose. split.
  - induction xs as [|o r IH]; csimpl; [lia|]. intros Hw.
    destruct (decide (2 <= max_list
      ((fun o => match o with Some l => length l | None => 1 end)
       ∘ (fun o : option string => PyStr.split sep (Some 1) <$> o) <$> r))%nat)
      as [Hr|Hr].
    + destruct (IH Hr) as (i & s & Hi & Hs). by exists (S i), s.
    + destruct o as [s|]; csimpl in Hw; [|lia].
      exists 0%nat, s. split; [done|].
      destruct (PyStr.contains sep s) eqn:Hs; [done|].
      rewrite PyStrFacts.split_one_none in Hw by done. csimpl in Hw. lia.
  - intros (i & s & Hi & Hs).
    etransitivity; [|apply max_list_ge].
    2:{ apply list_elem_of_fmap. exists (Some s). split; [done|].
        by eapply list_elem_of_lookup_2. }
    simpl. destruct (PyStrFacts.contains_cases sep s) as [Hn|(a & b & -> & Ha)];
      [congruence|].
    by rewrite PyStrFacts.split_one_app.
Qed.

Lemma holds_number_None v : holds_number v None -> v = VNull.
Proof. by intros [->|(z & ? & _)]. Qed.

Section Duration.

Context `{Library}.

(** A cell of [pd.to_numeric(s, errors="coerce")]. *)
Lemma to_numeric_coerce_lookup xs i o :
  xs !! i = Some o ->
  exists v, cells (to_numeric_coerce xs) !! i = Some v
            /\ holds_number v (o ≫= to_numeric).
Proof.
  intros Hi. unfold to_numeric_coerce.
  destruct (mapM _ _) as [zs|] eqn:Hm; simpl.
  - apply mapM_Some in Hm.
    assert (((fun o => o ≫= to_numeric) <$> xs) !! i = Some (o ≫= to_numeric))
      as Hp by (by rewrite list_lookup_fmap, Hi).
    destruct (Forall2_lookup_l _ _ _ _ _ Hm Hp) as (z & Hz & Hint).
    exists (VInt z). rewrite !list_lookup_fmap, Hz. split; [done|].
    right. by exists z.
  - exists (cell VFloat (as_float <$> (o ≫= to_numeric))).
    rewrite !list_lookup_fmap, Hi. split; [done|]. by left.
Qed.

(** The dtype of [pd.to_numeric(s, errors="coerce")]: [int64] exactly when
    every element is an integer literal, else [float64]. *)
Lemma to_numeric_coerce_dtype xs :
  ((exists zs, to_numeric_coerce xs = IntCol (Some <$> zs))
   \/ exists qs, to_numeric_coerce xs = FloatCol qs)
  /\ (is_int64 (to_numeric_coerce xs) = true
      <-> forall i o, xs !! i = Some o ->
            exists z, (o ≫= to_numeric) ≫= as_int = Some z).
Proof.
  unfold to_numeric_coerce.
  destruct (mapM _ _) as [zs|] eqn:Hm; simpl.
  - split; [left; by exists zs|]. split; [|done]. intros _ i o Hi.
    apply mapM_Some in Hm.
    assert (((fun o => o ≫= to_numeric) <$> xs) !! i = Some (o ≫= to_numeric))
      as Hp by (by rewrite list_lookup_fmap, Hi).
    destruct (Forall2_lookup_l _ _ _ _ _ Hm Hp) as (z & _ & Hint). eauto.
  - split; [right; eauto|]. split; [done|]. intros Hall.
    assert (is_Some (mapM (fun p : option Parsed => p ≫= as_int)
                       ((fun o => o ≫= to_numeric) <$> xs))) as [zs Hzs];
      [|by rewrite Hzs in Hm].
    apply mapM_is_Some, Forall_fmap, Forall_lookup. intros i o Hi.
    destruct (Hall i o Hi) as [z Hz]. simpl. by rewrite Hz.
Qed.

Lemma cells_to_numeric_coerce_length xs :
  length (cells (to_numeric_coerce xs)) = length xs.
Proof.
  unfold to_numeric_coerce.
  destruct (mapM _ _) as [zs|] eqn:Hm; simpl.
  - apply length_mapM in Hm. by rewrite !length_fmap, <- Hm, length_fmap.
  - by rewrite !length_fmap.
Qed.

Lemma cells_to_numeric_coerce_no_text xs i s :
  cells (to_numeric_coerce xs) !! i <> Some (VStr s).
Proof.
  unfold to_numeric_coerce.
  destruct (mapM _ _) as [zs|]; simpl; rewrite !list_lookup_fmap.
  - by destruct (zs !! i).
  - destruct (xs !! i) as [o|]; simpl; [|done].
    by destruct (o ≫= to_numeric).
Qed.

Lemma duration_row (f g : DataFrame) (i : nat) v :
  Cleaned f g ->
  at_ f "duration" i = Some v ->
  exists (o : option string) (vi : value),
    v = cell VStr o
    /\ at_ g "duration_int" i = Some vi
    /\ holds_number vi
         (s ← o; PyStr.split " " (Some 1) (PyStr.strip s) !! 0%nat
                 ≫= to_numeric)
    /\ at_ g "duration_type" i
       = Some (cell VStr
                 (s ← o; PyStr.split " " (Some 1) (PyStr.strip s) !! 1%nat)).
Proof.
  intros [da du co li xs p0 p1 cp mg Hda Hdu Hxs Hp0 Hp1 Hco Hcp Hli Hmg] Hat.
  unfold at_ in *. simpl in *. rewrite !get_derive. simpl.
  rewrite get_col_strip in Hdu.
  destruct (get_col "duration" (columns f)) as [c|]; [|done].
  simpl in Hat, Hdu. injection Hdu as <-.
  destruct c as [ys| | |]; try done. simpl in Hxs. injection Hxs as <-.
  simpl in Hat. rewrite list_lookup_fmap in Hat.
  destruct (ys !! i) as [o|] eqn:Hi; [|done]. injection Hat as <-.
  assert (str_strip ys !! i = Some (PyStr.strip <$> o)) as Hs.
  { unfold str_strip. by rewrite list_lookup_fmap, Hi. }
  pose proof (split_col_lookup _ _ _ _ _ _ _ Hp0 Hs) as H0.
  destruct (to_numeric_coerce_lookup p0 i _ H0) as (vi & Hvi & Hnum).
  exists o, vi. split; [done|]. split; [done|]. split.
  - by destruct o.
  - rewrite (list_lookup_fmap _ p1), (split_col_lookup _ _ _ _ _ _ _ Hp1 Hs).
    by destruct o.
Qed.

(** The dtype of [duration_int] in a table that the cleaning step
    returns. *)
Lemma duration_int_dtype (f g : DataFrame) :
  Cleaned f g ->
  exists c,
    get_col "duration_int" (columns g) = Some c
    /\ ((exists zs, c = IntCol (Some <$> zs)) \/ exists qs, c = FloatCol qs)
    /\ (is_int64 c = true
        <-> forall j v, at_ f "duration" j = Some v ->
              exists s z,
                v = VStr s
                /\ (PyStr.split " " (Some 1) (PyStr.strip s) !! 0%nat
                      ≫= to_numeric) ≫= as_int = Some z).
Proof.
  intros [da du co li xs p0 p1 cp mg Hda Hdu Hxs Hp0 Hp1 Hco Hcp Hli Hmg].
  exists (to_numeric_coerce p0). simpl. rewrite get_derive. simpl.
  split; [done|].
  destruct (to_numeric_coerce_dtype p0) as [Hkind Hint].
  split; [done|]. rewrite Hint. clear Hkind Hint.
  unfold at_. simpl in Hdu. rewrite get_col_strip in Hdu.
  destruct (get_col "duration" (columns f)) as [c|]; [|done].
  simpl in Hdu. injection Hdu as <-.
  destruct c as [ys| | |]; try done. simpl in Hxs. injection Hxs as <-.
  simpl.
  assert (forall i o, ys !! i = Some o ->
            p0 !! i = Some (s ← o; PyStr.split " " (Some 1) (PyStr.strip s)
                                     !! 0%nat)) as Hrow.
  { intros i o Hi.
    assert (str_strip ys !! i = Some (PyStr.strip <$> o)) as Hs
      by (unfold str_strip; by rewrite list_lookup_fmap, Hi).
    rewrite (split_col_lookup _ _ _ _ _ _ _ Hp0 Hs). by destruct o. }
  assert (length p0 = length ys) as Hlen.
  { unfold expanded_col in Hp0. case_decide; [|done]. injection Hp0 as <-.
    unfold expand, str_split, str_strip. simpl. by rewrite !length_fmap. }
  split.
  - intros Hall j v Hj. rewrite list_lookup_fmap in Hj.
    destruct (ys !! j) as [o|] eqn:Hyj; [|done]. injection Hj as <-.
    destruct (Hall j _ (Hrow j o Hyj)) as [z Hz].
    destruct o as [s|]; [|done]. by exists s, z.
  - intros Hall i o Hi.
    assert (i < length ys)%nat as Hlt
      by (rewrite <- Hlen; by eapply lookup_lt_Some).
    destruct (lookup_lt_is_Some_2 _ _ Hlt) as [o' Ho'].
    rewrite (Hrow i o' Ho') in Hi. injection Hi as <-.
    destruct (Hall i (cell VStr o')) as (s & z & Hs & Hz).
    { by rewrite list_lookup_fmap, Ho'. }
    destruct o' as [s'|]; [|done]. injection Hs as ->. by exists z.
Qed.

(** What [pd.to_numeric] reads: a decimal natural up to 2^53 as that number,
    whether it is kept as an integer or as a float; the empty string and a
    text with a character that no number has as NaN. *)
Hypothesis to_numeric_decimal :
  forall n : nat,
    (Z.of_nat n <= 2 ^ 53)%Z ->
    to_numeric (decimal n)
    = Some {| as_float := QArith_base.inject_Z (Z.of_nat n);
              as_int := Some (Z.of_nat n) |}.
Hypothesis to_numeric_empty : to_numeric "" = None.
Hypothesis to_numeric_text :
  forall s, PyStr.all number_char s = false -> to_numeric s = None.

(** C2, as the code has it.  In a table that the cleaning step returns,
    every row's [duration] (stripped by the step before) is cut at its first
    space character, not at any white space.  [duration_int] is what
    [pd.to_numeric] makes of the text before it: a number, not only an
    integer, and null when the text is not a number, so for a text with a
    character that no number has; [duration_type] is the text after the
    space, null when there is no space.  A null [duration] gives null for
    both.  "90 min" gives 90 and "min", "2 Seasons" gives 2 and "Seasons",
    the empty string gives null for both.  The column [duration_int] is
    [int64] exactly when the first part of every row is an integer literal,
    and else [float64], in which 90 is the float 90. *)
Theorem duration_split_rows (f g : DataFrame) :
  NoDup (col_names f) ->
  clean f = (Ok tt, g) ->
  (forall i v, at_ f "duration" i = Some v ->
    (v = VNull \/ exists s, v = VStr s)
    /\ (v = VNull ->
        at_ g "duration_int" i = Some VNull
        /\ at_ g "duration_type" i = Some VNull)
    /\ (forall s, v = VStr s ->
        exists parts vi,
          cut_at_first " " (PyStr.strip s) parts
          /\ at_ g "duration_int" i = Some vi
          /\ holds_number vi (parts !! 0%nat ≫= to_numeric)
          /\ (forall a, parts !! 0%nat = Some a ->
                PyStr.all number_char a = false -> vi = VNull)
          /\ at_ g "duration_type" i = Some (cell VStr (parts !! 1%nat)))
    /\ (v = VStr "90 min" ->
        (at_ g "duration_int" i = Some (VInt 90)
         \/ at_ g "duration_int" i = Some (VFloat (QArith_base.inject_Z 90)))
        /\ at_ g "duration_type" i = Some (VStr "min"))
    /\ (v = VStr "2 Seasons" ->
        (at_ g "duration_int" i = Some (VInt 2)
         \/ at_ g "duration_int" i = Some (VFloat (QArith_base.inject_Z 2)))
        /\ at_ g "duration_type" i = Some (VStr "Seasons"))
    /\ (v = VStr "" ->
        at_ g "duration_int" i = Some VNull
        /\ at_ g "duration_type" i = Some VNull))
  /\ exists c,
       get_col "duration_int" (columns g) = Some c
       /\ ((exists zs, c = IntCol (Some <$> zs)) \/ exists qs, c = FloatCol qs)
       /\ (is_int64 c = true
           <-> forall j v, at_ f "duration" j = Some v ->
                 exists s z,
                   v = VStr s
                   /\ (PyStr.split " " (Some 1) (PyStr.strip s) !! 0%nat
                         ≫= to_numeric) ≫= as_int = Some z).
Proof.
  intros Hf Hrun%clean_Cleaned; [|done].
  split; [|by apply duration_int_dtype].
  intros i v Hat.
  destruct (duration_row f g i v Hrun Hat) as (o & vi & -> & Hint & Hnum & Htype).
  rewrite Hint, Htype. clear Hint Htype.
  split; [destruct o; eauto|].
  split.
  { destruct o; [done|]. intros _. by rewrite (holds_number_None vi Hnum). }
  split.
  { intros s Hs. destruct o as [s'|]; [|done]. injection Hs as ->.
    simpl in Hnum.
    exists (PyStr.split " " (Some 1%nat) (PyStr.strip s)), vi.
    split; [apply PyStrFacts.split_one_cut|]. split; [done|].
    split; [done|]. split; [|done].
    intros a Ha Hjunk. rewrite Ha in Hnum. simpl in Hnum.
    rewrite (to_numeric_text a Hjunk) in Hnum.
    by apply holds_number_None. }
  assert (forall n : nat, (Z.of_nat n <= 2 ^ 53)%Z ->
            holds_number vi (to_numeric (decimal n)) ->
            Some vi = Some (VInt (Z.of_nat n))
            \/ Some vi = Some (VFloat (QArith_base.inject_Z (Z.of_nat n))))
    as Hdec.
  { intros n Hn. rewrite (to_numeric_decimal n Hn).
    intros [->|(z & [= <-] & ->)]; [by right|by left]. }
  split; [|split].
  - destruct o as [s'|]; [|done]. intros [= ->]. simpl in Hnum.
    split; [|done]. by apply (Hdec 90%nat).
  - destruct o as [s'|]; [|done]. intros [= ->]. simpl in Hnum.
    split; [|done]. by apply (Hdec 2%nat).
  - destruct o as [s'|]; [|done]. intros [= ->]. simpl in Hnum.
    rewrite to_numeric_empty in Hnum.
    by rewrite (holds_number_None vi Hnum).
Qed.

End Duration.

(** *** The reference library reads decimals *)

Lemma string_of_uint_number u :
  PyStr.all number_char (DecimalString.NilEmpty.string_of_uint u) = true.
Proof. induction u; simpl; [done|by rewrite IHu..]. Qed.

Lemma decimal_number n : PyStr.all number_char (decimal n) = true.
Proof.
  unfold decimal, DecimalString.NilZero.string_of_uint.
  destruct (Nat.to_uint n); [done|apply string_of_uint_number..].
Qed.

Lemma reference_to_nat_decimal (n : nat) : Reference.to_nat (decimal n) = Some n.
Proof.
  unfold Reference.to_nat, decimal.
  rewrite DecimalString.NilZero.usu.
  - simpl. by rewrite DecimalNat.Unsigned.of_to.
  - pose proof (DecimalNat.Unsigned.to_of (Nat.to_uint n)) as Hn.
    rewrite DecimalNat.Unsigned.of_to in Hn. rewrite Hn.
    apply DecimalFacts.unorm_nonnil.
Qed.

Lemma reference_to_numeric_decimal (n : nat) :
  (Z.of_nat n <= 2 ^ 53)%Z ->
  Reference.to_numeric (decimal n)
  = Some {| as_float := QArith_base.inject_Z (Z.of_nat n);
            as_int := Some (Z.of_nat n) |}.
Proof.
  intros Hn. unfold Reference.to_numeric.
  rewrite decimal_number, reference_to_nat_decimal.
  unfold Reference.integer, Reference.float_of_nat.
  assert ((Z.of_nat n <=? 2 ^ 53)%Z = true) as -> by (apply Z.leb_le; lia).
  assert ((Z.of_nat n <? 2 ^ 63)%Z = true) as -> by (apply Z.ltb_lt; lia).
  done.
Qed.

Lemma reference_to_numeric_empty : Reference.to_numeric "" = None.
Proof. done. Qed.

Lemma reference_to_numeric_text s :
  PyStr.all number_char s = false -> Reference.to_numeric s = None.
Proof. intros Hs. unfold Reference.to_numeric. by rewrite Hs. Qed.

Lemma duration_split_rows_witness :
  let f := fixture in
  let g := (clean (H := Reference.library) fixture).2 in
  let h := (clean (H := Reference.library) fixture_whole_durations).2 in
  NoDup (col_names f)
  /\ clean (H := Reference.library) f = (Ok tt, g)
  /\ at_ f "duration" 0 = Some (VStr "90 min")
  /\ (at_ g "duration_int" 0 = Some (VInt 90)
      \/ at_ g "duration_int" 0 = Some (VFloat (QArith_base.inject_Z 90)))
  /\ at_ g "duration_type" 0 = Some (VStr "min")
  /\ at_ g "duration_int" 0 = Some (VFloat (QArith_base.inject_Z 90))
  /\ at_ h "duration_int" 0 = Some (VInt 90).
Proof.
  intros f g h.
  assert (Hrun : clean (H := Reference.library) f = (Ok tt, g)) by by vm_compute.
  split; [exact fixture_names|]. split; [exact Hrun|]. split; [done|].
  pose proof (proj1 (duration_split_rows (H := Reference.library)
                       reference_to_numeric_decimal reference_to_numeric_empty
                       reference_to_numeric_text
                       f g fixture_names Hrun) 0%nat (VStr "90 min") eq_refl)
    as (_ & _ & _ & H90 & _).
  destruct (H90 eq_refl) as [Hint Htype].
  split; [exact Hint|]. split; [exact Htype|].
  split; reflexivity.
Defined.

(** C2 as the spec words it fails in two ways.  "On the first whitespace":
    a [duration] whose two parts are separated by a tab is cut by the spec's
    split into "90" and "min"; the code finds no space and leaves both
    derived cells null.  "Parsed as an integer, null if parsing fails": the
    first part of "1.5 h" is not an integer, and the code does not leave
    [duration_int] null: it is the number 1.5. *)
Lemma duration_split_counterexample :
  let g := (clean (H := Reference.library) fixture_tab).2 in
  let h := (clean (H := Reference.library) fixture_fraction).2 in
  (clean (H := Reference.library) fixture_tab = (Ok tt, g)
   /\ at_ fixture_tab "duration" 0 = Some (VStr tabbed)
   /\ split_first_whitespace (PyStr.strip tabbed) = ["90"; "min"]
   /\ at_ g "duration_int" 0 = Some VNull
   /\ at_ g "duration_type" 0 = Some VNull
   /\ at_ g "duration_type" 0
      <> Some (cell VStr (split_first_whitespace (PyStr.strip tabbed) !! 1%nat)))
  /\ (clean (H := Reference.library) fixture_fraction = (Ok tt, h)
      /\ at_ fixture_fraction "duration" 0 = Some (VStr "1.5 h")
      /\ split_first_whitespace (PyStr.strip "1.5 h") = ["1.5"; "h"]
      /\ parse_integer "1.5" = None
      /\ at_ h "duration_int" 0
         = Some (VFloat (QArith_base.Qmake 3 2))
      /\ at_ h "duration_int" 0 <> Some (cell VInt (parse_integer "1.5"))).
Proof. vm_compute. repeat split; discriminate. Qed.

(** ** When the cleaning step returns *)

Lemma map_result_Ok {A B} (f : A -> result B) l :
  Forall (fun a => exists b, f a = Ok b) l -> exists bs, map_result f l = Ok bs.
Proof.
  induction 1 as [|a r [b Hb] _ [bs IH]]; simpl; [eauto|].
  rewrite Hb, IH. eauto.
Qed.

Lemma map_result_Forall {A B} (f : A -> result B) l bs :
  map_result f l = Ok bs -> Forall (fun a => exists b, f a = Ok b) l.
Proof.
  revert bs. induction l as [|a r IH]; intros bs; simpl; [constructor|].
  destruct (f a) as [b|] eqn:Ha; [|done].
  destruct (map_result f r) as [bs'|]; [|done]. eauto.
Qed.

Lemma first_token_stripped_Ok v :
  (exists b, first_token_stripped v = Ok b) <-> v = VNull \/ exists s, v = VStr s.
Proof.
  split.
  - intros [b Hb]. destruct v; try done; eauto.
  - intros [->|[s ->]]; [by exists None|].
    rewrite first_token_stripped_str. eauto.
Qed.

Lemma text_or_null_strip c : text_or_null (strip_col c) <-> text_or_null c.
Proof.
  unfold text_or_null. destruct c; simpl; [|done..].
  unfold str_strip. rewrite <- list_fmap_compose, !Forall_fmap.
  apply Forall_iff. intros [s|]; simpl; split; eauto.
Qed.

Lemma apply_first_token_Ok c :
  (exists out, apply first_token_stripped c = Ok out) <-> text_or_null c.
Proof.
  unfold apply, text_or_null. split.
  - intros [out Hout%map_result_Forall].
    eapply Forall_impl; [exact Hout|]. intros v. apply first_token_stripped_Ok.
  - intros Hc. apply map_result_Ok.
    eapply Forall_impl; [exact Hc|]. intros v. apply first_token_stripped_Ok.
Qed.

Section Returns.

Context `{Library}.

(** X1.  The cleaning step returns exactly when the table has a [date_added]
    column, an object [duration] column in which some stripped value has a
    space, and [country] and [listed_in] columns of text and nulls. *)
Lemma clean_returns_iff (f : DataFrame) :
  NoDup (col_names f) ->
  (exists g, clean f = (Ok tt, g)) <->
  (exists c, get_col "date_added" (columns f) = Some c)
  /\ (exists xs, get_col "duration" (columns f) = Some (ObjectCol xs)
       /\ exists i s, xs !! i = Some (Some s)
                      /\ PyStr.contains " " (PyStr.strip s) = true)
  /\ (exists c, get_col "country" (columns f) = Some c /\ text_or_null c)
  /\ (exists c, get_col "listed_in" (columns f) = Some c /\ text_or_null c).
Proof.
  intros Hf. split.
  - intros [g Hg%clean_Cleaned]; [|done].
    destruct Hg as [da du co li xs p0 p1 cp mg Hda Hdu Hxs Hp0 Hp1 Hco Hcp Hli Hmg].
    simpl in *. rewrite get_col_strip in Hda, Hdu, Hco, Hli.
    destruct (get_col "date_added" (columns f)) as [da'|]; [|done].
    destruct (get_col "duration" (columns f)) as [du'|]; [|done].
    destruct (get_col "country" (columns f)) as [co'|]; [|done].
    destruct (get_col "listed_in" (columns f)) as [li'|]; [|done].
    simpl in *. injection Hdu as <-. injection Hco as <-. injection Hli as <-.
    split; [eauto|]. split; [|split].
    + destruct du' as [ys| | |]; try done. injection Hxs as <-.
      exists ys. split; [done|].
      apply expanded_col_width, width_two in Hp1 as (i & s & Hi & Hs).
      unfold str_strip in Hi. rewrite list_lookup_fmap in Hi.
      destruct (ys !! i) as [[s'|]|] eqn:Hys; try done.
      injection Hi as <-. eauto.
    + exists co'. split; [done|].
      apply text_or_null_strip, apply_first_token_Ok. eauto.
    + exists li'. split; [done|].
      apply text_or_null_strip, apply_first_token_Ok. eauto.
  - intros ((da & Hda) & (ys & Hdu & i & s & Hi & Hs)
            & (co & Hco & Hco') & (li & Hli & Hli')).
    assert (2 <= width (expand (str_split " " 1 (str_strip ys))))%nat as Hw.
    { apply width_two. exists i, (PyStr.strip s). split; [|done].
      unfold str_strip. by rewrite list_lookup_fmap, Hi. }
    destruct (expanded_col_Ok (expand (str_split " " 1 (str_strip ys))) 0)
      as [p0 Hp0]; [lia|].
    destruct (expanded_col_Ok (expand (str_split " " 1 (str_strip ys))) 1)
      as [p1 Hp1]; [lia|].
    apply text_or_null_strip, apply_first_token_Ok in Hco' as [cp Hcp].
    apply text_or_null_strip, apply_first_token_Ok in Hli' as [mg Hmg].
    eexists. apply Cleaned_clean; [done|].
    eapply (Cleaned_intro f (strip_col da) (strip_col (ObjectCol ys))
              (strip_col co) (strip_col li));
      simpl; rewrite ?get_col_strip, ?Hda, ?Hdu, ?Hco, ?Hli; done.
Qed.

End Returns.

(** ** Nulls *)

Section Nulls.

Context `{Library}.

(** [to_datetime] turns a null into NaT. *)
Hypothesis to_datetime_null :
  forall c i, cells c !! i = Some VNull -> to_datetime c !! i = Some None.

(** X2.  In a table that the cleaning step returns, a null [country],
    [listed_in], [duration] or [date_added] gives a null in each field
    derived from it, and so does a [date_added] that [to_datetime] could not
    read. *)
Lemma null_safety (f g : DataFrame) (i : nat) :
  NoDup (col_names f) ->
  clean f = (Ok tt, g) ->
  (at_ f "country" i = Some VNull -> at_ g "country_primary" i = Some VNull)
  /\ (at_ f "listed_in" i = Some VNull -> at_ g "main_genre" i = Some VNull)
  /\ (at_ f "duration" i = Some VNull ->
      at_ g "duration_int" i = Some VNull
      /\ at_ g "duration_type" i = Some VNull)
  /\ (at_ f "date_added" i = Some VNull -> at_ g "year_added" i = Some VNull)
  /\ (at_ g "date_added" i = Some VNull -> at_ g "year_added" i = Some VNull).
Proof.
  intros Hf Hrun%clean_Cleaned; [|done].
  assert (forall src dst,
    src = "country" /\ dst = "country_primary"
    \/ src = "listed_in" /\ dst = "main_genre" ->
    at_ f src i = Some VNull -> at_ g dst i = Some VNull) as Htok.
  { intros src dst Hnames Hat.
    destruct Hrun as [da du co li xs p0 p1 cp mg Hda Hdu Hxs Hp0 Hp1 Hco Hcp Hli Hmg].
    unfold at_ in *. simpl in *. rewrite get_derive.
    rewrite get_col_strip in Hco, Hli.
    destruct (get_col src (columns f)) as [c|] eqn:Hc; [|done]. simpl in Hat.
    assert (forall out, apply first_token_stripped (strip_col c) = Ok out ->
                        out !! i = Some None) as Hout.
    { intros out Hap. unfold apply in Hap.
      eapply map_result_lookup in Hap as (b & Hb & ->).
      2:{ by rewrite cells_strip_col, Hat. }
      by injection Hb as <-. }
    destruct Hnames as [[-> ->]|[-> ->]]; simpl.
    - rewrite Hc in Hco. injection Hco as <-.
      by rewrite list_lookup_fmap, (Hout cp Hcp).
    - rewrite Hc in Hli. injection Hli as <-.
      by rewrite list_lookup_fmap, (Hout mg Hmg). }
  split; [apply Htok; auto|]. split; [apply Htok; auto|]. split; [|split].
  - intros Hat.
    destruct (duration_row f g i VNull Hrun Hat)
      as ([s|] & vi & Ho & Hint & Hnum & Htype); [done|].
    by rewrite Hint, Htype, (holds_number_None vi Hnum).
  - intros Hat.
    destruct Hrun as [da du co li xs p0 p1 cp mg Hda Hdu Hxs Hp0 Hp1 Hco Hcp Hli Hmg].
    unfold at_ in *. simpl in *. rewrite get_derive. simpl.
    rewrite get_col_strip in Hda.
    destruct (get_col "date_added" (columns f)) as [c|]; [|done].
    simpl in Hat, Hda. injection Hda as <-.
    unfold years. rewrite !list_lookup_fmap.
    rewrite (to_datetime_null (strip_col c) i); [done|].
    by rewrite cells_strip_col, Hat.
  - destruct Hrun as [da du co li xs p0 p1 cp mg Hda Hdu Hxs Hp0 Hp1 Hco Hcp Hli Hmg].
    unfold at_. simpl. rewrite !get_derive. simpl.
    unfold years. rewrite !list_lookup_fmap.
    by destruct (to_datetime da !! i) as [[t|]|].
Qed.

End Nulls.

Lemma reference_to_datetime_null c i :
  cells c !! i = Some VNull -> Reference.to_datetime c !! i = Some None.
Proof.
  destruct c; simpl; rewrite ?list_lookup_fmap;
    destruct (xs !! i) as [[x|]|]; try done.
Qed.

Section Aborts.

Context `{Library}.

(** Without an object column of durations the step stops at [.str]. *)
Lemma clean_raises_without_str (f : DataFrame) c d :
  NoDup (col_names f) ->
  get_col "date_added" (columns f) = Some d ->
  get_col "duration" (columns f) = Some c ->
  is_object c = false ->
  (clean f).1 = Raise needs_str.
Proof.
  intros Hf Hd Hc Hobj. unfold clean.
  rewrite (bind_run _ _ _ _ _ (strip_object_columns_run f Hf)).
  unfold parse_date_added, split_duration, bind, getitem, setitem, lift.
  simpl. rewrite get_col_strip, Hd. simpl. rewrite get_set_col_eq. simpl.
  rewrite !get_set_col_ne by done. rewrite get_col_strip, Hc. simpl.
  by destruct c.
Qed.

(** When no duration has a space the split has no column 1. *)
Lemma clean_raises_without_space (f : DataFrame) xs d :
  NoDup (col_names f) ->
  get_col "date_added" (columns f) = Some d ->
  get_col "duration" (columns f) = Some (ObjectCol xs) ->
  xs <> [] ->
  (forall i s, xs !! i = Some (Some s) ->
               PyStr.contains " " (PyStr.strip s) = false) ->
  (clean f).1 = Raise (KeyError "1").
Proof.
  intros Hf Hd Hc Hxs Hno. unfold clean.
  rewrite (bind_run _ _ _ _ _ (strip_object_columns_run f Hf)).
  unfold parse_date_added, split_duration, bind, getitem, setitem, lift.
  simpl. rewrite get_col_strip, Hd. simpl. rewrite get_set_col_eq. simpl.
  rewrite !get_set_col_ne by done. rewrite get_col_strip, Hc. simpl.
  set (e := expand (str_split " " 1 (str_strip xs))).
  assert (width e = 1%nat) as Hw.
  { assert (~ (2 <= width e)%nat) as Hlt.
    { intros (i & s & Hi & Hs)%width_two.
      unfold str_strip in Hi. rewrite list_lookup_fmap in Hi.
      destruct (xs !! i) as [[s'|]|] eqn:Hi'; try done. injection Hi as <-.
      by rewrite (Hno i s') in Hs. }
    assert (1 <= width e)%nat; [|lia].
    destruct xs as [|o r]; [done|]. subst e. unfold expand. simpl.
    destruct o as [s|]; simpl; [|lia].
    pose proof (PyStrFacts.split_nonempty " " (Some 1%nat) (PyStr.strip s)).
    destruct (PyStr.split " " (Some 1%nat) (PyStr.strip s)); [done|].
    simpl. lia. }
  destruct (expanded_col_Ok e 0) as [p0 Hp0]; [lia|]. rewrite Hp0. simpl.
  by rewrite expanded_col_Raise by lia.
Qed.

End Aborts.

(** ** Taking rows *)

Lemma cells_col_take pos c :
  cells (col_take pos c) = (fun j => default VNull (cells c !! j)) <$> pos.
Proof.
  destruct c; simpl; unfold take_at; rewrite <- list_fmap_compose;
    apply list_fmap_ext; intros i j _; simpl; rewrite list_lookup_fmap;
    by destruct (xs !! j).
Qed.

Lemma names_df_take pos f : col_names (df_take pos f) = col_names f.
Proof.
  unfold col_names, df_take. simpl. rewrite <- list_fmap_compose.
  apply list_fmap_ext. by intros i [n c] _.
Qed.

Lemma nrows_df_take pos f : nrows (df_take pos f) = length pos.
Proof. unfold nrows, df_take. simpl. by rewrite length_fmap. Qed.

Lemma get_col_df_take name pos f :
  get_col name (columns (df_take pos f)) = col_take pos <$> get_col name (columns f).
Proof.
  unfold df_take. simpl. induction (columns f) as [|[n c] r IH]; [done|].
  simpl. by case_decide.
Qed.

(** Row [i] of the taken table is row [pos !! i] of the table. *)
Lemma row_df_take pos f i j :
  pos !! i = Some j -> row (df_take pos f) i = row f j.
Proof.
  intros Hi. unfold row, df_take. simpl. rewrite <- list_fmap_compose.
  apply list_fmap_ext. intros k [n c] _. simpl. f_equal.
  by rewrite cells_col_take, list_lookup_fmap, Hi.
Qed.

Lemma index_df_take pos f i j :
  pos !! i = Some j -> (j < nrows f)%nat ->
  index (df_take pos f) !! i = index f !! j.
Proof.
  intros Hi Hj. unfold df_take. simpl. rewrite list_lookup_fmap, Hi. simpl.
  destruct (lookup_lt_is_Some_2 (index f) j Hj) as [x ->]. done.
Qed.

Lemma df_take_well_formed pos f :
  well_formed f -> NoDup pos -> Forall (fun j => j < nrows f)%nat pos ->
  well_formed (df_take pos f).
Proof.
  intros [Hn Hi Hl] Hpos Hin. split.
  - by rewrite names_df_take.
  - unfold df_take. simpl. apply NoDup_fmap_2_strong; [|done].
    intros j k Hj Hk Hjk.
    rewrite Forall_forall in Hin.
    destruct (lookup_lt_is_Some_2 (index f) j (Hin j Hj)) as [x Hx].
    destruct (lookup_lt_is_Some_2 (index f) k (Hin k Hk)) as [y Hy].
    rewrite Hx, Hy in Hjk. simpl in Hjk. subst y.
    exact (NoDup_lookup _ _ _ _ Hi Hx Hy).
  - rewrite nrows_df_take. unfold df_take. simpl.
    apply Forall_fmap, Forall_forall. intros [n c] _. simpl.
    by rewrite cells_col_take, length_fmap.
Qed.

Lemma mask_positions_spec mask from j :
  j ∈ mask_positions from mask <->
  (from <= j)%nat /\ mask !! (j - from)%nat = Some true.
Proof.
  revert from. induction mask as [|b r IH]; intros from; simpl.
  - rewrite elem_of_nil. split; [done|]. by intros [_ ?].
  - destruct (decide (j = from)) as [->|Hne].
    + rewrite Nat.sub_diag. simpl. destruct b.
      * rewrite elem_of_cons. split; [by intros; split; [lia|]|auto].
      * rewrite IH. split; [lia|]. by intros [_ [=]].
    + assert (Hr : (from <= j)%nat -> (j - from)%nat = S (j - S from)) by lia.
      destruct b; rewrite ?elem_of_cons, IH; split.
      * intros [?|[? Hj]]; [done|]. split; [lia|]. by rewrite Hr by lia.
      * intros [? Hj]. right. split; [lia|]. by rewrite Hr in Hj by lia.
      * intros [? Hj]. split; [lia|]. by rewrite Hr by lia.
      * intros [? Hj]. split; [lia|]. by rewrite Hr in Hj by lia.
Qed.

(** ** The sampler *)

Lemma read_write_file path content fs :
  read_file path (write_file path content fs) = Some content.
Proof.
  induction fs as [|[p c] r IH]; simpl.
  - by rewrite decide_True.
  - case_decide; simpl; [by rewrite decide_True|by rewrite decide_False].
Qed.

Section Sampler.

Context `{Library}.

Lemma sample_run w r f n seed :
  heap w !! r = Some f -> (n <= nrows f)%nat -> (0 < n)%nat ->
  sample r n (Some seed) w
  = (Ok (length (heap w)),
     {| heap := heap w ++ [sampled n seed f]; files := files w;
        np_random := np_random w |}).
Proof.
  intros Hr Hn Hpos. unfold sample, bind, deref, alloc, draw, ret.
  rewrite Hr. rewrite decide_False by lia. by rewrite decide_False by lia.
Qed.

(** Without [random_state] the rows come from the global generator, which
    moves on. *)
Lemma sample_run_unseeded w r f n :
  heap w !! r = Some f -> (n <= nrows f)%nat -> (0 < n)%nat ->
  sample r n None w
  = (Ok (length (heap w)),
     {| heap := heap w
                ++ [df_take (take n (np_random_permutation (np_random w)
                                       (nrows f)).1) f];
        files := files w;
        np_random := (np_random_permutation (np_random w) (nrows f)).2 |}).
Proof.
  intros Hr Hn Hpos. unfold sample, bind, deref, alloc, draw.
  rewrite Hr. rewrite decide_False by lia. rewrite decide_False by lia.
  by destruct (np_random_permutation (np_random w) (nrows f)).
Qed.

Lemma sample_raises w r f n random_state :
  heap w !! r = Some f -> (nrows f < n)%nat ->
  sample r n random_state w = (Raise (ValueError (sample_error n f)), w).
Proof.
  intros Hr Hn. unfold sample, sample_error, bind, deref, raise.
  rewrite Hr. case_decide; [done|]. by rewrite decide_True by done.
Qed.

Lemma sampler_run w r f :
  heap w !! r = Some f -> (3000 <= nrows f)%nat ->
  sampler r w
  = (Ok (length (heap w)),
     {| heap := heap w ++ [sampled 3000 42 f];
        files := write_file subset_path (to_csv (sampled 3000 42 f)) (files w);
        np_random := np_random w |}).
Proof.
  intros Hr Hn. unfold sampler.
  rewrite (bind_run _ _ _ _ _ (sample_run w r f 3000 42 Hr Hn ltac:(lia))).
  unfold df_to_csv, bind, deref, ret. simpl.
  rewrite lookup_app_r by done. by rewrite Nat.sub_diag.
Qed.

Lemma sampler_raises w r f :
  heap w !! r = Some f -> (nrows f < 3000)%nat ->
  sampler r w = (Raise (ValueError (sample_error 3000 f)), w).
Proof.
  intros Hr Hn. unfold sampler.
  by rewrite (bind_raise _ _ _ _ _ (sample_raises w r f 3000 _ Hr Hn)).
Qed.

(** C6, as the code has it.  On a table of fewer than 3000 rows the
    sampler raises numpy's [ValueError], with the message of [choice] for a
    sample larger than the population, or for an empty population.  No
    table is created and no file is written, and the script ends there with
    the same exception. *)
Theorem sampler_insufficient_rows (w : world) (df_full : ref) (f : DataFrame) :
  heap w !! df_full = Some f ->
  (nrows f < 3000)%nat ->
  let msg :=
    if decide (nrows f = 0)%nat
    then "a must be greater than 0 unless no samples are taken"
    else "Cannot take a larger sample than population when 'replace=False'" in
  sampler df_full w = (Raise (ValueError msg), w)
  /\ script df_full w = (Raise (ValueError msg), w)
  /\ exn_name (ValueError msg) = "ValueError".
Proof.
  intros Hr Hn msg. pose proof (sampler_raises w df_full f Hr Hn) as Hmsg.
  assert (sample_error 3000 f = msg) as Heq.
  { unfold sample_error, msg. repeat case_decide; try done; lia. }
  rewrite Heq in Hmsg. split; [done|]. split; [|done].
  unfold script, script_with. by rewrite (bind_raise _ _ _ _ _ Hmsg).
Qed.

(** C5.  The generator that chooses the rows is made from the seed 42 for
    the call, so the state of numpy's global generator plays no part: it is
    not read and it is left as it was.  Two runs of the sampler on the same
    table, whatever the state of the global generator and whatever else the
    two heaps and file systems hold, end alike: both raise the same
    exception, or both return a table with the same rows in the same order
    and leave the same text in the subset file.  So does a second run in
    the world that the first one left. *)
Theorem sampler_deterministic (w1 w2 : world) (r1 r2 : ref) (f : DataFrame) :
  heap w1 !! r1 = Some f ->
  heap w2 !! r2 = Some f ->
  np_random (sampler r1 w1).2 = np_random w1
  /\ np_random (sampler r2 w2).2 = np_random w2
  /\ match sampler r1 w1, sampler r2 w2 with
     | (Ok d1, w1'), (Ok d2, w2') =>
         exists g txt,
           heap w1' !! d1 = Some g /\ heap w2' !! d2 = Some g
           /\ read_file subset_path (files w1') = Some txt
           /\ read_file subset_path (files w2') = Some txt
     | (Raise e1, _), (Raise e2, _) => e1 = e2
     | _, _ => False
     end
  /\ match sampler r1 w1 with
     | (Ok d1, w1') =>
         exists d1' w1'',
           sampler r1 w1' = (Ok d1', w1'')
           /\ heap w1'' !! d1' = heap w1' !! d1
           /\ read_file subset_path (files w1'')
              = read_file subset_path (files w1')
     | (Raise e1, w1') => sampler r1 w1' = (Raise e1, w1')
     end.
Proof.
  intros H1 H2. destruct (decide (3000 <= nrows f)%nat) as [Hn|Hn].
  - rewrite (sampler_run w1 r1 f H1 Hn), (sampler_run w2 r2 f H2 Hn).
    split; [done|]. split; [done|]. split.
    + exists (sampled 3000 42 f), (to_csv (sampled 3000 42 f)). simpl.
      rewrite !read_write_file.
      rewrite !lookup_app_r by done. rewrite !Nat.sub_diag. done.
    + eexists _, _. split.
      * apply sampler_run; [|done]. simpl.
        rewrite lookup_app_l by by eapply lookup_lt_Some. done.
      * simpl. rewrite !read_write_file.
        rewrite !lookup_app_r by (rewrite ?length_app; simpl; lia).
        by rewrite !Nat.sub_diag.
  - rewrite (sampler_raises w1 r1 f H1), (sampler_raises w2 r2 f H2) by lia.
    split; [done|]. split; [done|]. split; [done|].
    apply sampler_raises; [done|lia].
Qed.

(** A permutation of [0 .. n-1]. *)
Hypothesis permutation_perm :
  forall seed n, Permutation (permutation seed n) (seq 0 n).

Lemma sample_positions n seed N :
  (n <= N)%nat ->
  let pos := take n (permutation seed N) in
  length pos = n /\ NoDup pos /\ Forall (fun j => j < N)%nat pos.
Proof.
  intros Hn pos. pose proof (permutation_perm seed N) as Hp.
  assert (length (permutation seed N) = N) as Hlen
    by by rewrite (Permutation_length Hp), length_seq.
  split; [|split].
  - unfold pos. rewrite length_take. lia.
  - eapply sublist_NoDup; [|apply sublist_take].
    rewrite Hp. apply NoDup_seq.
  - apply Forall_forall. intros j Hj%subseteq_take.
    rewrite Hp in Hj. apply elem_of_seq in Hj. lia.
Qed.

(** C7.  On a well-formed table of at least 3000 rows the sampler returns a
    table of exactly 3000 rows under the same column names; its rows are
    rows of the input at 3000 distinct positions, so every sampled row is in
    the input and none is taken twice.  The file holds that table, and the
    input table is as it was. *)
Theorem sample_is_subset (w : world) (df_full : ref) (f : DataFrame) :
  well_formed f ->
  heap w !! df_full = Some f ->
  (3000 <= nrows f)%nat ->
  exists df_subset w' g pos,
    sampler df_full w = (Ok df_subset, w')
    /\ heap w' !! df_subset = Some g
    /\ heap w' !! df_full = Some f
    /\ read_file subset_path (files w') = Some (to_csv g)
    /\ well_formed g
    /\ nrows g = 3000%nat
    /\ col_names g = col_names f
    /\ length pos = 3000%nat
    /\ NoDup pos
    /\ forall i j, pos !! i = Some j ->
         (j < nrows f)%nat
         /\ row g i = row f j
         /\ index g !! i = index f !! j.
Proof.
  intros Hwf Hr Hn.
  destruct (sample_positions 3000 42 (nrows f) Hn) as (Hlen & Hnd & Hin).
  eexists (length (heap w)), _, (sampled 3000 42 f),
    (take 3000 (permutation 42 (nrows f))).
  split; [by apply sampler_run|]. simpl.
  split; [by rewrite lookup_app_r, Nat.sub_diag|].
  split; [by rewrite lookup_app_l by by eapply lookup_lt_Some|].
  split; [apply read_write_file|].
  split; [by apply df_take_well_formed|].
  split; [by unfold sampled; rewrite nrows_df_take|].
  split; [apply names_df_take|].
  split; [done|]. split; [done|].
  intros i j Hi.
  assert (j < nrows f)%nat as Hj.
  { rewrite Forall_forall in Hin. apply Hin. by eapply list_elem_of_lookup_2. }
  split; [done|]. split; [by apply row_df_take|by apply index_df_take].
Qed.

End Sampler.

Lemma reference_permutation_perm seed n :
  Permutation (Reference.permutation seed n) (seq 0 n).
Proof.
  unfold Reference.permutation, rotate.
  rewrite Permutation_app_comm. by rewrite take_drop.
Qed.

Lemma catalogue_well_formed k : well_formed (catalogue k).
Proof.
  split.
  - unfold col_names, catalogue. simpl. apply (bool_decide_unpack _). by vm_compute.
  - apply NoDup_seq.
  - unfold nrows, catalogue. simpl. rewrite length_seq.
    assert (forall A (xs : list A), length xs = 5%nat ->
              length (mjoin (replicate k xs)) = (5 * k)%nat) as Hlen.
    { intros A xs Hxs. induction k as [|k IH]; simpl; [done|].
      rewrite length_app, IH, Hxs. lia. }
    repeat (apply Forall_cons; split;
            [simpl; rewrite length_fmap; by apply Hlen|]).
    constructor.
Qed.

Lemma sampler_insufficient_rows_witness :
  let w := {| heap := [fixture]; files := []; np_random := 0 |} in
  let e := ValueError
             "Cannot take a larger sample than population when 'replace=False'" in
  heap w !! 0%nat = Some fixture
  /\ (nrows fixture < 3000)%nat
  /\ sampler (H := Reference.library) 0 w = (Raise e, w)
  /\ script (H := Reference.library) 0 w = (Raise e, w)
  /\ exn_name e = "ValueError".
Proof.
  intros w e.
  assert (nrows fixture < 3000)%nat as Hn by (vm_compute; lia).
  split; [done|]. split; [exact Hn|].
  exact (sampler_insufficient_rows w 0%nat fixture eq_refl Hn).
Defined.

(** C6 as the spec words it: the error is to be an [InsufficientRowsError].
    On the five rows of [fixture] the sampler raises, but what it raises is
    numpy's [ValueError]; the program has no error class of its own. *)
Lemma sampler_insufficient_rows_counterexample :
  let w := {| heap := [fixture]; files := []; np_random := 0 |} in
  exists e,
    sampler (H := Reference.library) 0 w = (Raise e, w)
    /\ e = ValueError
             "Cannot take a larger sample than population when 'replace=False'"
    /\ exn_name e <> insufficient_rows_error.
Proof. eexists. vm_compute. repeat split; discriminate. Qed.

(** What the seed is for: without it the rows of two samples of one table
    differ, because the second draws from the state in which the first left
    the global generator. *)
Lemma sample_without_seed_varies :
  let w := {| heap := [fixture]; files := []; np_random := 1 |} in
  exists d1 w1 d2 w2 g1 g2,
    sample (H := Reference.library) 0 3 None w = (Ok d1, w1)
    /\ sample (H := Reference.library) 0 3 None w1 = (Ok d2, w2)
    /\ heap w2 !! d1 = Some g1 /\ heap w2 !! d2 = Some g2
    /\ index g1 = [1; 2; 3]%nat /\ index g2 = [2; 3; 4]%nat
    /\ np_random w1 <> np_random w.
Proof. eexists _, _, _, _, _, _. vm_compute. repeat split; discriminate. Qed.

Lemma sampler_deterministic_witness :
  let w1 := {| heap := [catalogue 600]; files := []; np_random := 0 |} in
  let w2 := {| heap := [fixture; catalogue 600];
               files := [(subset_path, "stale")]; np_random := 7 |} in
  (heap w1 !! 0%nat = Some (catalogue 600)
   /\ heap w2 !! 1%nat = Some (catalogue 600))
  /\ np_random (sampler (H := Reference.library) 0 w1).2 = np_random w1
  /\ np_random (sampler (H := Reference.library) 1 w2).2 = np_random w2
  /\ match sampler (H := Reference.library) 0 w1,
           sampler (H := Reference.library) 1 w2 with
     | (Ok d1, w1'), (Ok d2, w2') =>
         exists g txt,
           heap w1' !! d1 = Some g /\ heap w2' !! d2 = Some g
           /\ read_file subset_path (files w1') = Some txt
           /\ read_file subset_path (files w2') = Some txt
     | (Raise e1, _), (Raise e2, _) => e1 = e2
     | _, _ => False
     end
  /\ match sampler (H := Reference.library) 0 w1 with
     | (Ok d1, w1') =>
         exists d1' w1'',
           sampler (H := Reference.library) 0 w1' = (Ok d1', w1'')
           /\ heap w1'' !! d1' = heap w1' !! d1
           /\ read_file subset_path (files w1'')
              = read_file subset_path (files w1')
     | (Raise e1, w1') =>
         sampler (H := Reference.library) 0 w1' = (Raise e1, w1')
     end.
Proof.
  intros w1 w2.
  exact (conj (conj eq_refl eq_refl)
           (sampler_deterministic (H := Reference.library) w1 w2 0%nat 1%nat
              (catalogue 600) eq_refl eq_refl)).
Defined.

Lemma sample_is_subset_witness :
  let w := {| heap := [catalogue 600]; files := []; np_random := 0 |} in
  well_formed (catalogue 600)
  /\ heap w !! 0%nat = Some (catalogue 600)
  /\ (3000 <= nrows (catalogue 600))%nat
  /\ exists df_subset w' g,
       sampler (H := Reference.library) 0 w = (Ok df_subset, w')
       /\ heap w' !! df_subset = Some g
       /\ nrows g = 3000%nat
       /\ col_names g = col_names (catalogue 600).
Proof.
  intros w.
  assert (3000 <= nrows (catalogue 600))%nat as Hn by (vm_compute; lia).
  split; [apply catalogue_well_formed|]. split; [done|]. split; [exact Hn|].
  destruct (sample_is_subset (H := Reference.library)
              reference_permutation_perm w 0%nat (catalogue 600)
              (catalogue_well_formed 600) eq_refl Hn)
    as (d & w' & g & pos & Hrun & Hg & _ & _ & _ & Hrows & Hnames & _).
  exists d, w', g. exact (conj Hrun (conj Hg (conj Hrows Hnames))).
Defined.

(** ** The cleaner and the heap *)

Lemma world_eta w : {| heap := heap w; files := files w; np_random := np_random w |} = w.
Proof. by destruct w. Qed.

Section Cleaner.

Context `{Library}.

(** The cleaner works on a new object: the heap grows by the copy, in the
    state in which [clean] left it. *)
Lemma cleaner_run w r f :
  heap w !! r = Some f ->
  cleaner r w
  = (match (clean f).1 with
     | Ok _ => Ok (length (heap w))
     | Raise e => Raise e
     end,
     {| heap := heap w ++ [(clean f).2]; files := files w; np_random := np_random w |}).
Proof.
  intros Hr. unfold cleaner, copy, bind, deref, alloc, on, ret.
  rewrite Hr. simpl. rewrite lookup_app_r by done. rewrite Nat.sub_diag. simpl.
  destruct (clean f) as [[[]|e] f']; simpl;
    rewrite insert_app_r_alt by done; by rewrite Nat.sub_diag.
Qed.

Lemma cleaner_stale w r :
  heap w !! r = None -> cleaner r w = (Raise stale, w).
Proof.
  intros Hr. unfold cleaner, copy, bind, deref. by rewrite Hr.
Qed.

Lemma cleaner_Ok w r df w' :
  cleaner r w = (Ok df, w') ->
  exists f, heap w !! r = Some f
            /\ df = length (heap w)
            /\ heap w' !! df = Some (clean f).2.
Proof.
  intros Hrun. destruct (heap w !! r) as [f|] eqn:Hr.
  - rewrite (cleaner_run w r f Hr) in Hrun. exists f.
    destruct (clean f).1; [|done]. injection Hrun as <- <-.
    split; [done|]. split; [done|]. by apply list_lookup_middle.
  - by rewrite (cleaner_stale w r Hr) in Hrun.
Qed.

(** C8.  Whether the cleaner returns or raises, the table it was given is
    afterwards what it was before, and so is every other table that existed
    and every file: the cleaner allocates a copy and assigns columns only to
    the copy, which is the table it returns. *)
Theorem cleaner_leaves_subset (w : world) (df_subset : ref) :
  let out := cleaner df_subset w in
  heap out.2 !! df_subset = heap w !! df_subset
  /\ (forall r, (r < length (heap w))%nat -> heap out.2 !! r = heap w !! r)
  /\ files out.2 = files w
  /\ (forall df, out.1 = Ok df ->
        df <> df_subset
        /\ exists f, heap w !! df_subset = Some f
                     /\ heap out.2 !! df = Some (clean f).2).
Proof.
  destruct (heap w !! df_subset) as [f|] eqn:Hr.
  - rewrite (cleaner_run w df_subset f Hr). simpl.
    pose proof (lookup_lt_Some _ _ _ Hr) as Hlt.
    split; [by rewrite lookup_app_l|].
    split; [by intros r Hr'; rewrite lookup_app_l|].
    split; [done|].
    intros df Hdf. destruct (clean f).1; [|done]. injection Hdf as <-.
    split; [lia|]. exists f. split; [done|].
    by rewrite lookup_app_r, Nat.sub_diag.
  - rewrite (cleaner_stale w df_subset Hr). simpl.
    repeat split; try done.
Qed.

End Cleaner.

(** ** Cleaning a cleaned table *)

Lemma names_derive D Y I T C G cs :
  is_Some (get_col "date_added" cs) -> is_Some (get_col "year_added" cs) ->
  is_Some (get_col "duration_int" cs) -> is_Some (get_col "duration_type" cs) ->
  is_Some (get_col "country_primary" cs) -> is_Some (get_col "main_genre" cs) ->
  (derive D Y I T C G cs).*1 = cs.*1.
Proof.
  intros [? H1] [? H2] [? H3] [? H4] [? H5] [? H6]. unfold derive.
  repeat (erewrite names_set_col_Some;
          [|rewrite ?get_set_col_ne by done; eassumption]).
  done.
Qed.

Lemma NoDup_derive D Y I T C G cs :
  NoDup cs.*1 -> NoDup (derive D Y I T C G cs).*1.
Proof. intros Hcs. unfold derive. by repeat apply NoDup_set_col. Qed.

Section Idempotence.

Context `{Library}.

(** [to_datetime] returns a datetime column as it is. *)
Hypothesis to_datetime_datetime :
  forall ts, to_datetime (DatetimeCol ts) = ts.

Lemma clean_idempotent (f g : DataFrame) :
  NoDup (col_names f) -> clean f = (Ok tt, g) -> clean g = (Ok tt, g).
Proof.
  intros Hf Hrun. pose proof (clean_Cleaned f g Hf Hrun) as Hg.
  destruct Hg as [da du co li xs p0 p1 cp mg Hda Hdu Hxs Hp0 Hp1 Hco Hcp Hli Hmg].
  match goal with |- clean ?R = _ => remember R as g eqn:Hg end.
  clear Hrun. simpl in Hda, Hdu, Hco, Hli, Hg.
  set (cs1 := prod_map id strip_col <$> columns f) in *.
  set (D := DatetimeCol (to_datetime da)) in *.
  set (Y := IntCol (years (to_datetime da))) in *.
  set (I := to_numeric_coerce p0) in *.
  assert (strip_col I = I) as HI.
  { unfold I, to_numeric_coerce. by destruct (mapM _ _). }
  assert (NoDup (col_names g)) as Hgn.
  { rewrite Hg. unfold col_names. simpl. apply NoDup_derive.
    unfold cs1. rewrite names_strip. exact Hf. }
  assert (forall n c, get_col n cs1 = Some c -> strip_col c = c) as Hstripped.
  { intros n c. unfold cs1. rewrite get_col_strip.
    destruct (get_col n (columns f)); [|done]. intros [= <-].
    apply strip_col_idem. }
  assert (g = {| index := index g;
                 columns := derive D Y I (ObjectCol p1) (ObjectCol cp)
                              (ObjectCol mg) (columns (strip_frame g)) |}) as Heq.
  { rewrite Hg. simpl. f_equal. apply cols_ext.
    - apply NoDup_derive. unfold cs1. by rewrite names_strip.
    - rewrite (names_derive _ _ _ _ _ _ (prod_map id strip_col <$> _));
        rewrite ?get_col_strip, ?get_derive; simpl; try done.
      by rewrite names_strip.
    - intros n. rewrite !get_derive. rewrite get_col_strip, get_derive.
      repeat (case_decide; [simpl; by rewrite ?HI|]).
      destruct (get_col n cs1) as [c|] eqn:Hc; [|done]. simpl.
      by rewrite (Hstripped n c Hc). }
  apply Cleaned_clean; [done|].
  assert (strip_col du = du) as Hdu' by by eapply Hstripped.
  assert (strip_col co = co) as Hco' by by eapply Hstripped.
  assert (strip_col li = li) as Hli' by by eapply Hstripped.
  assert (DatetimeCol (to_datetime D) = D) as HD
    by (unfold D; by rewrite to_datetime_datetime).
  assert (IntCol (years (to_datetime D)) = Y) as HY
    by (unfold D, Y; by rewrite to_datetime_datetime).
  assert (Cleaned g
            {| index := index g;
               columns :=
                 derive (DatetimeCol (to_datetime D))
                        (IntCol (years (to_datetime D))) I
                        (ObjectCol p1) (ObjectCol cp) (ObjectCol mg)
                        (columns (strip_frame g)) |}) as HC.
  { apply (Cleaned_intro g D du co li xs p0 p1 cp mg); try done;
      simpl; rewrite get_col_strip, Hg; simpl; rewrite get_derive; simpl.
    - done.
    - rewrite Hdu. simpl. by rewrite Hdu'.
    - rewrite Hco. simpl. by rewrite Hco'.
    - rewrite Hli. simpl. by rewrite Hli'. }
  rewrite HD, HY in HC. by rewrite <- Heq in HC.
Qed.

(** C9.  Running the cleaner on the table that a first run returned gives a
    table equal to it, column for column and cell for cell: every derived
    value stays what it was. *)
Theorem cleaner_idempotent (w w' : world) (df_subset df : ref) (f : DataFrame) :
  heap w !! df_subset = Some f ->
  NoDup (col_names f) ->
  cleaner df_subset w = (Ok df, w') ->
  exists g df2 w'',
    heap w' !! df = Some g
    /\ clean f = (Ok tt, g)
    /\ cleaner df w' = (Ok df2, w'')
    /\ heap w'' !! df2 = Some g
    /\ heap w'' !! df = Some g.
Proof.
  intros Hr Hf Hrun. rewrite (cleaner_run w df_subset f Hr) in Hrun.
  destruct (clean f) as [[[]|e] g] eqn:Hclean; [|done].
  simpl in Hrun. injection Hrun as <- <-.
  assert (({| heap := heap w ++ [g]; files := files w; np_random := np_random w |} : world).(heap)
            !! length (heap w) = Some g) as Hg
    by by apply list_lookup_middle.
  exists g. eexists _, _. split; [exact Hg|]. split; [done|].
  rewrite (cleaner_run _ _ g Hg).
  rewrite (clean_idempotent f g Hf Hclean).
  split; [done|]. split.
  - by apply list_lookup_middle.
  - cbn [heap snd]. rewrite lookup_app_l; [exact Hg|].
    by eapply lookup_lt_Some.
Qed.

End Idempotence.

Lemma reference_to_datetime_datetime ts :
  Reference.to_datetime (DatetimeCol ts) = ts.
Proof. done. Qed.

Lemma cleaner_idempotent_witness :
  let w := {| heap := [fixture]; files := []; np_random := 0 |} in
  let out := cleaner (H := Reference.library) 0 w in
  heap w !! 0%nat = Some fixture
  /\ NoDup (col_names fixture)
  /\ out = (Ok 1%nat, out.2)
  /\ exists g df2 w'',
       heap out.2 !! 1%nat = Some g
       /\ clean (H := Reference.library) fixture = (Ok tt, g)
       /\ cleaner (H := Reference.library) 1 out.2 = (Ok df2, w'')
       /\ heap w'' !! df2 = Some g
       /\ heap w'' !! 1%nat = Some g.
Proof.
  intros w out.
  assert (Hrun : out = (Ok 1%nat, out.2)) by by vm_compute.
  split; [done|]. split; [exact fixture_names|]. split; [exact Hrun|].
  exact (cleaner_idempotent (H := Reference.library)
           reference_to_datetime_datetime w out.2 0%nat 1%nat fixture
           eq_refl fixture_names Hrun).
Defined.

(** ** The tables behind the heat map *)

Lemma map_result_total {A B} (h : A -> B) l :
  map_result (fun x => Ok (h x)) l = Ok (h <$> l).
Proof. induction l as [|a r IH]; simpl; [done|]. by rewrite IH. Qed.

Lemma on_getitem w r f name c :
  heap w !! r = Some f -> get_col name (columns f) = Some c ->
  on r (getitem name) w = (Ok c, w).
Proof.
  intros Hr Hc. unfold on, getitem. rewrite Hr, Hc.
  rewrite list_insert_id by done. by rewrite world_eta.
Qed.

Lemma on_getitem_None w r f name :
  heap w !! r = Some f -> get_col name (columns f) = None ->
  on r (getitem name) w = (Raise (KeyError name), w).
Proof.
  intros Hr Hc. unfold on, getitem. rewrite Hr, Hc.
  rewrite list_insert_id by done. by rewrite world_eta.
Qed.

Lemma notna_lookup c j :
  notna c !! j = Some true ->
  exists v, cells c !! j = Some v /\ isna v = false.
Proof.
  unfold notna. rewrite list_lookup_fmap.
  destruct (cells c !! j) as [v|]; [|done]. simpl. intros [= Hv].
  exists v. split; [done|]. by destruct (isna v).
Qed.

(** The cells of a column taken at positions where the column is not null
    are not null. *)
Lemma cells_take_notna pos c :
  Forall (fun j => notna c !! j = Some true) pos ->
  Forall (fun v => isna v = false) (cells (col_take pos c)).
Proof.
  intros Hpos. rewrite cells_col_take. apply Forall_fmap.
  eapply Forall_impl; [exact Hpos|]. intros j Hj. simpl.
  destruct (notna_lookup c j Hj) as (v & -> & Hv). done.
Qed.

(** Taking rows at positions inside a column keeps its cells. *)
Lemma cells_take_Forall (P : value -> Prop) pos c :
  Forall (fun j => j < length (cells c))%nat pos ->
  Forall P (cells c) -> Forall P (cells (col_take pos c)).
Proof.
  intros Hpos Hc. rewrite cells_col_take. apply Forall_fmap.
  eapply Forall_impl; [exact Hpos|]. intros j Hj. simpl.
  destruct (lookup_lt_is_Some_2 _ _ Hj) as [v Hv]. rewrite Hv. simpl.
  rewrite Forall_forall in Hc. apply Hc. by eapply list_elem_of_lookup_2.
Qed.

Lemma mask_positions_lt mask :
  Forall (fun j => j < length mask)%nat (mask_positions 0 mask).
Proof.
  apply Forall_forall. intros j [_ Hj]%mask_positions_spec.
  rewrite Nat.sub_0_r in Hj. by eapply lookup_lt_Some.
Qed.

Lemma grouped_take pos t :
  grouped t ->
  (forall ratings, get_col "rating" (columns t) = Some ratings ->
     Forall (fun j => j < length (cells ratings))%nat pos) ->
  grouped (df_take pos t).
Proof.
  intros (ratings & genres & Hr & Hg & Hrn & Hgn & Hlen & Hrg) Hpos.
  specialize (Hpos ratings Hr).
  exists (col_take pos ratings), (col_take pos genres).
  rewrite !get_col_df_take, Hr, Hg, Hrg. simpl.
  split; [done|]. split; [done|].
  split; [by apply cells_take_Forall|].
  split; [apply cells_take_Forall; [by rewrite Hlen|done]|].
  split; [by rewrite !cells_col_take, !length_fmap|].
  do 2 f_equal. unfold take_at. rewrite cells_col_take, <- list_fmap_compose.
  apply list_fmap_ext. intros i j Hj. simpl.
  rewrite Forall_forall in Hpos.
  assert (j < length (cells ratings))%nat as Hlt
    by (apply Hpos; by eapply list_elem_of_lookup_2).
  destruct (lookup_lt_is_Some_2 _ _ Hlt) as [v Hv].
  by rewrite list_lookup_fmap, Hv.
Qed.

Lemma bind_ext {S A B} (m : St S A) (k1 k2 : A -> St S B) s :
  (forall a s', m s = (Ok a, s') -> k1 a s' = k2 a s') ->
  bind m k1 s = bind m k2 s.
Proof. intros Hk. unfold bind. destruct (m s) as [[a|e] s']; auto. Qed.

Lemma bind_eq_l {S A B} (m m' : St S A) (k : A -> St S B) s :
  m s = m' s -> bind m k s = bind m' k s.
Proof. unfold bind. by intros ->. Qed.

Lemma on_getitem_Ok w r name c w' :
  on r (getitem name) w = (Ok c, w') ->
  exists f, heap w !! r = Some f
            /\ get_col name (columns f) = Some c /\ w' = w.
Proof.
  intros Hrun. destruct (heap w !! r) as [f|] eqn:Hr.
  - destruct (get_col name (columns f)) as [c'|] eqn:Hc.
    + rewrite (on_getitem w r f name c' Hr Hc) in Hrun.
      injection Hrun as <- <-. eauto.
    + by rewrite (on_getitem_None w r f name Hr Hc) in Hrun.
  - unfold on in Hrun. by rewrite Hr in Hrun.
Qed.

Lemma omap_id_Some {A} (l : list A) : omap id (Some <$> l) = l.
Proof. induction l as [|a r IH]; csimpl; [done|]. by rewrite IH. Qed.

Lemma zip_andb_lookup (a b : list bool) j :
  zip_with andb a b !! j = Some true ->
  a !! j = Some true /\ b !! j = Some true.
Proof.
  rewrite lookup_zip_with.
  destruct (a !! j) as [[]|], (b !! j) as [[]|]; simpl; try done.
Qed.

Lemma map_result_ext {A B} (f g : A -> result B) l :
  Forall (fun a => f a = g a) l -> map_result f l = map_result g l.
Proof.
  induction 1 as [|a r Ha _ IH]; simpl; [done|]. by rewrite Ha, IH.
Qed.

Lemma df_getitem_mask_run w df f mask :
  heap w !! df = Some f ->
  df_getitem_mask df mask w
  = (Ok (length (heap w)),
     {| heap := heap w ++ [df_mask mask f]; files := files w;
        np_random := np_random w |}).
Proof. intros Hr. unfold df_getitem_mask, bind, deref, alloc. by rewrite Hr. Qed.

Lemma copy_run w r f :
  heap w !! r = Some f ->
  copy r w
  = (Ok (length (heap w)),
     {| heap := heap w ++ [f]; files := files w; np_random := np_random w |}).
Proof. intros Hr. unfold copy, bind, deref, alloc. by rewrite Hr. Qed.

Lemma on_run {A} w r f (m : F A) res f' :
  heap w !! r = Some f -> m f = (res, f') ->
  on r m w
  = (res, {| heap := <[r := f']> (heap w); files := files w;
             np_random := np_random w |}).
Proof. intros Hr Hm. unfold on. by rewrite Hr, Hm. Qed.

Section Heatmap.

Context `{Library}.

(** Lines 153-154 on the cleaned table [f]. *)
Lemma genre_counts_run w df f g0 :
  heap w !! df = Some f ->
  get_col "main_genre" (columns f) = Some g0 ->
  genre_counts df w
  = (Ok (length (heap w)),
     {| heap := heap w ++ [genre_counts_of g0]; files := files w;
        np_random := np_random w |}).
Proof.
  intros Hr Hg. unfold genre_counts.
  rewrite (bind_run _ _ _ _ _ (on_getitem w df f _ g0 Hr Hg)).
  unfold alloc, bind, on, set_column_names, counts_table, ret.
  cbn [heap files np_random].
  rewrite list_lookup_middle by done. cbn [columns length].
  rewrite decide_True by done. cbn [index columns].
  rewrite (insert_app_r_alt (heap w)) by done.
  rewrite Nat.sub_diag. by cbn [insert list_insert].
Qed.

Lemma genre_counts_raises w df f :
  heap w !! df = Some f ->
  get_col "main_genre" (columns f) = None ->
  genre_counts df w = (Raise (KeyError "main_genre"), w).
Proof.
  intros Hr Hg. unfold genre_counts.
  by rewrite (bind_raise _ _ _ _ _ (on_getitem_None w df f _ Hr Hg)).
Qed.

Lemma genre_counts_stale w df :
  heap w !! df = None -> genre_counts df w = (Raise stale, w).
Proof. intros Hr. unfold genre_counts, bind, on. by rewrite Hr. Qed.

(** The function that line 183 hands to [apply] matters only on the ratings
    that are not null: lines 182-186 hand it no other. *)
Lemma df_genre_tables_ext rate df counts w :
  (forall v, isna v = false -> rate v = Ok (Some (simplify_rating v))) ->
  df_genre_tables rate df counts w
  = df_genre_tables rating_group_of df counts w.
Proof.
  intros Hrate. unfold df_genre_tables.
  apply bind_ext. intros g w1 (f & Hf & Hg & ->)%on_getitem_Ok.
  apply bind_ext. intros r w2 (f' & Hf' & Hr & ->)%on_getitem_Ok.
  assert (f' = f) as -> by congruence.
  apply bind_ext. intros sel w3 Hsel.
  unfold df_getitem_mask, bind, deref, alloc in Hsel. rewrite Hf in Hsel.
  injection Hsel as <- <-.
  apply bind_ext. intros dg w4 Hcopy.
  unfold copy, bind, deref, alloc in Hcopy. cbn [heap files np_random] in Hcopy.
  rewrite list_lookup_middle in Hcopy by done.
  injection Hcopy as <- <-.
  set (mask := zip_with andb (notna g) (notna r)).
  apply bind_eq_l.
  unfold on. cbn [heap files np_random].
  rewrite list_lookup_middle
    by (rewrite length_app; simpl; lia).
  unfold bind, getitem, lift, df_mask.
  rewrite get_col_df_take, Hr. cbn [fmap option_fmap option_map].
  assert (apply rate (col_take (mask_positions 0 mask) r)
          = apply rating_group_of (col_take (mask_positions 0 mask) r)) as ->;
    [|done].
  unfold apply. apply map_result_ext.
  eapply Forall_impl.
  - apply cells_take_notna, Forall_forall.
    intros j [_ Hj]%mask_positions_spec. rewrite Nat.sub_0_r in Hj.
    by apply zip_andb_lookup in Hj as [_ Hj].
  - intros v Hv. simpl. by apply Hrate.
Qed.

(** Lines 182-183 on the cleaned table [f]: what is left to run, and the
    world in which it runs. *)
Lemma df_genre_tables_start w df counts f g0 r0 :
  heap w !! df = Some f ->
  get_col "main_genre" (columns f) = Some g0 ->
  get_col "rating" (columns f) = Some r0 ->
  let pos := mask_positions 0 (zip_with andb (notna g0) (notna r0)) in
  let selected := df_take pos f in
  let df_genre :=
    {| index := index selected;
       columns :=
         set_col "rating_group"
           (ObjectCol ((fun v => Some (simplify_rating v))
                         <$> cells (col_take pos r0)))
           (columns selected) |} in
  df_genre_tables rating_group_of df counts w
  = (genres <- on counts (getitem "genre") ;;
     g <- on (S (length (heap w))) (getitem "main_genre") ;;
     df_genre_top <- df_getitem_mask (S (length (heap w)))
                       (isin g (tolist genres)) ;;
     ret (S (length (heap w)), df_genre_top))%st
      {| heap := heap w ++ [selected; df_genre]; files := files w;
         np_random := np_random w |}.
Proof.
  intros Hr Hg Hrt pos selected df_genre.
  unfold df_genre_tables.
  rewrite (bind_run _ _ _ _ _ (on_getitem w df f _ g0 Hr Hg)).
  rewrite (bind_run _ _ _ _ _ (on_getitem w df f _ r0 Hr Hrt)).
  rewrite (bind_run _ _ _ _ _ (df_getitem_mask_run w df f _ Hr)).
  fold pos. unfold df_mask. fold pos selected.
  set (w1 := {| heap := heap w ++ [selected]; files := files w;
                np_random := np_random w |}).
  assert (heap w1 !! length (heap w) = Some selected) as H1
    by (by apply list_lookup_middle).
  rewrite (bind_run _ _ _ _ _ (copy_run w1 _ selected H1)).
  set (w2 := {| heap := heap w1 ++ [selected]; files := files w1;
                np_random := np_random w1 |}).
  assert (heap w2 !! length (heap w1) = Some selected) as H2
    by (by apply list_lookup_middle).
  assert (get_col "rating" (columns selected) = Some (col_take pos r0)) as Hsr
    by (unfold selected; by rewrite get_col_df_take, Hrt).
  assert ((r <- getitem "rating" ;;
           rating_group <- lift (apply rating_group_of r) ;;
           setitem "rating_group" (ObjectCol rating_group))%st selected
          = (Ok tt, df_genre)) as Hbody.
  { unfold bind, getitem, lift, setitem, apply, rating_group_of.
    by rewrite Hsr, map_result_total. }
  rewrite (bind_run _ _ _ _ _
             (on_run w2 (length (heap w1)) selected _ (Ok tt) df_genre H2 Hbody)).
  assert (length (heap w1) = S (length (heap w))) as ->
    by (unfold w1; cbn [heap]; rewrite length_app; simpl; lia).
  do 2 f_equal. unfold w2, w1. cbn [heap files np_random].
  rewrite (insert_app_r_alt (heap w ++ [selected])), length_app
    by (rewrite length_app; simpl; lia).
  cbn [length].
  replace (S (length (heap w)) - (length (heap w) + 1))%nat with 0%nat by lia.
  cbn [insert list_insert]. by rewrite <- app_assoc.
Qed.

(** What lines 182-186 build from the cleaned table [f], given the table
    of the genre counts. *)
Lemma df_genre_tables_run w df counts f t g0 r0 labels :
  heap w !! df = Some f ->
  heap w !! counts = Some t ->
  get_col "genre" (columns t) = Some labels ->
  get_col "main_genre" (columns f) = Some g0 ->
  get_col "rating" (columns f) = Some r0 ->
  let pos := mask_positions 0 (zip_with andb (notna g0) (notna r0)) in
  let selected := df_take pos f in
  let df_genre :=
    {| index := index selected;
       columns :=
         set_col "rating_group"
           (ObjectCol ((fun v => Some (simplify_rating v))
                         <$> cells (col_take pos r0)))
           (columns selected) |} in
  let df_genre_top :=
    df_mask (isin (col_take pos g0) (tolist labels)) df_genre in
  df_genre_tables rating_group_of df counts w
  = (Ok (S (length (heap w)), S (S (length (heap w)))),
     {| heap := heap w ++ [selected; df_genre; df_genre_top];
        files := files w; np_random := np_random w |}).
Proof.
  intros Hr Hc Hl Hg Hrt pos selected df_genre df_genre_top.
  pose proof (lookup_lt_Some _ _ _ Hc) as Hclt.
  rewrite (df_genre_tables_start w df counts f g0 r0 Hr Hg Hrt).
  fold pos selected df_genre.
  set (w3 := {| heap := heap w ++ [selected; df_genre]; files := files w;
                np_random := np_random w |}).
  assert (heap w3 !! counts = Some t) as Hc3
    by (unfold w3; cbn [heap]; by rewrite lookup_app_l).
  rewrite (bind_run _ _ _ _ _ (on_getitem w3 counts t _ labels Hc3 Hl)).
  assert (heap w3 !! S (length (heap w)) = Some df_genre) as Hg3.
  { unfold w3. cbn [heap]. rewrite lookup_app_r by lia.
    by replace (S (length (heap w)) - length (heap w))%nat with 1%nat by lia. }
  assert (get_col "main_genre" (columns df_genre) = Some (col_take pos g0)) as Hsg.
  { unfold df_genre. cbn [columns]. rewrite get_set_col_ne by done.
    unfold selected. by rewrite get_col_df_take, Hg. }
  rewrite (bind_run _ _ _ _ _
             (on_getitem w3 (S (length (heap w))) df_genre _ _ Hg3 Hsg)).
  rewrite (bind_run _ _ _ _ _ (df_getitem_mask_run w3 _ df_genre _ Hg3)).
  fold df_genre_top. unfold ret, w3. cbn [heap files np_random].
  rewrite !length_app. cbn [length].
  rewrite <- !app_assoc. cbn [app].
  do 2 f_equal; f_equal; lia.
Qed.

(** What [heatmap_tables] builds from the cleaned table [f]. *)
Lemma heatmap_tables_run w df f g0 r0 :
  heap w !! df = Some f ->
  get_col "main_genre" (columns f) = Some g0 ->
  get_col "rating" (columns f) = Some r0 ->
  let pos := mask_positions 0 (zip_with andb (notna g0) (notna r0)) in
  let selected := df_take pos f in
  let df_genre :=
    {| index := index selected;
       columns :=
         set_col "rating_group"
           (ObjectCol ((fun v => Some (simplify_rating v))
                         <$> cells (col_take pos r0)))
           (columns selected) |} in
  let df_genre_top :=
    df_mask (isin (col_take pos g0) (value_counts_nlargest 10 g0).*1) df_genre in
  heatmap_tables df w
  = (Ok ((2 + length (heap w))%nat, (3 + length (heap w))%nat),
     {| heap := heap w
                ++ [genre_counts_of g0; selected; df_genre; df_genre_top];
        files := files w; np_random := np_random w |}).
Proof.
  intros Hr Hg Hrt pos selected df_genre df_genre_top. unfold heatmap_tables.
  rewrite (bind_run _ _ _ _ _ (genre_counts_run w df f g0 Hr Hg)).
  pose proof (lookup_lt_Some _ _ _ Hr) as Hlt.
  rewrite (df_genre_tables_run _ df (length (heap w)) f (genre_counts_of g0)
             g0 r0 (ObjectCol (Some <$> (value_counts_nlargest 10 g0).*1))).
  - cbn [heap files np_random tolist]. rewrite omap_id_Some.
    fold pos selected df_genre df_genre_top.
    rewrite length_app. cbn [length]. rewrite <- app_assoc. cbn [app].
    do 2 f_equal; f_equal; lia.
  - cbn [heap]. by rewrite lookup_app_l.
  - cbn [heap]. by apply list_lookup_middle.
  - done.
  - done.
  - done.
Qed.

Lemma heatmap_tables_no_genre w df f :
  heap w !! df = Some f ->
  get_col "main_genre" (columns f) = None ->
  heatmap_tables df w = (Raise (KeyError "main_genre"), w).
Proof.
  intros Hr Hg. unfold heatmap_tables.
  by rewrite (bind_raise _ _ _ _ _ (genre_counts_raises w df f Hr Hg)).
Qed.

(** Line 182 raises when the genre counts are already there. *)
Lemma heatmap_tables_no_rating w df f g0 :
  heap w !! df = Some f ->
  get_col "main_genre" (columns f) = Some g0 ->
  get_col "rating" (columns f) = None ->
  heatmap_tables df w
  = (Raise (KeyError "rating"),
     {| heap := heap w ++ [genre_counts_of g0]; files := files w;
        np_random := np_random w |}).
Proof.
  intros Hr Hg Hrt. unfold heatmap_tables.
  rewrite (bind_run _ _ _ _ _ (genre_counts_run w df f g0 Hr Hg)).
  set (w1 := {| heap := heap w ++ [genre_counts_of g0]; files := files w;
                np_random := np_random w |}).
  assert (heap w1 !! df = Some f) as Hr1.
  { unfold w1. cbn [heap]. rewrite lookup_app_l; [done|].
    by eapply lookup_lt_Some. }
  unfold df_genre_tables.
  rewrite (bind_run _ _ _ _ _ (on_getitem w1 df f _ g0 Hr1 Hg)).
  by rewrite (bind_raise _ _ _ _ _ (on_getitem_None w1 df f _ Hr1 Hrt)).
Qed.

Lemma heatmap_tables_Ok w df f dg dt w' :
  heap w !! df = Some f ->
  heatmap_tables df w = (Ok (dg, dt), w') ->
  exists g0 r0,
    get_col "main_genre" (columns f) = Some g0
    /\ get_col "rating" (columns f) = Some r0.
Proof.
  intros Hr Hrun.
  destruct (get_col "main_genre" (columns f)) as [g0|] eqn:Hg.
  2:{ by rewrite (heatmap_tables_no_genre w df f Hr Hg) in Hrun. }
  destruct (get_col "rating" (columns f)) as [r0|] eqn:Hrt; [eauto|].
  by rewrite (heatmap_tables_no_rating w df f g0 Hr Hg Hrt) in Hrun.
Qed.

Lemma heatmap_tables_grouped w df f dg dt w' :
  heap w !! df = Some f ->
  heatmap_tables df w = (Ok (dg, dt), w') ->
  exists G T,
    heap w' !! dg = Some G /\ heap w' !! dt = Some T
    /\ grouped G /\ grouped T.
Proof.
  intros Hr Hrun.
  destruct (heatmap_tables_Ok w df f dg dt w' Hr Hrun) as (g0 & r0 & Hg & Hrt).
  rewrite (heatmap_tables_run w df f g0 r0 Hr Hg Hrt) in Hrun.
  injection Hrun as <- <- <-.
  set (pos := mask_positions 0 (zip_with andb (notna g0) (notna r0))).
  set (selected := df_take pos f).
  set (G := {| index := index selected;
               columns :=
                 set_col "rating_group"
                   (ObjectCol ((fun v => Some (simplify_rating v))
                                 <$> cells (col_take pos r0)))
                   (columns selected) |}).
  assert (grouped G) as HG.
  { exists (col_take pos r0), (col_take pos g0). unfold G. cbn [columns].
    rewrite get_set_col_eq, !get_set_col_ne by done.
    unfold selected. rewrite !get_col_df_take, Hg, Hrt. simpl.
    assert (Forall (fun j => notna g0 !! j = Some true
                             /\ notna r0 !! j = Some true) pos) as Hpos.
    { apply Forall_forall. intros j [_ Hj]%mask_positions_spec.
      rewrite Nat.sub_0_r in Hj. by apply zip_andb_lookup. }
    split; [done|]. split; [done|].
    split; [apply cells_take_notna; eapply Forall_impl; [exact Hpos|];
            by intros j [? ?]|].
    split; [apply cells_take_notna; eapply Forall_impl; [exact Hpos|];
            by intros j [? ?]|].
    split; [by rewrite !cells_col_take, !length_fmap|done]. }
  eexists G, _. cbn [heap].
  split.
  { rewrite lookup_app_r by lia.
    match goal with |- _ !! ?i = _ => by replace i with 2%nat by lia end. }
  split.
  { rewrite lookup_app_r by lia.
    match goal with |- _ !! ?i = _ => by replace i with 3%nat by lia end. }
  split; [done|].
  apply grouped_take; [done|].
  intros ratings Hratings. cbn [columns] in Hratings.
  rewrite get_set_col_ne in Hratings by done.
  pose proof (get_col_df_take "rating" pos f) as Ht.
  unfold df_take in Ht. cbn [columns] in Ht. rewrite Ht, Hrt in Hratings.
  injection Hratings as <-.
  eapply Forall_impl; [apply mask_positions_lt|].
  intros j Hj. simpl in Hj. unfold isin in Hj.
  by rewrite !length_fmap, !cells_col_take, !length_fmap in *.
Qed.

End Heatmap.

(** ** The whole script *)


Lemma year_chart_Ok w df y w' :
  year_chart df w = (Ok y, w') ->
  exists f modern,
    heap w !! df = Some f
    /\ df_modern f = Ok modern
    /\ year_param modern = Ok y.2
    /\ y.1 = length (heap w)
    /\ w' = {| heap := heap w ++ [modern]; files := files w;
               np_random := np_random w |}.
Proof.
  unfold year_chart, bind, deref, lift, alloc, ret.
  destruct (heap w !! df) as [f|] eqn:Hf; [|done].
  destruct (df_modern f) as [modern|] eqn:Hm; [|done].
  destruct (year_param modern) as [slider|] eqn:Hp; [|done].
  intros [= <- <-]. by exists f, modern.
Qed.


Section ScriptSteps.

Context `{Library}.

Lemma sampler_Ok w r d w' :
  sampler r w = (Ok d, w') ->
  exists f,
    heap w !! r = Some f
    /\ (3000 <= nrows f)%nat
    /\ d = length (heap w)
    /\ w' = {| heap := heap w ++ [sampled 3000 42 f];
               files := write_file subset_path (to_csv (sampled 3000 42 f))
                          (files w);
               np_random := np_random w |}.
Proof.
  intros Hrun. destruct (heap w !! r) as [f|] eqn:Hr.
  - destruct (decide (3000 <= nrows f)%nat) as [Hn|Hn].
    + rewrite (sampler_run w r f Hr Hn) in Hrun. injection Hrun as <- <-.
      by exists f.
    + by rewrite (sampler_raises w r f Hr) in Hrun by lia.
  - unfold sampler, sample, bind, deref in Hrun. by rewrite Hr in Hrun.
Qed.

Lemma genre_counts_Ok w df c w' :
  genre_counts df w = (Ok c, w') -> c = length (heap w).
Proof.
  intros Hrun. destruct (heap w !! df) as [f|] eqn:Hr.
  - destruct (get_col "main_genre" (columns f)) as [g0|] eqn:Hg.
    + rewrite (genre_counts_run w df f g0 Hr Hg) in Hrun. by injection Hrun.
    + by rewrite (genre_counts_raises w df f Hr Hg) in Hrun.
  - by rewrite (genre_counts_stale w df Hr) in Hrun.
Qed.

(** What a run of the script that reaches line 187 has done: the steps
    that returned, and the world before the heat-map tables. *)
Lemma script_Ok w df_full b w' :
  script df_full w = (Ok b, w') ->
  exists f g modern,
    let n := length (heap w) in
    let w3 := {| heap := heap w ++ [sampled 3000 42 f; g; modern];
                 files := write_file subset_path
                            (to_csv (sampled 3000 42 f)) (files w);
                 np_random := np_random w |} in
    heap w !! df_full = Some f
    /\ (3000 <= nrows f)%nat
    /\ clean (sampled 3000 42 f) = (Ok tt, g)
    /\ df_modern g = Ok modern
    /\ year_param modern = Ok (year_slider b)
    /\ df_subset_ref b = n /\ df_ref b = S n /\ df_modern_ref b = S (S n)
    /\ genre_counts_ref b = S (S (S n))
    /\ heatmap_tables (S n) w3 = (Ok (df_genre_ref b, df_genre_top_ref b), w').
Proof.
  intros Hrun. unfold script, script_with in Hrun.
  apply bind_Ok in Hrun as (d & w1 & (f & Hf & Hn & -> & ->)%sampler_Ok & Hrun).
  apply bind_Ok in Hrun as (df & w2 & Hclean & Hrun).
  rewrite (cleaner_run _ (length (heap w)) (sampled 3000 42 f)) in Hclean
    by (by apply list_lookup_middle).
  destruct (clean (sampled 3000 42 f)) as [[[]|e] g] eqn:Hg; [|done].
  cbn [fst snd heap files np_random] in Hclean. injection Hclean as <- <-.
  apply bind_Ok in Hrun as (y & w3 & Hyear & Hrun).
  apply year_chart_Ok in Hyear as (g' & modern & Hg' & Hm & Hp & Hy & ->).
  cbn [heap files np_random] in Hg', Hy.
  assert (g' = g) as ->.
  { rewrite lookup_app_r, Nat.sub_diag in Hg' by done. by injection Hg'. }
  apply bind_Ok in Hrun as (counts & w4 & Hcounts & Hrun).
  apply bind_Ok in Hrun as ([dg dt] & w5 & Htables & Hrun).
  injection Hrun as <- <-. cbn [df_subset_ref df_ref df_modern_ref year_slider
    genre_counts_ref df_genre_ref df_genre_top_ref fst snd].
  assert (heatmap_tables (length (heap w ++ [sampled 3000 42 f]))
            {| heap := ((heap w ++ [sampled 3000 42 f]) ++ [g]) ++ [modern];
               files := write_file subset_path
                          (to_csv (sampled 3000 42 f)) (files w);
               np_random := np_random w |} = (Ok (dg, dt), w5)) as Hheat.
  { unfold heatmap_tables. by rewrite (bind_run _ _ _ _ _ Hcounts). }
  apply genre_counts_Ok in Hcounts. cbn [heap] in Hcounts.
  rewrite <- !app_assoc in Hheat. cbn [app] in Hheat.
  rewrite !length_app in *. cbn [length] in *.
  replace (length (heap w) + 1)%nat with (S (length (heap w))) in * by lia.
  exists f, g, modern. cbn zeta.
  split; [done|]. split; [done|]. split; [done|]. split; [done|].
  split; [done|]. split; [done|]. split; [done|]. split; [lia|].
  split; [lia|done].
Qed.

End ScriptSteps.

(** C10.  The function that line 183 hands to [apply] is called on the
    ratings of [df_genre] and on nothing else, and line 182 has kept in
    [df_genre] only the rows that have a rating and a genre: put in place of
    [simplify_rating] any function that agrees with it on the ratings that
    are not null, one that refuses a null for instance, and every run of the
    script is what it was.  In every run that reaches line 187 the table on
    which the rating groups are computed, and the table of the ten most
    frequent genres cut from it, hold no null [rating] and no null
    [main_genre], and their [rating_group] is [simplify_rating] of the
    [rating] in the same row: the catch-all never receives a null. *)
Theorem rating_groups_never_see_null `{Library} (w : world) (df_full : ref) :
  (forall rate : value -> result (option string),
     (forall v, isna v = false -> rate v = Ok (Some (simplify_rating v))) ->
     script_with rate df_full w = script df_full w)
  /\ (forall b w',
        script df_full w = (Ok b, w') ->
        exists df_genre df_genre_top,
          heap w' !! df_genre_ref b = Some df_genre
          /\ heap w' !! df_genre_top_ref b = Some df_genre_top
          /\ grouped df_genre
          /\ grouped df_genre_top).
Proof.
  split.
  - intros rate Hrate. unfold script, script_with.
    apply bind_ext. intros df_subset w1 _.
    apply bind_ext. intros df w2 _.
    apply bind_ext. intros year w3 _.
    apply bind_ext. intros counts w4 _.
    apply bind_eq_l. by apply df_genre_tables_ext.
  - intros b w' Hrun.
    destruct (script_Ok w df_full b w' Hrun)
      as (f & g & modern & _ & _ & _ & _ & _ & _ & _ & _ & _ & Hheat).
    eapply heatmap_tables_grouped; [|exact Hheat].
    cbn [heap]. rewrite lookup_app_r by lia.
    match goal with |- _ !! ?i = _ => by replace i with 1%nat by lia end.
Qed.

Lemma rating_groups_never_see_null_witness :
  let w := {| heap := [catalogue 600]; files := []; np_random := 0 |} in
  let out := script (H := Reference.library) 0 w in
  let b := {| df_subset_ref := 1; df_ref := 2; df_modern_ref := 3;
              year_slider := {| slider_min := 2004; slider_max := 2021;
                                slider_step := 1; param_value := 2021 |};
              genre_counts_ref := 4;
              df_genre_ref := 6; df_genre_top_ref := 7 |} in
  out = (Ok b, out.2)
  /\ script_with (H := Reference.library) group_of_present 0 w = out
  /\ exists df_genre df_genre_top,
       heap out.2 !! 6%nat = Some df_genre
       /\ heap out.2 !! 7%nat = Some df_genre_top
       /\ grouped df_genre
       /\ grouped df_genre_top.
Proof.
  intros w out b.
  assert (Hres : out.1 = Ok b) by (vm_cast_no_check (eq_refl (Ok b))).
  assert (Hrun : out = (Ok b, out.2))
    by (rewrite <- Hres; apply surjective_pairing).
  destruct (rating_groups_never_see_null (H := Reference.library) w 0%nat)
    as [Hany Hgrouped].
  split; [exact Hrun|]. split.
  - apply Hany. intros v Hv. unfold group_of_present. by rewrite Hv.
  - exact (Hgrouped b out.2 Hrun).
Defined.

(** C4, where the code departs from it.  A catalogue in which no title has
    a duration makes the script raise at [.str], and one in which no
    duration has a space makes it raise at column 1 of the split: absent
    values end the run. *)
Theorem script_raises_without_two_part_duration :
  (script (H := Reference.library) 0
     {| heap := [catalogue_without_durations]; files := []; np_random := 0 |}).1
  = Raise needs_str
  /\ (script (H := Reference.library) 0
        {| heap := [catalogue_of_single_words]; files := []; np_random := 0 |}).1
     = Raise (KeyError "1").
Proof.
  split.
  - vm_cast_no_check (eq_refl (Raise (A := Bindings) needs_str)).
  - vm_cast_no_check (eq_refl (Raise (A := Bindings) (KeyError "1"))).
Qed.

(** * The cleaned table, the heat-map tables and the other charts *)

Lemma get_col_In n c cs : get_col n cs = Some c -> (n, c) ∈ cs.
Proof.
  induction cs as [|[k c0] r IH]; simpl; [done|].
  case_decide; subst.
  - intros [= ->]. apply elem_of_cons. by left.
  - intros Hr. apply elem_of_cons. right. auto.
Qed.

Lemma increasing_NoDup pos : increasing pos -> NoDup pos.
Proof.
  intros Hinc. apply NoDup_alt. intros i1 i2 j H1 H2.
  destruct (Nat.lt_trichotomy i1 i2) as [Hlt|[->|Hlt]]; [|done|].
  - pose proof (Hinc i1 i2 j j H1 H2 Hlt). lia.
  - pose proof (Hinc i2 i1 j j H2 H1 Hlt). lia.
Qed.

(** ** Selecting rows by a mask *)

Lemma mask_positions_ge mask from j :
  j ∈ mask_positions from mask -> (from <= j)%nat.
Proof. by intros [? _]%mask_positions_spec. Qed.

Lemma mask_positions_increasing mask from : increasing (mask_positions from mask).
Proof.
  revert from. induction mask as [|b r IH]; intros from i1 i2 j1 j2; simpl;
    [done|].
  destruct b; [|apply IH].
  destruct i1 as [|i1], i2 as [|i2]; simpl; try lia.
  - intros [= <-] Hj2%list_elem_of_lookup_2%mask_positions_ge _. lia.
  - intros H1 H2 Hlt. apply (IH (S from) i1 i2); [done..|lia].
Qed.

Lemma at_df_take pos f n i j :
  well_formed f -> pos !! i = Some j -> (j < nrows f)%nat ->
  at_ (df_take pos f) n i = at_ f n j.
Proof.
  intros [_ _ Hlen] Hi Hj. unfold at_. rewrite get_col_df_take.
  destruct (get_col n (columns f)) as [c|] eqn:Hc; [|done]. simpl.
  rewrite cells_col_take, list_lookup_fmap, Hi. simpl.
  rewrite Forall_forall in Hlen.
  pose proof (Hlen (n, c) (get_col_In _ _ _ Hc)) as Hc'. simpl in Hc'.
  destruct (lookup_lt_is_Some_2 (cells c) j) as [v Hv]; [lia|].
  by rewrite Hv.
Qed.

Lemma df_take_rows_at pos f :
  well_formed f -> Forall (fun j => j < nrows f)%nat pos ->
  rows_at pos f (df_take pos f) [].
Proof.
  intros Hwf Hpos. split; [apply nrows_df_take|].
  intros i j Hi.
  assert (j < nrows f)%nat as Hj.
  { rewrite Forall_forall in Hpos. apply Hpos. by eapply list_elem_of_lookup_2. }
  split; [by apply index_df_take|].
  intros n _. by apply at_df_take.
Qed.

(** A boolean mask as long as the table selects the rows at which it is
    true. *)
Lemma df_mask_selects mask f :
  well_formed f -> length mask = nrows f ->
  selects (fun j => mask !! j = Some true) f (df_mask mask f) [].
Proof.
  intros Hwf Hlen. exists (mask_positions 0 mask).
  split; [apply mask_positions_increasing|]. split.
  - intros j. rewrite mask_positions_spec, Nat.sub_0_r. split.
    + intros [_ Hj]. split; [|done]. rewrite <- Hlen. by eapply lookup_lt_Some.
    + intros [_ Hj]. split; [lia|done].
  - apply df_take_rows_at; [done|]. rewrite <- Hlen. apply mask_positions_lt.
Qed.

Lemma df_mask_well_formed mask f :
  well_formed f -> length mask = nrows f -> well_formed (df_mask mask f).
Proof.
  intros Hwf Hlen. apply df_take_well_formed; [done|..].
  - apply increasing_NoDup, mask_positions_increasing.
  - rewrite <- Hlen. apply mask_positions_lt.
Qed.

(** ** More on the cleaning step *)

Lemma map_result_length {A B} (f : A -> result B) l bs :
  map_result f l = Ok bs -> length bs = length l.
Proof.
  revert bs. induction l as [|x r IH]; intros bs; simpl; [by intros [= <-]|].
  destruct (f x); [|done]. destruct (map_result f r); [|done].
  intros [= <-]. simpl. f_equal. by apply IH.
Qed.

Lemma map_result_lookup_inv {A B} (f : A -> result B) l bs i b :
  map_result f l = Ok bs -> bs !! i = Some b ->
  exists a, l !! i = Some a /\ f a = Ok b.
Proof.
  intros Hl Hb. pose proof (map_result_length f l bs Hl) as Hlen.
  destruct (lookup_lt_is_Some_2 l i) as [a Ha].
  { rewrite <- Hlen. by eapply lookup_lt_Some. }
  destruct (map_result_lookup f l bs i a Hl Ha) as (b' & Hb' & Hi).
  exists a. split; [done|]. congruence.
Qed.

Lemma expanded_col_length e k col :
  expanded_col e k = Ok col -> length col = length (parts e).
Proof.
  unfold expanded_col. case_decide; [|done]. intros [= <-].
  by rewrite length_fmap.
Qed.

Lemma names_set_col_filter n c (cs : list (string * column)) :
  (set_col n c cs).*1 = (cs.*1 ++ filter (fun m => m ∉ cs.*1) [n])%list.
Proof.
  rewrite names_set_col.
  destruct (get_col n cs) eqn:Hn.
  - rewrite filter_cons_False.
    + rewrite filter_nil. symmetry. apply List.app_nil_r.
    + intros Hnot. apply Hnot. apply list_elem_of_fmap.
      exists (n, c0). split; [done|]. by apply get_col_In.
  - apply get_col_None in Hn. by rewrite filter_cons_True.
Qed.


Lemma names_derive_filter D Y I T C G (cs : list (string * column)) :
  is_Some (get_col "date_added" cs) ->
  (derive D Y I T C G cs).*1
  = (cs.*1 ++ filter (fun m => m ∉ cs.*1) derived_names)%list.
Proof.
  intros [d Hd]. unfold derive, derived_names.
  rewrite (names_set_col_filter "main_genre"),
          (names_set_col_filter "country_primary"),
          (names_set_col_filter "duration_type"),
          (names_set_col_filter "duration_int"),
          (names_set_col_filter "year_added").
  rewrite (names_set_col_Some "date_added" D d cs Hd).
  set (l := cs.*1).
  change ["year_added"; "duration_int"; "duration_type"; "country_primary";
          "main_genre"]
    with (["year_added"] ++ ["duration_int"] ++ ["duration_type"]
          ++ ["country_primary"] ++ ["main_genre"])%list.
  rewrite !filter_app, !app_assoc.
  set (f1 := filter (fun m => m ∉ l) ["year_added"]).
  assert (forall (acc : list string) (seen : list string) n,
            (forall m, m ∈ acc <-> m ∈ l \/ (m ∈ seen /\ m ∉ l)) ->
            n ∉ seen ->
            filter (fun m => m ∉ acc) [n] = filter (fun m => m ∉ l) [n]) as Hgen.
  { intros acc seen n Hacc Hn.
    destruct (decide (n ∈ l)) as [Hl|Hl].
    - rewrite (filter_cons_False (fun m => m ∉ acc))
        by (intros Hnot; apply Hnot, Hacc; by left).
      by rewrite (filter_cons_False (fun m => m ∉ l))
        by (intros Hnot; by apply Hnot).
    - rewrite (filter_cons_True (fun m => m ∉ acc))
        by (intros [?|[? ?]]%Hacc; done).
      by rewrite (filter_cons_True (fun m => m ∉ l)) by done. }
  assert (forall n m, m ∈ filter (fun m => m ∉ l) [n] <-> m = n /\ m ∉ l) as Hsing.
  { intros n m. rewrite list_elem_of_filter, list_elem_of_singleton. tauto. }
  rewrite (Hgen (l ++ f1)%list ["year_added"] "duration_int").
  2:{ intros m. unfold f1. rewrite elem_of_app, Hsing, list_elem_of_singleton. tauto. }
  2:{ by intros ?%list_elem_of_singleton. }
  set (f2 := filter (fun m => m ∉ l) ["duration_int"]).
  rewrite (Hgen ((l ++ f1) ++ f2)%list ["year_added"; "duration_int"] "duration_type").
  2:{ intros m. unfold f1, f2. rewrite !elem_of_app, !Hsing, !elem_of_cons, elem_of_nil.
      tauto. }
  2:{ rewrite !elem_of_cons, elem_of_nil. intros [?|[?|[]]]; done. }
  set (f3 := filter (fun m => m ∉ l) ["duration_type"]).
  rewrite (Hgen (((l ++ f1) ++ f2) ++ f3)%list
             ["year_added"; "duration_int"; "duration_type"] "country_primary").
  2:{ intros m. unfold f1, f2, f3.
      rewrite !elem_of_app, !Hsing, !elem_of_cons, elem_of_nil. tauto. }
  2:{ rewrite !elem_of_cons, elem_of_nil. intros [?|[?|[?|[]]]]; done. }
  set (f4 := filter (fun m => m ∉ l) ["country_primary"]).
  rewrite (Hgen ((((l ++ f1) ++ f2) ++ f3) ++ f4)%list
             ["year_added"; "duration_int"; "duration_type"; "country_primary"]
             "main_genre").
  2:{ intros m. unfold f1, f2, f3, f4.
      rewrite !elem_of_app, !Hsing, !elem_of_cons, elem_of_nil. tauto. }
  2:{ rewrite !elem_of_cons, elem_of_nil. intros [?|[?|[?|[?|[]]]]]; done. }
  done.
Qed.

Lemma Forall_set_col (P : string * column -> Prop) n c cs :
  Forall P cs -> P (n, c) -> Forall P (set_col n c cs).
Proof.
  intros Hcs Hc. induction Hcs as [|[k c0] r Hk Hr IH]; simpl.
  - by constructor.
  - case_decide; subst; constructor; done.
Qed.
Lemma cells_strip_length c : length (cells (strip_col c)) = length (cells c).
Proof. destruct c; simpl; [|done..]. unfold str_strip. by rewrite !length_fmap. Qed.



Section CleanShape.

Context `{Library}.

(** [to_datetime] returns one timestamp or NaT for every cell. *)
Hypothesis to_datetime_length :
  forall c, length (to_datetime c) = length (cells c).


(** X5.  The cleaning step keeps the rows and their labels, keeps every
    column of the table under its name and in its place, and appends, in
    the order of the assignments, those of [year_added], [duration_int],
    [duration_type], [country_primary] and [main_genre] that the table did
    not have; the table it returns is well formed when the one it was given
    is. *)
Theorem clean_shape (f g : DataFrame) :
  NoDup (col_names f) ->
  clean f = (Ok tt, g) ->
  index g = index f
  /\ col_names g
     = (col_names f ++ filter (fun n => n ∉ col_names f) derived_names)%list
  /\ (well_formed f -> well_formed g).
Proof.
  intros Hf Hrun%clean_Cleaned; [|done].
  destruct Hrun as [da du co li xs p0 p1 cp mg Hda Hdu Hxs Hp0 Hp1 Hco Hcp Hli Hmg].
  simpl in Hda, Hdu, Hco, Hli.
  split; [done|].
  assert (col_names
            {| index := index f;
               columns := derive (DatetimeCol (to_datetime da))
                            (IntCol (years (to_datetime da)))
                            (to_numeric_coerce p0) (ObjectCol p1)
                            (ObjectCol cp) (ObjectCol mg)
                            (columns (strip_frame f)) |}
          = (col_names f ++ filter (fun n => n ∉ col_names f) derived_names)%list)
    as Hnames.
  { unfold col_names. simpl. rewrite names_derive_filter by (rewrite Hda; eauto).
    by rewrite names_strip. }
  split; [exact Hnames|].
  intros [_ Hix Hlen]. split.
  - unfold col_names. simpl. apply NoDup_derive. by rewrite names_strip.
  - done.
  - unfold nrows. simpl. fold (nrows f).
    rewrite get_col_strip in Hda, Hdu, Hco, Hli.
    rewrite Forall_forall in Hlen.
    assert (forall n c, get_col n (columns f) = Some c ->
              length (cells (strip_col c)) = nrows f) as Hcol.
    { intros n c Hc. rewrite cells_strip_length.
      apply (Hlen (n, c)). by apply get_col_In. }
    destruct (get_col "date_added" (columns f)) as [da'|] eqn:Hda'; [|done].
    destruct (get_col "duration" (columns f)) as [du'|] eqn:Hdu'; [|done].
    destruct (get_col "country" (columns f)) as [co'|] eqn:Hco'; [|done].
    destruct (get_col "listed_in" (columns f)) as [li'|] eqn:Hli'; [|done].
    simpl in Hda, Hdu, Hco, Hli.
    injection Hda as <-. injection Hdu as <-. injection Hco as <-.
    injection Hli as <-.
    destruct du' as [ys| | |]; try done. simpl in Hxs. injection Hxs as <-.
    assert (length (str_strip ys) = nrows f) as Hys.
    { pose proof (Hcol _ _ Hdu') as Hd. simpl in Hd. by rewrite length_fmap in Hd. }
    unfold derive.
    repeat (apply Forall_set_col; simpl).
    + apply Forall_fmap, Forall_forall. intros [n c] Hin. simpl.
      rewrite cells_strip_length. by apply (Hlen (n, c)).
    + rewrite length_fmap, to_datetime_length. by eapply Hcol.
    + unfold years. rewrite !length_fmap, to_datetime_length. by eapply Hcol.
    + rewrite cells_to_numeric_coerce_length.
      rewrite (expanded_col_length _ _ _ Hp0). unfold expand, str_split. simpl.
      by rewrite !length_fmap in *.
    + rewrite length_fmap.
      rewrite (expanded_col_length _ _ _ Hp1). unfold expand, str_split. simpl.
      by rewrite !length_fmap in *.
    + rewrite length_fmap. unfold apply in Hcp.
      rewrite (map_result_length _ _ _ Hcp). by eapply Hcol.
    + rewrite length_fmap. unfold apply in Hmg.
      rewrite (map_result_length _ _ _ Hmg). by eapply Hcol.
Qed.

End CleanShape.

Section CleanFrame.

Context `{Library}.

(** X6.  Outside the six columns it assigns, the cleaning step changes
    nothing but the white space around text: a column that is not of dtype
    object comes back as it was, an object column comes back with every
    value stripped, and no column disappears. *)
Theorem clean_other_columns (f g : DataFrame) (n : string) :
  NoDup (col_names f) ->
  clean f = (Ok tt, g) ->
  n ∉ assigned_names ->
  get_col n (columns g) = strip_col <$> get_col n (columns f).
Proof.
  intros Hf Hrun%clean_Cleaned Hn; [|done].
  destruct Hrun as [da du co li xs p0 p1 cp mg Hda Hdu Hxs Hp0 Hp1 Hco Hcp Hli Hmg].
  simpl. rewrite get_derive.
  unfold assigned_names, derived_names in Hn.
  rewrite !not_elem_of_cons in Hn.
  destruct Hn as (? & ? & ? & ? & ? & ? & _).
  repeat (rewrite decide_False by done).
  apply get_col_strip.
Qed.

(** X7.  In a table that the cleaning step returns every text is free of
    leading and trailing white space, in every column but [duration_type],
    which holds the text after the first space as it is. *)
Theorem clean_text_is_stripped (f g : DataFrame) (n : string) (i : nat) s :
  NoDup (col_names f) ->
  clean f = (Ok tt, g) ->
  n <> "duration_type" ->
  at_ g n i = Some (VStr s) ->
  PyStr.strip s = s.
Proof.
  intros Hf Hrun%clean_Cleaned Hn (ys & Hys & Hi)%at_str; [|done].
  destruct Hrun as [da du co li xs p0 p1 cp mg Hda Hdu Hxs Hp0 Hp1 Hco Hcp Hli Hmg].
  simpl in Hys. rewrite get_derive in Hys.
  assert (forall c out,
    apply first_token_stripped c = Ok out -> out !! i = Some (Some s) ->
    PyStr.strip s = s) as Htok.
  { intros c out Hout Hs. unfold apply in Hout.
    destruct (map_result_lookup_inv _ _ _ _ _ Hout Hs) as (v & _ & Hv).
    destruct v as [|s0| | |]; try done.
    rewrite first_token_stripped_str in Hv. injection Hv as <-.
    apply PyStrFacts.strip_idem. }
  assert (forall zs, to_numeric_coerce p0 <> ObjectCol zs) as Hnum.
  { intros zs. unfold to_numeric_coerce. by destruct (mapM _ _). }
  repeat case_decide; simplify_eq.
  - by eapply (Htok li).
  - by eapply (Htok co).
  - by destruct (Hnum ys).
  - rewrite get_col_strip in Hys.
    destruct (get_col n (columns f)) as [c|]; [|done]. simpl in Hys.
    destruct c as [zs| | |]; try done. injection Hys as <-.
    unfold str_strip in Hi. rewrite list_lookup_fmap in Hi.
    destruct (zs !! i) as [[s0|]|]; try done. injection Hi as <-.
    apply PyStrFacts.strip_idem.
Qed.

(** X3.  The cleaning step reads four columns by name, in the order
    [date_added], [duration], [country], [listed_in]; the first of them that
    the table lacks ends the step with a [KeyError] of that name, provided
    the statements before it returned. *)
Theorem clean_missing_column (f : DataFrame) :
  NoDup (col_names f) ->
  (get_col "date_added" (columns f) = None ->
   (clean f).1 = Raise (KeyError "date_added"))
  /\ (is_Some (get_col "date_added" (columns f)) ->
      get_col "duration" (columns f) = None ->
      (clean f).1 = Raise (KeyError "duration"))
  /\ (forall xs i s,
        is_Some (get_col "date_added" (columns f)) ->
        get_col "duration" (columns f) = Some (ObjectCol xs) ->
        xs !! i = Some (Some s) ->
        PyStr.contains " " (PyStr.strip s) = true ->
        (get_col "country" (columns f) = None ->
         (clean f).1 = Raise (KeyError "country"))
        /\ (forall c, get_col "country" (columns f) = Some c ->
              text_or_null c ->
              get_col "listed_in" (columns f) = None ->
              (clean f).1 = Raise (KeyError "listed_in"))).
Proof.
  intros Hf.
  assert (forall k : F unit,
            clean f = (strip_object_columns ;; k)%st f ->
            clean f = k (strip_frame f)) as Hstart.
  { intros k ->. by rewrite (bind_run _ _ _ _ _ (strip_object_columns_run f Hf)). }
  specialize (Hstart _ eq_refl). rewrite Hstart. clear Hstart.
  unfold parse_date_added, split_duration, primary_country, main_genre,
    bind, getitem, setitem, lift.
  simpl. rewrite !get_col_strip.
  split; [by intros ->|]. split.
  - intros [d ->] Hdu. simpl. rewrite get_set_col_eq. simpl.
    rewrite !get_set_col_ne by done. by rewrite get_col_strip, Hdu.
  - intros xs i s [d ->] Hdu Hi Hs. simpl. rewrite get_set_col_eq. simpl.
    rewrite !get_set_col_ne by done. rewrite get_col_strip, Hdu. simpl.
    assert (2 <= width (expand (str_split " " 1 (str_strip xs))))%nat as Hw.
    { apply width_two. exists i, (PyStr.strip s). split; [|done].
      unfold str_strip. by rewrite list_lookup_fmap, Hi. }
    destruct (expanded_col_Ok (expand (str_split " " 1 (str_strip xs))) 0)
      as [p0 Hp0]; [lia|].
    destruct (expanded_col_Ok (expand (str_split " " 1 (str_strip xs))) 1)
      as [p1 Hp1]; [lia|].
    rewrite Hp0, Hp1. simpl. rewrite !get_set_col_ne by done.
    rewrite get_col_strip. split.
    + by intros ->.
    + intros c -> Hc Hli. simpl.
      apply text_or_null_strip, apply_first_token_Ok in Hc as [cp Hcp].
      change (apply first_token_stripped (strip_col c))
        with (apply get_first_country (strip_col c)) in Hcp.
      rewrite Hcp. simpl.
      rewrite !get_set_col_ne by done. by rewrite get_col_strip, Hli.
Qed.

(** X4.  With its other columns in place, the cleaning step cannot get past
    a [duration] column that holds no text with a space: a column that is
    not of dtype object has no [.str] and raises [AttributeError], and a
    non-empty object column in which no stripped value has a space gives a
    split of one column, of which [duration_split[1]] is a [KeyError]. *)
Theorem clean_needs_a_two_part_duration (f : DataFrame) d c :
  NoDup (col_names f) ->
  get_col "date_added" (columns f) = Some d ->
  get_col "duration" (columns f) = Some c ->
  (is_object c = false -> (clean f).1 = Raise needs_str)
  /\ (forall xs, c = ObjectCol xs -> xs <> [] ->
        (forall i s, xs !! i = Some (Some s) ->
                     PyStr.contains " " (PyStr.strip s) = false) ->
        (clean f).1 = Raise (KeyError "1")).
Proof.
  intros Hf Hd Hc. split.
  - by apply (clean_raises_without_str f c d).
  - intros xs -> Hxs Hno. by apply (clean_raises_without_space f xs d).
Qed.

End CleanFrame.

(** ** More on the sampler and the heat map *)

Lemma read_write_file_ne path path' content fs :
  path <> path' ->
  read_file path' (write_file path content fs) = read_file path' fs.
Proof.
  intros Hne. induction fs as [|[p c] r IH]; simpl.
  - by rewrite decide_False.
  - repeat (case_decide; simpl; subst); try done.
Qed.

Lemma selects_iff (P Q : nat -> Prop) f t ex :
  (forall j, (j < nrows f)%nat -> P j <-> Q j) ->
  selects P f t ex -> selects Q f t ex.
Proof.
  intros HPQ (pos & Hinc & Hpos & Hrows). exists pos.
  split; [done|]. split; [|done].
  intros j. rewrite Hpos. split; intros [Hj ?]; (split; [done|]); by apply (HPQ j Hj).
Qed.

Lemma at_set_col_ne t n m c i :
  n <> m ->
  at_ {| index := index t; columns := set_col m c (columns t) |} n i = at_ t n i.
Proof. intros Hne. unfold at_. simpl. by rewrite get_set_col_ne. Qed.

Lemma selects_set_col P f t ex m c :
  selects P f t ex ->
  selects P f {| index := index t; columns := set_col m c (columns t) |} (m :: ex).
Proof.
  intros (pos & Hinc & Hpos & Hn & Hrows). exists pos.
  split; [done|]. split; [done|]. split; [done|].
  intros i j Hi. destruct (Hrows i j Hi) as [Hix Hat].
  split; [done|]. intros n [Hnm Hex]%not_elem_of_cons.
  rewrite at_set_col_ne by done. by apply Hat.
Qed.

Lemma well_formed_set_col t m c :
  well_formed t -> length (cells c) = nrows t ->
  well_formed {| index := index t; columns := set_col m c (columns t) |}.
Proof.
  intros [Hn Hi Hl] Hc. split; simpl.
  - unfold col_names. simpl. by apply NoDup_set_col.
  - done.
  - by apply Forall_set_col.
Qed.

Lemma column_length f n c :
  well_formed f -> get_col n (columns f) = Some c -> length (cells c) = nrows f.
Proof.
  intros [_ _ Hl] Hc. rewrite Forall_forall in Hl.
  apply (Hl (n, c)). by apply get_col_In.
Qed.

Section SamplerFrame.

Context `{Library}.

(** X8.  The sampler touches one file and no table: every table that
    existed is afterwards what it was, every file but the subset file is
    what it was, and a run that raises leaves everything as it was.  A run
    that returns has allocated exactly one table, the one it returns, and
    the subset file holds it, whether the file existed before or not. *)
Theorem sampler_frame (w : world) (df_full : ref) :
  let out := sampler df_full w in
  (forall r, (r < length (heap w))%nat -> heap out.2 !! r = heap w !! r)
  /\ (forall path, path <> subset_path ->
        read_file path (files out.2) = read_file path (files w))
  /\ (forall e, out.1 = Raise e -> out.2 = w)
  /\ (forall d, out.1 = Ok d ->
        d = length (heap w)
        /\ length (heap out.2) = S (length (heap w))
        /\ exists g, heap out.2 !! d = Some g
                     /\ read_file subset_path (files out.2) = Some (to_csv g)).
Proof.
  destruct (heap w !! df_full) as [f|] eqn:Hr.
  - destruct (decide (3000 <= nrows f)%nat) as [Hn|Hn].
    + rewrite (sampler_run w df_full f Hr Hn). simpl.
      split; [by intros r Hlt; rewrite lookup_app_l|].
      split; [by intros path Hne; apply read_write_file_ne|].
      split; [done|]. intros d [= <-]. split; [done|].
      split; [rewrite length_app; simpl; lia|].
      exists (sampled 3000 42 f).
      split; [by apply list_lookup_middle|apply read_write_file].
    + rewrite (sampler_raises w df_full f Hr) by lia. simpl.
      repeat split; done.
  - unfold sampler, sample, bind, deref. rewrite Hr. simpl.
    repeat split; done.
Qed.

End SamplerFrame.

Section HeatmapFrame.

Context `{Library}.

(** X9.  The heat-map step reads the cleaned table and writes to new
    tables only.  It raises [KeyError] for [main_genre] at line 153 when
    the table lacks that column, and then the world is what it was; it
    raises [KeyError] for [rating] at line 182 when it lacks that one, and
    then [genre_counts] is the one table that has been added.  Otherwise it
    returns, having allocated four tables: [genre_counts] with the labels
    and the counts that [value_counts().nlargest(10)] gives, the selection,
    [df_genre] and [df_genre_top], the last two of which it returns.  In
    every case the tables that existed, the cleaned one among them, and the
    files are what they were. *)
Theorem heatmap_tables_frame (w : world) (df : ref) (f : DataFrame) :
  heap w !! df = Some f ->
  let out := heatmap_tables df w in
  let n := length (heap w) in
  (forall r, (r < n)%nat -> heap out.2 !! r = heap w !! r)
  /\ files out.2 = files w
  /\ (get_col "main_genre" (columns f) = None ->
        out = (Raise (KeyError "main_genre"), w))
  /\ (forall g0,
        get_col "main_genre" (columns f) = Some g0 ->
        get_col "rating" (columns f) = None ->
        out.1 = Raise (KeyError "rating")
        /\ heap out.2 = (heap w ++ [genre_counts_of g0])%list)
  /\ (forall g0,
        get_col "main_genre" (columns f) = Some g0 ->
        is_Some (get_col "rating" (columns f)) ->
        out.1 = Ok ((2 + n)%nat, (3 + n)%nat)
        /\ length (heap out.2) = (n + 4)%nat
        /\ heap out.2 !! n = Some (genre_counts_of g0)).
Proof.
  intros Hr.
  destruct (get_col "main_genre" (columns f)) as [g0|] eqn:Hg.
  2:{ rewrite (heatmap_tables_no_genre w df f Hr Hg). simpl.
      split; [done|]. split; [done|]. split; [done|].
      split; by intros g0 [=]. }
  destruct (get_col "rating" (columns f)) as [r0|] eqn:Hrt.
  2:{ rewrite (heatmap_tables_no_rating w df f g0 Hr Hg Hrt). simpl.
      split; [by intros r Hlt; rewrite lookup_app_l|].
      split; [done|]. split; [done|].
      split; [by intros g0' [= <-] _|]. by intros g0' _ []. }
  rewrite (heatmap_tables_run w df f g0 r0 Hr Hg Hrt). simpl.
  split; [by intros r Hlt; rewrite lookup_app_l|].
  split; [done|]. split; [done|]. split; [done|].
  intros g0' [= <-] _. split; [done|].
  split; [rewrite length_app; simpl; lia|]. by apply list_lookup_middle.
Qed.

Lemma notna_true c j :
  notna c !! j = Some true <->
  exists v, cells c !! j = Some v /\ isna v = false.
Proof.
  split; [apply notna_lookup|]. intros (v & Hv & Hna).
  unfold notna. by rewrite list_lookup_fmap, Hv; simpl; rewrite Hna.
Qed.

Lemma length_notna c : length (notna c) = length (cells c).
Proof. unfold notna. by rewrite length_fmap. Qed.

Lemma zip_andb_true (a b : list bool) j :
  zip_with andb a b !! j = Some true <->
  a !! j = Some true /\ b !! j = Some true.
Proof.
  rewrite lookup_zip_with.
  destruct (a !! j) as [[]|], (b !! j) as [[]|]; simpl; split;
    try done; by intros [? ?].
Qed.

(** X10.  [df_genre] is the cleaned table cut down to the rows that have
    both a genre and a rating: exactly those rows, each once, in the order
    of the cleaned table, with their labels and with every cell as it was;
    [rating_group] is the one column that is new. *)
Theorem df_genre_selects (w w' : world) (df dg dt : ref) (f : DataFrame) :
  heap w !! df = Some f ->
  well_formed f ->
  heatmap_tables df w = (Ok (dg, dt), w') ->
  exists G,
    heap w' !! dg = Some G
    /\ well_formed G
    /\ selects (fun j => exists g r,
                  at_ f "main_genre" j = Some g /\ isna g = false
                  /\ at_ f "rating" j = Some r /\ isna r = false)
               f G ["rating_group"].
Proof.
  intros Hr Hwf Hrun.
  destruct (heatmap_tables_Ok w df f dg dt w' Hr Hrun) as (g0 & r0 & Hg & Hrt).
  rewrite (heatmap_tables_run w df f g0 r0 Hr Hg Hrt) in Hrun.
  injection Hrun as <- <- <-.
  set (mask := zip_with andb (notna g0) (notna r0)).
  assert (length mask = nrows f) as Hlen.
  { unfold mask. rewrite length_zip_with, !length_notna.
    rewrite (column_length f _ g0 Hwf Hg), (column_length f _ r0 Hwf Hrt). lia. }
  eexists. cbn [heap]. split.
  { rewrite lookup_app_r by lia.
    match goal with |- _ !! ?i = _ => by replace i with 2%nat by lia end. }
  split.
  { apply (well_formed_set_col (df_take (mask_positions 0 mask) f)).
    - by apply (df_mask_well_formed mask f).
    - rewrite nrows_df_take. simpl.
      by rewrite !length_fmap, cells_col_take, length_fmap. }
  apply (selects_set_col _ f (df_take (mask_positions 0 mask) f) []).
  eapply selects_iff; [|exact (df_mask_selects mask f Hwf Hlen)].
  intros j _. unfold mask, at_. rewrite zip_andb_true, !notna_true, Hg, Hrt.
  simpl. split.
  - intros [(g & ? & ?) (r & ? & ?)]. by exists g, r.
  - intros (g & r & ? & ? & ? & ?). split; eauto.
Qed.

(** X11.  [df_genre_top] is [df_genre] cut down to the rows whose genre is
    one of the (at most ten) genres that [value_counts().nlargest(10)] found
    in the cleaned table: exactly those rows, each once, in order, with
    every cell as it was, [rating_group] included. *)
Theorem df_genre_top_selects (w w' : world) (df dg dt : ref) (f : DataFrame) :
  heap w !! df = Some f ->
  well_formed f ->
  heatmap_tables df w = (Ok (dg, dt), w') ->
  exists G T genres,
    heap w' !! dg = Some G
    /\ heap w' !! dt = Some T
    /\ get_col "main_genre" (columns f) = Some genres
    /\ selects (fun j => exists v,
                  at_ G "main_genre" j = Some v
                  /\ py_in v (value_counts_nlargest 10 genres).*1 = true)
               G T [].
Proof.
  intros Hr Hwf Hrun.
  destruct (heatmap_tables_Ok w df f dg dt w' Hr Hrun) as (g0 & r0 & Hg & Hrt).
  rewrite (heatmap_tables_run w df f g0 r0 Hr Hg Hrt) in Hrun.
  injection Hrun as <- <- <-.
  set (mask := zip_with andb (notna g0) (notna r0)).
  set (pos := mask_positions 0 mask).
  set (G := {| index := index (df_take pos f);
               columns :=
                 set_col "rating_group"
                   (ObjectCol ((fun v => Some (simplify_rating v))
                                 <$> cells (col_take pos r0)))
                   (columns (df_take pos f)) |}).
  assert (length mask = nrows f) as Hlen.
  { unfold mask. rewrite length_zip_with, !length_notna.
    rewrite (column_length f _ g0 Hwf Hg), (column_length f _ r0 Hwf Hrt). lia. }
  assert (well_formed G) as HG.
  { apply (well_formed_set_col (df_take pos f)).
    - by apply (df_mask_well_formed mask f).
    - rewrite nrows_df_take. simpl.
      by rewrite !length_fmap, cells_col_take, length_fmap. }
  assert (get_col "main_genre" (columns G) = Some (col_take pos g0)) as HGg.
  { unfold G. cbn [columns]. rewrite get_set_col_ne by done.
    by rewrite get_col_df_take, Hg. }
  exists G,
    (df_mask (isin (col_take pos g0) (value_counts_nlargest 10 g0).*1) G), g0.
  cbn [heap]. split.
  { rewrite lookup_app_r by lia.
    match goal with |- _ !! ?i = _ => by replace i with 2%nat by lia end. }
  split.
  { rewrite lookup_app_r by lia.
    match goal with |- _ !! ?i = _ => by replace i with 3%nat by lia end. }
  split; [done|].
  eapply selects_iff; [|apply (df_mask_selects _ G HG)].
  - intros j _. unfold at_, isin. rewrite HGg, list_lookup_fmap. simpl.
    destruct (cells (col_take pos g0) !! j) as [v|]; simpl.
    + split; [intros [= Hv]; by exists v|by intros (v' & [= <-] & ->)].
    + split; [done|by intros (v' & ? & _)].
  - unfold isin. rewrite length_fmap. by apply (column_length G "main_genre").
Qed.

End HeatmapFrame.

(** ** The tables of the other charts *)

Lemma at_IntCol f n xs j :
  get_col n (columns f) = Some (IntCol xs) ->
  at_ f n j = cell VInt <$> xs !! j.
Proof. intros Hc. unfold at_. rewrite Hc. simpl. by rewrite list_lookup_fmap. Qed.

Lemma at_IntCol_VInt f n xs j z :
  get_col n (columns f) = Some (IntCol xs) ->
  at_ f n j = Some (VInt z) <-> xs !! j = Some (Some z).
Proof.
  intros Hc. rewrite (at_IntCol f n xs j Hc).
  destruct (xs !! j) as [[z'|]|]; simpl; split; try done; by intros [= ->].
Qed.

Lemma ge_mask_true (k : Z) (xs : list (option Z)) j :
  ((fun o : option Z => match o with
                        | Some z => (k <=? z)%Z
                        | None => false
                        end) <$> xs) !! j = Some true
  <-> exists z, xs !! j = Some (Some z) /\ (k <= z)%Z.
Proof.
  rewrite list_lookup_fmap.
  destruct (xs !! j) as [[z|]|]; simpl.
  - split.
    + intros [= Hz%Z.leb_le]. by exists z.
    + intros (z' & [= <-] & Hz%Z.leb_le). by rewrite Hz.
  - split; [done|]. by intros (z' & ? & _).
  - split; [done|]. by intros (z' & ? & _).
Qed.

(** X12.  [df_modern] is the table cut down to the titles released in 2004
    or later: with an integer [release_year] line 107 returns, and its table
    holds exactly the rows whose year is at least 2004, each once, in order,
    with their labels and every cell as it was. *)
Theorem df_modern_selects (f : DataFrame) (years : list (option Z)) :
  well_formed f ->
  get_col "release_year" (columns f) = Some (IntCol years) ->
  exists modern,
    df_modern f = Ok modern
    /\ well_formed modern
    /\ selects (fun j => exists z,
                  at_ f "release_year" j = Some (VInt z) /\ (2004 <= z)%Z)
               f modern [].
Proof.
  intros Hwf Hy. unfold df_modern, column_of. rewrite Hy. cbn [ge_scalar].
  set (mask := _ <$> years).
  assert (length mask = nrows f) as Hlen.
  { unfold mask. rewrite length_fmap.
    pose proof (column_length f _ _ Hwf Hy) as Hl. simpl in Hl.
    by rewrite length_fmap in Hl. }
  eexists. split; [done|]. split; [by apply df_mask_well_formed|].
  eapply selects_iff; [|exact (df_mask_selects mask f Hwf Hlen)].
  intros j _. unfold mask. rewrite ge_mask_true.
  by setoid_rewrite (at_IntCol_VInt f "release_year" years j _ Hy).
Qed.

Lemma max_Z_None xs : max_Z xs = None <-> Forall (fun o => o = None) xs.
Proof.
  induction xs as [|[z|] r IH]; simpl.
  - split; [constructor|done].
  - split.
    + destruct (max_Z r); done.
    + by intros [[=] _]%Forall_cons.
  - rewrite IH. split; [by constructor|by intros [_ ?]%Forall_cons].
Qed.

Lemma max_Z_Some xs m :
  max_Z xs = Some m ->
  Some m ∈ xs /\ forall z, Some z ∈ xs -> (z <= m)%Z.
Proof.
  revert m. induction xs as [|[z|] r IH]; intros m; simpl.
  - done.
  - destruct (max_Z r) as [m'|] eqn:Hr.
    + intros [= <-]. destruct (IH m' eq_refl) as [Hin Hle]. split.
      * destruct (Z.max_spec z m') as [[_ ->]|[_ ->]];
          [by right|by left].
      * intros z' [[= ->]|Hz']%elem_of_cons; [lia|].
        specialize (Hle z' Hz'). lia.
    + intros [= <-]. split; [by left|].
      intros z' [[= ->]|Hz']%elem_of_cons; [lia|].
      apply max_Z_None in Hr. rewrite Forall_forall in Hr.
      by specialize (Hr _ Hz').
  - intros Hm. destruct (IH m Hm) as [Hin Hle]. split; [by right|].
    intros z' [?|Hz']%elem_of_cons; [done|]. by apply Hle.
Qed.

Lemma elem_of_take_at {A} (pos : list nat) (xs : list (option A)) (a : A) :
  Some a ∈ take_at pos xs <-> exists j, j ∈ pos /\ xs !! j = Some (Some a).
Proof.
  unfold take_at. rewrite list_elem_of_fmap. split.
  - intros (j & Hj & Hin). exists j. split; [done|].
    destruct (xs !! j) as [o|]; simpl in Hj; by subst.
  - intros (j & Hin & Hj). exists j. by rewrite Hj.
Qed.

(** X13.  The year slider.  With an integer [release_year], lines 107-118
    return exactly when some title was released in 2004 or later.  Then the
    slider runs from 2004 in steps of one up to the latest release year of
    the whole table, a year that some title has, and starts at that year.
    When no title is that recent, [df_modern] is empty, its maximum is NaN
    and [int] raises [ValueError]. *)
Theorem year_slider_bounds (f : DataFrame) (years : list (option Z)) :
  well_formed f ->
  get_col "release_year" (columns f) = Some (IntCol years) ->
  ((forall j z, at_ f "release_year" j = Some (VInt z) -> (z < 2004)%Z) ->
     year_chart_inputs f = Raise nan_to_int)
  /\ (forall j z, at_ f "release_year" j = Some (VInt z) -> (2004 <= z)%Z ->
        exists modern p,
          year_chart_inputs f = Ok (modern, p)
          /\ df_modern f = Ok modern
          /\ slider_min p = 2004%Z
          /\ slider_step p = 1%Z
          /\ param_value p = slider_max p
          /\ (slider_min p <= slider_max p)%Z
          /\ (exists j', at_ f "release_year" j' = Some (VInt (slider_max p)))
          /\ (forall j' z', at_ f "release_year" j' = Some (VInt z') ->
                (z' <= slider_max p)%Z)).
Proof.
  intros Hwf Hy.
  unfold year_chart_inputs, df_modern, year_param, column_of.
  rewrite Hy. cbn [ge_scalar].
  set (mask := _ <$> years).
  unfold df_mask. rewrite get_col_df_take, Hy. cbn [fmap option_fmap option_map].
  cbn [col_take int_max].
  set (pos := mask_positions 0 mask).
  assert (forall z, Some z ∈ take_at pos years <->
                    exists j, years !! j = Some (Some z) /\ (2004 <= z)%Z) as Hin.
  { intros z. rewrite elem_of_take_at. split.
    - intros (j & Hj & Hz). exists j. split; [done|].
      apply mask_positions_spec in Hj as [_ Hj]. rewrite Nat.sub_0_r in Hj.
      apply ge_mask_true in Hj as (z' & Hz' & Hle). by simplify_eq.
    - intros (j & Hz & Hle). exists j. split; [|done].
      apply mask_positions_spec. rewrite Nat.sub_0_r. split; [lia|].
      apply ge_mask_true. by exists z. }
  split.
  - intros Hold.
    assert (max_Z (take_at pos years) = None) as ->; [|done].
    apply max_Z_None, Forall_forall. intros [z|] Hz; [|done].
    apply Hin in Hz as (j & Hz & Hle).
    apply (at_IntCol_VInt f _ _ j z Hy) in Hz. specialize (Hold j z Hz). lia.
  - intros j z Hz Hle. apply (at_IntCol_VInt f _ _ j z Hy) in Hz.
    destruct (max_Z (take_at pos years)) as [m|] eqn:Hm.
    2:{ apply max_Z_None in Hm. rewrite Forall_forall in Hm.
        assert (Some z ∈ take_at pos years) as Hz' by (apply Hin; eauto).
        by specialize (Hm _ Hz'). }
    apply max_Z_Some in Hm as [Hmin Hmax].
    apply Hin in Hmin as (jm & Hjm & Hmle).
    eexists _, _. split; [done|]. split; [done|]. cbn [slider_min slider_max
      slider_step param_value].
    split; [done|]. split; [done|]. split; [done|]. split; [done|].
    split.
    + exists jm. by apply (at_IntCol_VInt f _ _ jm m Hy).
    + intros j' z' Hz'. apply (at_IntCol_VInt f _ _ j' z' Hy) in Hz'.
      destruct (decide (2004 <= z')%Z) as [Hge|Hlt]; [|lia].
      apply Hmax, Hin. eauto.
Qed.

Lemma wrap64_small z : (- 2 ^ 63 <= z < 2 ^ 63)%Z -> wrap64 z = z.
Proof. intros Hz. unfold wrap64. rewrite Z.mod_small by lia. lia. Qed.

(** X14.  The lag table.  With integer [year_added] and [release_year],
    lines 281-282 return a table that holds exactly the rows that have a
    year added, each once, in order, with every cell as it was;
    [lag_years] is the one column that is new, and in every row it is the
    year added minus the release year of that row in 64-bit arithmetic,
    which is their difference whenever that fits in 64 bits (null where the
    release year is null). *)
Theorem lag_df_rows (f : DataFrame) (added released : list (option Z)) :
  well_formed f ->
  get_col "year_added" (columns f) = Some (IntCol added) ->
  get_col "release_year" (columns f) = Some (IntCol released) ->
  exists lag,
    lag_df f = Ok lag
    /\ well_formed lag
    /\ selects (fun j => exists y, at_ f "year_added" j = Some (VInt y))
               f lag ["lag_years"]
    /\ forall i, (i < nrows lag)%nat ->
         exists y,
           at_ lag "year_added" i = Some (VInt y)
           /\ ((exists r, at_ lag "release_year" i = Some (VInt r)
                          /\ at_ lag "lag_years" i
                             = Some (VInt (wrap64 (y - r)))
                          /\ ((- 2 ^ 63 <= y - r < 2 ^ 63)%Z ->
                              at_ lag "lag_years" i = Some (VInt (y - r))))
               \/ (at_ lag "release_year" i = Some VNull
                   /\ at_ lag "lag_years" i = Some VNull)).
Proof.
  intros Hwf Hy Hr. unfold lag_df, column_of. rewrite Hy.
  unfold df_mask. rewrite !get_col_df_take, Hy, Hr.
  cbn [fmap option_fmap option_map col_take col_sub].
  set (mask := notna (IntCol added)).
  set (pos := mask_positions 0 mask).
  assert (length added = nrows f) as Hla.
  { pose proof (column_length f _ _ Hwf Hy) as Hl. simpl in Hl.
    by rewrite length_fmap in Hl. }
  assert (length released = nrows f) as Hlr.
  { pose proof (column_length f _ _ Hwf Hr) as Hl. simpl in Hl.
    by rewrite length_fmap in Hl. }
  assert (length mask = nrows f) as Hlen.
  { unfold mask, notna. simpl. by rewrite !length_fmap. }
  assert (forall j, mask !! j = Some true <-> exists y, added !! j = Some (Some y))
    as Hmask.
  { intros j. unfold mask, notna. simpl. rewrite !list_lookup_fmap.
    destruct (added !! j) as [[y|]|]; simpl; split; try done; eauto;
      by intros [? ?]. }
  eexists. split; [done|]. split.
  { apply (well_formed_set_col (df_take pos f)).
    - by apply (df_mask_well_formed mask f).
    - rewrite nrows_df_take. simpl.
      rewrite length_fmap, length_zip_with. unfold take_at.
      rewrite !length_fmap. lia. }
  split.
  { apply (selects_set_col _ f (df_take pos f) []).
    eapply selects_iff; [|exact (df_mask_selects mask f Hwf Hlen)].
    intros j _. rewrite Hmask.
    by setoid_rewrite (at_IntCol_VInt f "year_added" added j _ Hy). }
  intros i Hi. unfold nrows in Hi. cbn [index] in Hi.
  fold (nrows (df_take pos f)) in Hi. rewrite nrows_df_take in Hi.
  destruct (lookup_lt_is_Some_2 _ _ Hi) as [j Hj].
  assert (j ∈ pos) as Hjin by (by eapply list_elem_of_lookup_2).
  apply mask_positions_spec in Hjin as [_ Hjm]. rewrite Nat.sub_0_r in Hjm.
  apply Hmask in Hjm as [y Hyj].
  assert (j < length released)%nat as Hjr.
  { rewrite Hlr, <- Hla. by eapply lookup_lt_Some. }
  destruct (lookup_lt_is_Some_2 _ _ Hjr) as [r Hrj].
  exists y. unfold at_. cbn [columns].
  rewrite get_set_col_eq, !get_set_col_ne by done.
  rewrite !get_col_df_take, Hy, Hr. simpl.
  rewrite !list_lookup_fmap, lookup_zip_with. unfold take_at.
  rewrite !list_lookup_fmap, Hj. simpl. rewrite Hyj, Hrj. simpl.
  split; [done|]. destruct r as [r|]; simpl.
  - left. exists r. split; [done|]. split; [done|].
    intros Hfit. by rewrite (wrap64_small _ Hfit).
  - by right.
Qed.

(** ** The script as a whole *)

Section ScriptRuns.

Context `{Library}.




End ScriptRuns.

(** ** The first entry has no comma *)

Lemma contains_false sep s :
  PyStr.contains sep s = false
  <-> PyStr.all (fun d => negb (Ascii.eqb d sep)) s = true.
Proof. unfold PyStr.contains. by destruct (PyStr.all _ s). Qed.

Lemma before_no_sep sep s : PyStr.contains sep (PyStr.before sep s) = false.
Proof.
  apply contains_false. induction s as [|c r IH]; simpl; [done|].
  destruct (Ascii.eqb c sep) eqn:Hc; simpl; [done|]. by rewrite Hc.
Qed.

Lemma all_lstrip p s : PyStr.all p s = true -> PyStr.all p (PyStr.lstrip s) = true.
Proof.
  induction s as [|c r IH]; simpl; [done|].
  intros [Hc Hr]%andb_prop. destruct (PyStr.isspace c); [by apply IH|].
  simpl. by rewrite Hc, Hr.
Qed.

Lemma all_rstrip p s : PyStr.all p s = true -> PyStr.all p (PyStr.rstrip s) = true.
Proof.
  induction s as [|c r IH]; simpl; [done|].
  intros [Hc Hr]%andb_prop. specialize (IH Hr).
  destruct (PyStr.rstrip r) as [|c' r'].
  - destruct (PyStr.isspace c); [done|]. simpl. by rewrite Hc.
  - change (PyStr.all p (String c (String c' r')) = true).
    simpl. simpl in IH. by rewrite Hc, IH.
Qed.

Lemma strip_no_sep sep s :
  PyStr.contains sep s = false -> PyStr.contains sep (PyStr.strip s) = false.
Proof.
  rewrite !contains_false. intros Hs. by apply all_lstrip, all_rstrip.
Qed.

Section Tokens.

Context `{Library}.

(** X16.  In a cleaned table no [country_primary] and no [main_genre]
    contains a comma, and each is a piece of the row's [country] or
    [listed_in]: the text comes from the entry before the first comma, so
    a title counts under one country and under one genre. *)
Theorem clean_first_entries_have_no_comma (f g : DataFrame)
    (src dst : string) (i : nat) (t : string) :
  NoDup (col_names f) ->
  clean f = (Ok tt, g) ->
  (src = "country" /\ dst = "country_primary"
   \/ src = "listed_in" /\ dst = "main_genre") ->
  at_ g dst i = Some (VStr t) ->
  PyStr.contains "," t = false
  /\ exists s, at_ f src i = Some (VStr s)
               /\ t = PyStr.strip (PyStr.before "," s).
Proof.
  intros Hf Hrun%clean_Cleaned Hnames Hat; [|done].
  assert (exists c, get_col src (columns f) = Some c) as [c Hc].
  { destruct Hrun as [da du co li xs p0 p1 cp mg Hda Hdu Hxs Hp0 Hp1 Hco Hcp Hli Hmg].
    simpl in Hco, Hli. rewrite get_col_strip in Hco, Hli.
    destruct Hnames as [[-> ->]|[-> ->]].
    - destruct (get_col "country" (columns f)); [eauto|done].
    - destruct (get_col "listed_in" (columns f)); [eauto|done]. }
  assert (exists v, at_ f src i = Some v) as [v Hv].
  { unfold at_. rewrite Hc. simpl.
    destruct Hrun as [da du co li xs p0 p1 cp mg Hda Hdu Hxs Hp0 Hp1 Hco Hcp Hli Hmg].
    simpl in Hco, Hli. rewrite get_col_strip in Hco, Hli.
    unfold at_ in Hat. simpl in Hat. rewrite get_derive in Hat.
    apply lookup_lt_is_Some_2.
    destruct Hnames as [[-> ->]|[-> ->]]; simpl in Hat.
    - rewrite Hc in Hco. injection Hco as <-.
      unfold apply in Hcp. apply map_result_length in Hcp.
      apply lookup_lt_Some in Hat.
      simpl in Hat. by rewrite length_fmap, Hcp, cells_strip_length in Hat.
    - rewrite Hc in Hli. injection Hli as <-.
      unfold apply in Hmg. apply map_result_length in Hmg.
      apply lookup_lt_Some in Hat.
      simpl in Hat. by rewrite length_fmap, Hmg, cells_strip_length in Hat. }
  assert (v = VNull \/ v <> VNull) as [->|Hnn] by (destruct v; auto).
  - destruct Hrun as [da du co li xs p0 p1 cp mg Hda Hdu Hxs Hp0 Hp1 Hco Hcp Hli Hmg].
    simpl in Hco, Hli. rewrite get_col_strip in Hco, Hli.
    unfold at_ in Hat, Hv. simpl in Hat. rewrite get_derive in Hat.
    rewrite Hc in Hv. simpl in Hv.
    assert (forall out, apply first_token_stripped (strip_col c) = Ok out ->
                        out !! i = Some None) as Hout.
    { intros out Hap. unfold apply in Hap.
      eapply map_result_lookup in Hap as (b & Hb & ->).
      2:{ by rewrite cells_strip_col, Hv. }
      by injection Hb as <-. }
    destruct Hnames as [[-> ->]|[-> ->]]; simpl in Hat.
    + rewrite Hc in Hco. injection Hco as <-.
      by rewrite list_lookup_fmap, (Hout cp Hcp) in Hat.
    + rewrite Hc in Hli. injection Hli as <-.
      by rewrite list_lookup_fmap, (Hout mg Hmg) in Hat.
  - destruct (first_token_row f g src dst i v Hrun Hnames Hv Hnn)
      as (s & -> & Hdst).
    rewrite Hdst in Hat. injection Hat as <-.
    split; [apply strip_no_sep, before_no_sep|]. by exists s.
Qed.

End Tokens.

(** ** The theorems at the example tables *)

Lemma reference_to_datetime_length c :
  length (Reference.to_datetime c) = length (cells c).
Proof. destruct c; simpl; by rewrite ?length_fmap. Qed.

Lemma clean_fixture :
  clean (H := Reference.library) fixture = (Ok tt, cleaned_fixture).
Proof. by vm_compute. Qed.

Lemma cleaned_fixture_well_formed : well_formed cleaned_fixture.
Proof. split; apply (bool_decide_unpack _); by vm_compute. Qed.

Lemma clean_returns_iff_witness :
  NoDup (col_names fixture)
  /\ ((exists g, clean (H := Reference.library) fixture = (Ok tt, g)) <->
      (exists c, get_col "date_added" (columns fixture) = Some c)
      /\ (exists xs, get_col "duration" (columns fixture) = Some (ObjectCol xs)
           /\ exists i s, xs !! i = Some (Some s)
                          /\ PyStr.contains " " (PyStr.strip s) = true)
      /\ (exists c, get_col "country" (columns fixture) = Some c /\ text_or_null c)
      /\ (exists c, get_col "listed_in" (columns fixture) = Some c
                    /\ text_or_null c)).
Proof.
  split; [exact fixture_names|].
  exact (clean_returns_iff (H := Reference.library) fixture fixture_names).
Defined.

Lemma null_safety_witness :
  NoDup (col_names fixture)
  /\ clean (H := Reference.library) fixture = (Ok tt, cleaned_fixture)
  /\ (at_ fixture "country" 1 = Some VNull ->
      at_ cleaned_fixture "country_primary" 1 = Some VNull)
  /\ (at_ fixture "listed_in" 2 = Some VNull ->
      at_ cleaned_fixture "main_genre" 2 = Some VNull)
  /\ (at_ fixture "duration" 2 = Some VNull ->
      at_ cleaned_fixture "duration_int" 2 = Some VNull
      /\ at_ cleaned_fixture "duration_type" 2 = Some VNull)
  /\ (at_ fixture "date_added" 2 = Some VNull ->
      at_ cleaned_fixture "year_added" 2 = Some VNull)
  /\ (at_ cleaned_fixture "date_added" 3 = Some VNull ->
      at_ cleaned_fixture "year_added" 3 = Some VNull).
Proof.
  pose proof (null_safety (H := Reference.library) reference_to_datetime_null
                fixture cleaned_fixture 1 fixture_names clean_fixture) as H1.
  pose proof (null_safety (H := Reference.library) reference_to_datetime_null
                fixture cleaned_fixture 2 fixture_names clean_fixture) as H2.
  pose proof (null_safety (H := Reference.library) reference_to_datetime_null
                fixture cleaned_fixture 3 fixture_names clean_fixture) as H3.
  split; [exact fixture_names|]. split; [exact clean_fixture|].
  split; [exact (proj1 H1)|].
  split; [exact (proj1 (proj2 H2))|].
  split; [exact (proj1 (proj2 (proj2 H2)))|].
  split; [exact (proj1 (proj2 (proj2 (proj2 H2))))|].
  exact (proj2 (proj2 (proj2 (proj2 H3)))).
Defined.

Lemma fixture_without_names name : NoDup (col_names (fixture_without name)).
Proof.
  unfold col_names, fixture_without. cbn [columns].
  apply (NoDup_fmap_2_strong fst).
  - intros [n1 c1] [n2 c2] [_ H1]%list_elem_of_filter [_ H2]%list_elem_of_filter Heq.
    simpl in Heq. subst n2. f_equal.
    pose proof fixture_names as Hnd.
    apply elem_of_get_col in H1; [|done]. apply elem_of_get_col in H2; [|done].
    by simplify_eq.
  - apply NoDup_filter. eapply NoDup_fmap_1. exact fixture_names.
Qed.

Lemma clean_missing_column_witness :
  NoDup (col_names (fixture_without "date_added"))
  /\ (clean (H := Reference.library) (fixture_without "date_added")).1
     = Raise (KeyError "date_added")
  /\ (clean (H := Reference.library) (fixture_without "duration")).1
     = Raise (KeyError "duration")
  /\ (clean (H := Reference.library) (fixture_without "country")).1
     = Raise (KeyError "country")
  /\ (clean (H := Reference.library) (fixture_without "listed_in")).1
     = Raise (KeyError "listed_in").
Proof.
  split; [apply fixture_without_names|].
  split.
  { exact (proj1 (clean_missing_column (H := Reference.library)
                    (fixture_without "date_added")
                    (fixture_without_names "date_added")) eq_refl). }
  split.
  { exact (proj1 (proj2 (clean_missing_column (H := Reference.library)
                           (fixture_without "duration")
                           (fixture_without_names "duration")))
             (mk_is_Some _ _ eq_refl) eq_refl). }
  split.
  { exact (proj1 (proj2 (proj2 (clean_missing_column (H := Reference.library)
                                  (fixture_without "country")
                                  (fixture_without_names "country")))
                    _ 0%nat "90 min" (mk_is_Some _ _ eq_refl) eq_refl eq_refl
                    eq_refl)
             eq_refl). }
  assert (text_or_null
            (ObjectCol [Some "United States, India"; None; Some " France ";
                        Some "India"; Some "Japan"])) as Htext.
  { unfold text_or_null. simpl.
    repeat (apply Forall_cons; split; [eauto|]). apply Forall_nil_2. }
  exact (proj2 (proj2 (proj2 (clean_missing_column (H := Reference.library)
                                (fixture_without "listed_in")
                                (fixture_without_names "listed_in")))
                  _ 0%nat "90 min" (mk_is_Some _ _ eq_refl) eq_refl eq_refl
                  eq_refl)
           _ eq_refl Htext eq_refl).
Defined.

Lemma with_duration_names c : NoDup (col_names (with_duration c)).
Proof.
  unfold col_names, with_duration. cbn [columns].
  apply NoDup_set_col. exact fixture_names.
Qed.

Lemma clean_needs_a_two_part_duration_witness :
  NoDup (col_names fixture_single_words)
  /\ (clean (H := Reference.library) fixture_single_words).1
     = Raise (KeyError "1")
  /\ (clean (H := Reference.library) fixture_numeric_durations).1
     = Raise needs_str.
Proof.
  split; [apply with_duration_names|]. split.
  - refine (proj2 (clean_needs_a_two_part_duration (H := Reference.library)
                     fixture_single_words _ _
                     (with_duration_names _) eq_refl eq_refl)
              _ eq_refl _ _); [done|].
    intros [|[|[|[|[|i]]]]] s; simpl; intros [= <-] || intros [=]; reflexivity.
  - exact (proj1 (clean_needs_a_two_part_duration (H := Reference.library)
                    fixture_numeric_durations _ _
                    (with_duration_names _) eq_refl eq_refl)
             eq_refl).
Defined.

Lemma clean_shape_witness :
  NoDup (col_names fixture)
  /\ clean (H := Reference.library) fixture = (Ok tt, cleaned_fixture)
  /\ index cleaned_fixture = index fixture
  /\ col_names cleaned_fixture
     = (col_names fixture
        ++ filter (fun n => n ∉ col_names fixture) derived_names)%list
  /\ (well_formed fixture -> well_formed cleaned_fixture).
Proof.
  split; [exact fixture_names|]. split; [exact clean_fixture|].
  exact (clean_shape (H := Reference.library) reference_to_datetime_length
           fixture cleaned_fixture fixture_names clean_fixture).
Defined.

Lemma clean_other_columns_witness :
  NoDup (col_names fixture)
  /\ clean (H := Reference.library) fixture = (Ok tt, cleaned_fixture)
  /\ ("title" ∉ assigned_names)
  /\ get_col "title" (columns cleaned_fixture)
     = strip_col <$> get_col "title" (columns fixture).
Proof.
  assert ("title" ∉ assigned_names) as Hn
    by (apply (bool_decide_unpack _); by vm_compute).
  split; [exact fixture_names|]. split; [exact clean_fixture|].
  split; [exact Hn|].
  exact (clean_other_columns (H := Reference.library)
           fixture cleaned_fixture "title" fixture_names clean_fixture Hn).
Defined.

Lemma clean_text_is_stripped_witness :
  NoDup (col_names fixture)
  /\ clean (H := Reference.library) fixture = (Ok tt, cleaned_fixture)
  /\ at_ fixture "title" 1 = Some (VStr "Beta ")
  /\ at_ cleaned_fixture "title" 1 = Some (VStr "Beta")
  /\ PyStr.strip "Beta" = "Beta".
Proof.
  split; [exact fixture_names|]. split; [exact clean_fixture|].
  split; [reflexivity|]. split; [reflexivity|].
  refine (clean_text_is_stripped (H := Reference.library)
            fixture cleaned_fixture "title" 1 "Beta" fixture_names
            clean_fixture _ eq_refl).
  done.
Defined.

Lemma heatmap_tables_frame_witness :
  let w := {| heap := [fixture; cleaned_fixture]; files := []; np_random := 0 |} in
  let out := heatmap_tables (H := Reference.library) 1 w in
  heap w !! 1%nat = Some cleaned_fixture
  /\ (forall r, (r < 2)%nat -> heap out.2 !! r = heap w !! r)
  /\ files out.2 = []
  /\ out.1 = Ok (4%nat, 5%nat)
  /\ length (heap out.2) = 6%nat
  /\ heap out.2 !! 2%nat
     = Some (genre_counts_of (H := Reference.library)
               (ObjectCol [Some "Dramas"; Some "Dramas"; None;
                           Some "Kids' TV"; Some "Comedies"])).
Proof.
  intros w out.
  destruct (heatmap_tables_frame (H := Reference.library) w 1 cleaned_fixture
              eq_refl) as (Hheap & Hfiles & _ & _ & Hret).
  destruct (Hret _ eq_refl (mk_is_Some _ _ eq_refl)) as (Hout & Hlen & Hcounts).
  split; [reflexivity|]. split; [exact Hheap|]. split; [exact Hfiles|].
  split; [exact Hout|]. split; [exact Hlen|exact Hcounts].
Defined.

Lemma df_genre_selects_witness :
  let w := {| heap := [fixture; cleaned_fixture]; files := []; np_random := 0 |} in
  let out := heatmap_tables (H := Reference.library) 1 w in
  heap w !! 1%nat = Some cleaned_fixture
  /\ well_formed cleaned_fixture
  /\ out = (Ok (4%nat, 5%nat), out.2)
  /\ exists G,
       heap out.2 !! 4%nat = Some G
       /\ well_formed G
       /\ selects (fun j => exists g r,
                     at_ cleaned_fixture "main_genre" j = Some g
                     /\ isna g = false
                     /\ at_ cleaned_fixture "rating" j = Some r
                     /\ isna r = false)
                  cleaned_fixture G ["rating_group"].
Proof.
  intros w out.
  assert (Hrun : out = (Ok (4%nat, 5%nat), out.2)) by by vm_compute.
  split; [reflexivity|]. split; [exact cleaned_fixture_well_formed|].
  split; [exact Hrun|].
  exact (df_genre_selects (H := Reference.library) w out.2 1 4 5 cleaned_fixture
           eq_refl cleaned_fixture_well_formed Hrun).
Defined.

Lemma df_genre_top_selects_witness :
  let w := {| heap := [fixture; cleaned_fixture]; files := []; np_random := 0 |} in
  let out := heatmap_tables (H := Reference.library) 1 w in
  heap w !! 1%nat = Some cleaned_fixture
  /\ well_formed cleaned_fixture
  /\ out = (Ok (4%nat, 5%nat), out.2)
  /\ exists G T genres,
       heap out.2 !! 4%nat = Some G
       /\ heap out.2 !! 5%nat = Some T
       /\ get_col "main_genre" (columns cleaned_fixture) = Some genres
       /\ selects (fun j => exists v,
                     at_ G "main_genre" j = Some v
                     /\ py_in v (Reference.value_counts_nlargest 10 genres).*1
                        = true)
                  G T [].
Proof.
  intros w out.
  assert (Hrun : out = (Ok (4%nat, 5%nat), out.2)) by by vm_compute.
  split; [reflexivity|]. split; [exact cleaned_fixture_well_formed|].
  split; [exact Hrun|].
  exact (df_genre_top_selects (H := Reference.library) w out.2 1 4 5
           cleaned_fixture eq_refl cleaned_fixture_well_formed Hrun).
Defined.

Lemma df_modern_selects_witness :
  well_formed cleaned_fixture
  /\ exists modern,
       df_modern cleaned_fixture = Ok modern
       /\ well_formed modern
       /\ selects (fun j => exists z,
                     at_ cleaned_fixture "release_year" j = Some (VInt z)
                     /\ (2004 <= z)%Z)
                  cleaned_fixture modern [].
Proof.
  split; [exact cleaned_fixture_well_formed|].
  exact (df_modern_selects cleaned_fixture
           [Some 2018; Some 2021; Some 1999; Some 2004; Some 2020]%Z
           cleaned_fixture_well_formed eq_refl).
Defined.

Lemma year_slider_bounds_witness :
  well_formed cleaned_fixture
  /\ at_ cleaned_fixture "release_year" 0 = Some (VInt 2018)
  /\ exists modern p,
       year_chart_inputs cleaned_fixture = Ok (modern, p)
       /\ df_modern cleaned_fixture = Ok modern
       /\ slider_min p = 2004%Z
       /\ slider_step p = 1%Z
       /\ param_value p = slider_max p
       /\ (slider_min p <= slider_max p)%Z
       /\ (exists j', at_ cleaned_fixture "release_year" j'
                      = Some (VInt (slider_max p)))
       /\ (forall j' z', at_ cleaned_fixture "release_year" j' = Some (VInt z') ->
             (z' <= slider_max p)%Z).
Proof.
  split; [exact cleaned_fixture_well_formed|]. split; [reflexivity|].
  refine (proj2 (year_slider_bounds cleaned_fixture
                   [Some 2018; Some 2021; Some 1999; Some 2004; Some 2020]%Z
                   cleaned_fixture_well_formed eq_refl)
            0%nat 2018%Z eq_refl _).
  lia.
Defined.

Lemma lag_df_rows_witness :
  well_formed cleaned_fixture
  /\ exists lag,
       lag_df cleaned_fixture = Ok lag
       /\ well_formed lag
       /\ selects (fun j => exists y,
                     at_ cleaned_fixture "year_added" j = Some (VInt y))
                  cleaned_fixture lag ["lag_years"]
       /\ forall i, (i < nrows lag)%nat ->
            exists y,
              at_ lag "year_added" i = Some (VInt y)
              /\ ((exists r, at_ lag "release_year" i = Some (VInt r)
                             /\ at_ lag "lag_years" i
                                = Some (VInt (wrap64 (y - r)))
                             /\ ((- 2 ^ 63 <= y - r < 2 ^ 63)%Z ->
                                 at_ lag "lag_years" i = Some (VInt (y - r))))
                  \/ (at_ lag "release_year" i = Some VNull
                      /\ at_ lag "lag_years" i = Some VNull)).
Proof.
  split; [exact cleaned_fixture_well_formed|].
  exact (lag_df_rows cleaned_fixture
           [Some 2019; Some 2021; None; None; Some 2020]%Z
           [Some 2018; Some 2021; Some 1999; Some 2004; Some 2020]%Z
           cleaned_fixture_well_formed eq_refl eq_refl).
Defined.


Lemma clean_first_entries_have_no_comma_witness :
  NoDup (col_names fixture)
  /\ clean (H := Reference.library) fixture = (Ok tt, cleaned_fixture)
  /\ at_ cleaned_fixture "country_primary" 0 = Some (VStr "United States")
  /\ PyStr.contains "," "United States" = false
  /\ exists s, at_ fixture "country" 0 = Some (VStr s)
               /\ "United States" = PyStr.strip (PyStr.before "," s).
Proof.
  split; [exact fixture_names|]. split; [exact clean_fixture|].
  split; [reflexivity|].
  exact (clean_first_entries_have_no_comma (H := Reference.library)
           fixture cleaned_fixture "country" "country_primary" 0 "United States"
           fixture_names clean_fixture (or_introl (conj eq_refl eq_refl))
           eq_refl).
Defined.
